(** * CDX-ACM-VF: data-access facade, view materializer and portfolio routes

    A shallow embedding of [utils/data.py] and [blueprints/portfolio/routes.py].

    Python values are embedded as the inductive type [pyval]; a Python
    [dict] is an association list in insertion order with unique keys
    (the order CPython keeps), so equality of two embedded dicts implies
    equality of the Python dicts.  Code that may raise is written in the
    error monad [result]; [try ... except Exception] is [try_except].
    Code that writes to the database runs in the state monad [io] over
    the session: the committed rows, the pending changes and the files.
    A [str] is held as the bytes of its UTF-8 encoding, and [len],
    slices, iteration and [strip] work on its code points.  The file
    [data.json] is held as the document [json.load] reads from it.
    Collaborators that are not among the sources ([models.py], the
    notifier, the rate limiter, the PDF libraries) are section
    variables, and what [strftime] leaves to the C library is a
    parameter of class [Platform].  Calls to [current_app.logger] are
    not part of the embedding. *)

From Stdlib Require Import String Ascii List ZArith Bool Arith Lia Permutation.
From Stdlib Require Import DecimalString.
Import ListNotations.
Local Open Scope string_scope.
Local Open Scope list_scope.
Set Warnings "-register-all".

(* ================================================================== *)
(** * Python values and exceptions *)
(* ================================================================== *)

(** The exception classes the two source files can meet.  All of them
    derive from [Exception]. *)
Inductive exn : Type :=
| AttributeError
| TypeError
| KeyError
| ValueError
| ImportError (msg : string)
| OSError (msg : string)
| JSONDecodeError
| DatabaseError
| OtherException (msg : string).

Inductive result (A : Type) : Type :=
| Ok (a : A)
| Raise (e : exn).
Arguments Ok {A} a.
Arguments Raise {A} e.

Definition bind {A B : Type} (c : result A) (k : A -> result B) : result B :=
  match c with
  | Ok a => k a
  | Raise e => Raise e
  end.

Notation "x <- c ;; k" := (bind c (fun x => k))
  (at level 61, c at next level, right associativity).
Notation "' pat <- c ;; k" := (bind c (fun x => match x with pat => k end))
  (at level 61, pat pattern, c at next level, right associativity).

(** [try: body except Exception as e: handler(e)]. *)
Definition try_except {A : Type} (body : result A) (handler : exn -> result A)
  : result A :=
  match body with
  | Ok a => Ok a
  | Raise e => handler e
  end.

(** Monadic map and fold over a list, left to right, stopping at the
    first exception: a Python [for] loop or list comprehension. *)
Fixpoint mapM {A B : Type} (f : A -> result B) (l : list A) : result (list B) :=
  match l with
  | [] => Ok []
  | x :: l' => y <- f x ;; ys <- mapM f l' ;; Ok (y :: ys)
  end.

Fixpoint foldM {A S : Type} (f : S -> A -> result S) (l : list A) (s : S)
  : result S :=
  match l with
  | [] => Ok s
  | x :: l' => s' <- f s x ;; foldM f l' s'
  end.

(** Python objects as they occur in the views: [None], booleans,
    integers, strings, lists and string-keyed dicts. *)
Inductive pyval : Type :=
| PNone
| PBool (b : bool)
| PInt (z : Z)
| PStr (s : string)
| PList (l : list pyval)
| PDict (d : list (string * pyval)).

Definition pydict : Type := list (string * pyval).

(** Truth value testing ([bool(v)]). *)
Definition truthy (v : pyval) : bool :=
  match v with
  | PNone => false
  | PBool b => b
  | PInt z => negb (Z.eqb z 0)
  | PStr s => negb (String.eqb s "")
  | PList l => match l with [] => false | _ => true end
  | PDict d => match d with [] => false | _ => true end
  end.

(** [a or b]. *)
Definition py_or (a b : pyval) : pyval := if truthy a then a else b.

(** [v == s] for a [str] literal [s]: a [str] equals only an equal [str]. *)
Definition py_eq_str (v : pyval) (s : string) : bool :=
  match v with
  | PStr t => String.eqb t s
  | _ => false
  end.

Definition is_dict (v : pyval) : bool :=
  match v with PDict _ => true | _ => false end.

(** ** Dict operations *)

Fixpoint dict_get (d : pydict) (k : string) : option pyval :=
  match d with
  | [] => None
  | (k', v) :: d' => if String.eqb k' k then Some v else dict_get d' k
  end.

Definition has_key (d : pydict) (k : string) : bool :=
  match dict_get d k with Some _ => true | None => false end.

(** [d[k] = v]: overwrite in place, or append a new key. *)
Fixpoint dict_set (d : pydict) (k : string) (v : pyval) : pydict :=
  match d with
  | [] => [(k, v)]
  | (k', v') :: d' =>
      if String.eqb k' k then (k', v) :: d' else (k', v') :: dict_set d' k v
  end.

(** [d.update(e)]. *)
Definition dict_update (d e : pydict) : pydict :=
  fold_left (fun acc kv => dict_set acc (fst kv) (snd kv)) e d.

(** [d.get(k, default)] on a dict. *)
Definition dict_get_default (d : pydict) (k : string) (default : pyval) : pyval :=
  match dict_get d k with Some v => v | None => default end.

(** ** Strings *)

(** A [str] is held as the bytes of its UTF-8 encoding.  A byte of the
    form [10xxxxxx] continues a code point, every other byte starts
    one; [len], slices and iteration count code points. *)
Definition is_continuation (c : ascii) : bool :=
  let n := N_of_ascii c in N.leb 128 n && N.ltb n 192.

(** [len(s)]. *)
Fixpoint py_len (s : string) : nat :=
  match s with
  | EmptyString => 0
  | String c s' => if is_continuation c then py_len s' else S (py_len s')
  end.

(** The code points of a string, each with its bytes. *)
Fixpoint code_points (s : string) : list string :=
  match s with
  | EmptyString => []
  | String c s' =>
      let points := code_points s' in
      match s' with
      | EmptyString => [String c EmptyString]
      | String d _ =>
          if is_continuation d then
            match points with
            | p :: rest => String c p :: rest
            | [] => [String c EmptyString]
            end
          else String c EmptyString :: points
      end
  end.

(** [s in t] for two strings. *)
Fixpoint is_substring (s t : string) : bool :=
  String.prefix s t ||
  match t with
  | EmptyString => false
  | String _ t' => is_substring s t'
  end.

(** [for c in s]: one string of length one for each code point. *)
Definition chars_of (s : string) : list pyval := map PStr (code_points s).

(** ** Dynamically typed operations *)

(** [v.get(k, default)]: only a dict has the method. *)
Definition py_get (v : pyval) (k : string) (default : pyval) : result pyval :=
  match v with
  | PDict d => Ok (dict_get_default d k default)
  | _ => Raise AttributeError
  end.

(** [k in v] for a [str] key [k]. *)
Definition py_in_str (k : string) (v : pyval) : result bool :=
  match v with
  | PDict d => Ok (has_key d k)
  | PList l => Ok (existsb (fun x => py_eq_str x k) l)
  | PStr t => Ok (is_substring k t)
  | PNone | PBool _ | PInt _ => Raise TypeError
  end.

(** [v[k]] for a [str] key [k]. *)
Definition py_getitem (v : pyval) (k : string) : result pyval :=
  match v with
  | PDict d => match dict_get d k with Some x => Ok x | None => Raise KeyError end
  | _ => Raise TypeError
  end.

(** [v[k] = x] for a [str] key [k]. *)
Definition py_setitem (v : pyval) (k : string) (x : pyval) : result pyval :=
  match v with
  | PDict d => Ok (PDict (dict_set d k x))
  | _ => Raise TypeError
  end.

(** [for x in v]: the elements of a list, the keys of a dict, the
    characters of a string. *)
Definition py_iter (v : pyval) : result (list pyval) :=
  match v with
  | PList l => Ok l
  | PDict d => Ok (map (fun kv => PStr (fst kv)) d)
  | PStr s => Ok (chars_of s)
  | PNone | PBool _ | PInt _ => Raise TypeError
  end.

(* ================================================================== *)
(** * Dates and their formats *)
(* ================================================================== *)

Module Date.
Record t : Type := mk { year : N; month : N; day : N }.

Definition eqb (a b : t) : bool :=
  N.eqb (year a) (year b) && N.eqb (month a) (month b)
  && N.eqb (day a) (day b).
End Date.

Module Datetime.
Record t : Type := mk {
  year : N; month : N; day : N;
  hour : N; minute : N; second : N; microsecond : N }.

(** [dt.date()]. *)
Definition date (dt : t) : Date.t := Date.mk (year dt) (month dt) (day dt).

(** The ranges every Python [datetime] object satisfies. *)
Definition valid (dt : t) : Prop :=
  (1 <= year dt <= 9999 /\ 1 <= month dt <= 12 /\ 1 <= day dt <= 31 /\
   hour dt < 24 /\ minute dt < 60 /\ second dt < 60 /\
   microsecond dt < 1000000)%N.
End Datetime.

Definition digit_char (n : N) : ascii := ascii_of_N (48 + n mod 10)%N.

Definition pad2 (n : N) : string :=
  String (digit_char (n / 10)) (String (digit_char n) EmptyString).

Definition pad4 (n : N) : string :=
  String (digit_char (n / 1000)) (String (digit_char (n / 100))
    (String (digit_char (n / 10)) (String (digit_char n) EmptyString))).

Definition pad6 (n : N) : string :=
  String (digit_char (n / 100000)) (String (digit_char (n / 10000))
    (pad4 n)).

(** [strftime] hands [%Y] to the C library.  From the year 1000 on
    every library prints the four digits of the year.  Below, the
    output depends on the platform: glibc prints the number as it is
    ([999]), other libraries pad it with zeros ([0999]).  The platform
    is a parameter of the embedding. *)
Class Platform : Type := {
  year_below_1000 : N -> string }.

Definition strftime_year {platform : Platform} (y : N) : string :=
  if N.ltb y 1000 then year_below_1000 y else pad4 y.

(** [d.strftime('%Y-%m-%d')]. *)
Definition strftime_date {platform : Platform} (d : Date.t) : string :=
  strftime_year (Date.year d) ++ "-" ++ pad2 (Date.month d) ++ "-"
  ++ pad2 (Date.day d).

(** [dt.strftime('%Y-%m-%d %H:%M:%S')]. *)
Definition strftime_datetime {platform : Platform} (dt : Datetime.t) : string :=
  strftime_date (Datetime.date dt) ++ " " ++ pad2 (Datetime.hour dt) ++ ":"
  ++ pad2 (Datetime.minute dt) ++ ":" ++ pad2 (Datetime.second dt).

(** [dt.isoformat()] of a naive datetime, which Python formats itself:
    the year always has four digits, a [T] separates date and time, and
    the microseconds are printed when they are not zero. *)
Definition isoformat (dt : Datetime.t) : string :=
  pad4 (Datetime.year dt) ++ "-" ++ pad2 (Datetime.month dt) ++ "-"
  ++ pad2 (Datetime.day dt) ++ "T" ++ pad2 (Datetime.hour dt) ++ ":"
  ++ pad2 (Datetime.minute dt) ++ ":" ++ pad2 (Datetime.second dt)
  ++ (if N.eqb (Datetime.microsecond dt) 0 then ""
      else "." ++ pad6 (Datetime.microsecond dt)).

(** [x.strftime(...) if x else None]. *)
Definition fmt_datetime_or_none {platform : Platform}
    (x : option Datetime.t) : pyval :=
  match x with Some dt => PStr (strftime_datetime dt) | None => PNone end.

Definition fmt_date_or_none {platform : Platform} (x : option Date.t) : pyval :=
  match x with Some d => PStr (strftime_date d) | None => PNone end.

Definition isoformat_or_none (x : option Datetime.t) : pyval :=
  match x with Some dt => PStr (isoformat dt) | None => PNone end.

(** The two fixed patterns of the view: in a pattern the letters
    [Y M D H S] stand for one decimal digit, every other character for
    itself. *)
Definition is_digit (c : ascii) : bool :=
  N.leb 48 (N_of_ascii c) && N.leb (N_of_ascii c) 57.

Definition is_placeholder (c : ascii) : bool :=
  existsb (Ascii.eqb c) ["Y"; "M"; "D"; "H"; "S"]%char.

Fixpoint matches_pattern (pat s : string) : bool :=
  match pat, s with
  | EmptyString, EmptyString => true
  | String p pat', String c s' =>
      (if is_placeholder p then is_digit c else Ascii.eqb p c)
      && matches_pattern pat' s'
  | _, _ => false
  end.

Definition datetime_pattern : string := "YYYY-MM-DD HH:MM:SS".
Definition date_pattern : string := "YYYY-MM-DD".

(** A rendered date field of the view is well formed when it is [None]
    or a string of one of the two patterns. *)
Definition date_field_ok (v : pyval) : bool :=
  match v with
  | PNone => true
  | PStr s => matches_pattern datetime_pattern s || matches_pattern date_pattern s
  | _ => false
  end.

(* ================================================================== *)
(** * The relational store *)
(* ================================================================== *)

(** The model classes of [models.py] are used by the two source files
    through their attributes only.  Every attribute the source reads or
    writes is a field here; primary and foreign keys are integers, date
    columns are [None] or a date, and every other attribute holds a
    Python value. *)

Module Workspace.
Record t : Type := mk {
  id : Z; slug : string; name : pyval; title : pyval; description : pyval;
  about : pyval; photo : pyval; contact : pyval; social : pyval;
  settings : pyval; plan : pyval }.
End Workspace.

Module User.
Record t : Type := mk {
  id : Z; username : pyval; email : pyval; password_hash : pyval;
  role : pyval; is_demo : pyval; is_verified : pyval;
  must_change_password : pyval; created_at : option Datetime.t }.
End User.

Module Skill.
Record t : Type := mk { workspace_id : Z; name : pyval; level : pyval }.
End Skill.

Module Project.
Record t : Type := mk {
  workspace_id : Z; id : Z; title : pyval; description : pyval;
  short_description : pyval; content : pyval; image : pyval;
  demo_url : pyval; github_url : pyval; technologies : pyval;
  gallery : pyval; skill_related : pyval; project_type : pyval;
  badge : pyval; created_at : option Datetime.t;
  request_budget_min : pyval; request_budget_max : pyval;
  request_deadline : option Date.t; request_status : pyval }.
End Project.

Module Client.
Record t : Type := mk {
  workspace_id : Z; id : Z; name : pyval; email : pyval; phone : pyval;
  company : pyval; project_title : pyval; project_description : pyval;
  status : pyval; price : pyval; deadline : option Date.t;
  start_date : option Date.t; notes : pyval;
  created_at : option Datetime.t; status_updated_at : option Datetime.t }.
End Client.

Module Message.
Record t : Type := mk {
  workspace_id : Z; id : Z; name : pyval; email : pyval; message : pyval;
  is_read : pyval; category : pyval; sender_id : pyval; receiver_id : pyval;
  sender_role : pyval; request_type : pyval; interest_area : pyval;
  seriousness : pyval; contact_pref : pyval; company : pyval;
  created_at : option Datetime.t }.
End Message.

Module Service.
Record t : Type := mk {
  workspace_id : Z; id : Z; title : pyval; description : pyval;
  short_description : pyval; category : pyval; pricing_type : pyval;
  price_min : pyval; price_max : pyval; currency : pyval;
  deliverables : pyval; duration : pyval; skills_required : pyval;
  image : pyval; gallery : pyval; is_active : pyval; is_featured : pyval;
  created_at : option Datetime.t; updated_at : option Datetime.t }.
End Service.

Module VisitorLog.
Record t : Type := mk {
  workspace_id : Z; ip_address : pyval; created_at : option Datetime.t }.
End VisitorLog.

Module NotificationSettings.
Record t : Type := mk {
  workspace_id : Z; telegram_bot_token : pyval; telegram_chat_id : pyval;
  telegram_configured_at : option Datetime.t }.
End NotificationSettings.

(** The committed content of the database.  [available] is false when
    the store cannot be reached: every query then raises. *)
Record DB : Type := mkDB {
  available : bool;
  workspaces : list Workspace.t;
  users : list User.t;
  skills : list Skill.t;
  projects : list Project.t;
  clients : list Client.t;
  messages : list Message.t;
  services : list Service.t;
  visitor_logs : list VisitorLog.t;
  notification_settings : list NotificationSettings.t }.

(** [Model.query...all()]. *)
Definition query_all {A : Type} (db : DB) (table : DB -> list A)
  : result (list A) :=
  if available db then Ok (table db) else Raise DatabaseError.

(** [Model.query.filter_by(workspace_id=i).all()], also the lazy load of
    a relationship such as [workspace.skills]. *)
Definition filter_by_workspace {A : Type} (db : DB) (table : DB -> list A)
    (wid : A -> Z) (i : Z) : result (list A) :=
  rows <- query_all db table ;;
  Ok (filter (fun r => Z.eqb (wid r) i) rows).

(** [Workspace.query.filter_by(slug=username).first()]. *)
Definition get_workspace_by_username (db : DB) (username : string)
  : result (option Workspace.t) :=
  rows <- query_all db workspaces ;;
  Ok (find (fun w => String.eqb (Workspace.slug w) username) rows).

(* ================================================================== *)
(** * The view materializer ([utils/data.py]) *)
(* ================================================================== *)

Definition get_default_portfolio_data : pyval :=
  PDict [
    ("name", PStr "");
    ("title", PStr "Web Developer & Designer");
    ("description", PStr "Welcome to my professional portfolio.");
    ("skills", PList []);
    ("projects", PList []);
    ("services", PList []);
    ("messages", PList []);
    ("clients", PList []);
    ("settings", PDict [("theme", PStr "luxury-gold")]);
    ("visitors", PDict [
       ("total", PInt 0);
       ("today", PList []);
       ("unique_ips", PList [])])
  ].

Definition request_fields {platform : Platform} (project : Project.t)
  : pydict :=
  [ ("request_budget_min", Project.request_budget_min project);
    ("request_budget_max", Project.request_budget_max project);
    ("request_deadline", fmt_date_or_none (Project.request_deadline project));
    ("request_status", py_or (Project.request_status project) (PStr "open")) ].

Definition project_to_dict {platform : Platform} (project : Project.t)
  : pydict :=
  let result := [
    ("id", PInt (Project.id project));
    ("title", Project.title project);
    ("description", py_or (Project.description project) (PStr ""));
    ("short_description", py_or (Project.short_description project) (PStr ""));
    ("content", py_or (Project.content project) (PStr ""));
    ("image", py_or (Project.image project) (PStr ""));
    ("demo_url", py_or (Project.demo_url project) (PStr ""));
    ("github_url", py_or (Project.github_url project) (PStr ""));
    ("technologies", py_or (Project.technologies project) (PList []));
    ("gallery", py_or (Project.gallery project) (PList []));
    ("skill_related", py_or (Project.skill_related project) (PList []));
    ("project_type", py_or (Project.project_type project) (PStr "portfolio"));
    ("badge", py_or (Project.badge project) (PStr ""));
    ("created_at", fmt_datetime_or_none (Project.created_at project)) ] in
  if py_eq_str (Project.project_type project) "request"
  then dict_update result (request_fields project)
  else result.

Definition client_to_dict {platform : Platform} (client : Client.t)
  : pydict :=
  [ ("id", PInt (Client.id client));
    ("name", Client.name client);
    ("email", py_or (Client.email client) (PStr ""));
    ("phone", py_or (Client.phone client) (PStr ""));
    ("company", py_or (Client.company client) (PStr ""));
    ("project_title", py_or (Client.project_title client) (PStr ""));
    ("project_description", py_or (Client.project_description client) (PStr ""));
    ("status", py_or (Client.status client) (PStr "lead"));
    ("price", py_or (Client.price client) (PStr ""));
    ("deadline", fmt_date_or_none (Client.deadline client));
    ("start_date", fmt_date_or_none (Client.start_date client));
    ("notes", py_or (Client.notes client) (PStr ""));
    ("created_at", fmt_datetime_or_none (Client.created_at client));
    ("status_updated_at", fmt_datetime_or_none (Client.status_updated_at client)) ].

Definition message_to_dict {platform : Platform} (message : Message.t)
  : pydict :=
  [ ("id", PInt (Message.id message));
    ("name", Message.name message);
    ("email", Message.email message);
    ("message", Message.message message);
    ("read", Message.is_read message);
    ("category", py_or (Message.category message) (PStr "portfolio"));
    ("sender_id", Message.sender_id message);
    ("receiver_id", Message.receiver_id message);
    ("date", fmt_datetime_or_none (Message.created_at message)) ].

Definition service_to_dict (service : Service.t) : pydict :=
  [ ("id", PInt (Service.id service));
    ("title", Service.title service);
    ("description", py_or (Service.description service) (PStr ""));
    ("short_description", py_or (Service.short_description service) (PStr ""));
    ("category", py_or (Service.category service) (PStr ""));
    ("pricing_type", py_or (Service.pricing_type service) (PStr "custom"));
    ("price_min", Service.price_min service);
    ("price_max", Service.price_max service);
    ("currency", py_or (Service.currency service) (PStr "USD"));
    ("deliverables", py_or (Service.deliverables service) (PList []));
    ("duration", py_or (Service.duration service) (PStr ""));
    ("skills_required", py_or (Service.skills_required service) (PList []));
    ("image", py_or (Service.image service) (PStr ""));
    ("gallery", py_or (Service.gallery service) (PList []));
    ("is_active", Service.is_active service);
    ("is_featured", Service.is_featured service);
    ("created_at", isoformat_or_none (Service.created_at service));
    ("updated_at", isoformat_or_none (Service.updated_at service)) ].

Definition user_to_dict {platform : Platform} (user : User.t)
  : pydict :=
  [ ("id", PInt (User.id user));
    ("username", User.username user);
    ("email", User.email user);
    ("password_hash", User.password_hash user);
    ("role", User.role user);
    ("is_demo", User.is_demo user);
    ("is_verified", User.is_verified user);
    ("must_change_password", User.must_change_password user);
    ("created_at", fmt_datetime_or_none (User.created_at user)) ].

(* ================================================================== *)
(** * The flat-file store ([data.json]) *)
(* ================================================================== *)

(** What [os.path.exists('data.json')], [open] and [json.load] find:
    no file, a file that cannot be opened or parsed, or a JSON document. *)
Inductive file_state : Type :=
| Missing
| Unreadable
| Content (doc : pyval).

(** How [open('data.json', 'w')] followed by [json.dump] ends: the
    document is written; [open] refuses the file, which stays as it
    is; or [open] has emptied the file and the dump stops part-way
    (the disk fills up), leaving the beginning of the text behind. *)
Inductive write_outcome : Type :=
| Written
| OpenRefused
| DumpInterrupted.

Record FS : Type := mkFS {
  data_json : file_state;
  on_write : write_outcome;
  backups : list file_state }.

Definition writable (fs : FS) : bool :=
  match on_write fs with Written => true | _ => false end.

Definition path_exists (f : file_state) : bool :=
  match f with Missing => false | _ => true end.

(** [with open('data.json', 'r') as file: json.load(file)]. *)
Definition read_json (f : file_state) : result pyval :=
  match f with
  | Content doc => Ok doc
  | Unreadable => Raise JSONDecodeError
  | Missing => Raise (OSError "data.json")
  end.

(** [with open('data.json', 'w') as file: json.dump(doc, file, ...)]:
    what the call returns or raises, and the files it leaves.  The
    documents written here are JSON objects, and no proper beginning of
    the text of an object is a JSON document: an interrupted dump
    leaves a file that [json.load] rejects. *)
Definition write_json (fs : FS) (doc : pyval) : result unit * FS :=
  match on_write fs with
  | Written => (Ok tt, mkFS (Content doc) (on_write fs) (backups fs))
  | OpenRefused => (Raise (OSError "data.json"), fs)
  | DumpInterrupted =>
      (Raise (OSError "data.json"), mkFS Unreadable (on_write fs) (backups fs))
  end.

(** ** Sets of hashable values *)

Definition hashable (v : pyval) : bool :=
  match v with PList _ | PDict _ => false | _ => true end.

Definition int_of_bool (b : bool) : Z := if b then 1%Z else 0%Z.

(** Equality of two hashable values, as a [set] sees it. *)
Definition py_hash_eq (a b : pyval) : bool :=
  match a, b with
  | PNone, PNone => true
  | PBool x, PBool y => Bool.eqb x y
  | PInt x, PInt y => Z.eqb x y
  | PBool x, PInt y => Z.eqb (int_of_bool x) y
  | PInt x, PBool y => Z.eqb x (int_of_bool y)
  | PStr x, PStr y => String.eqb x y
  | _, _ => false
  end.

(** [s.add(v)], the elements kept in insertion order. *)
Definition set_add (s : list pyval) (v : pyval) : result (list pyval) :=
  if hashable v
  then Ok (if existsb (py_hash_eq v) s then s else s ++ [v])
  else Raise TypeError.

Definition username_given (username : option string) : bool :=
  match username with
  | Some s => negb (String.eqb s "")
  | None => false
  end.

Definition username_str (username : option string) : string :=
  match username with Some s => s | None => "" end.

(** ** String methods used by the routes *)

(** White space as [str.strip] removes it: the code points for which
    [str.isspace] holds, by the bytes of their encoding.  In one byte
    U+0009 to U+000D and U+001C to U+0020; in two bytes U+0085 and
    U+00A0; in three bytes U+1680, U+2000 to U+200A, U+2028, U+2029,
    U+202F, U+205F and U+3000. *)
Definition is_space (c : ascii) : bool :=
  let n := N_of_ascii c in
  (N.leb 9 n && N.leb n 13) || (N.leb 28 n && N.leb n 32).

Definition is_space2 (a b : ascii) : bool :=
  let b := N_of_ascii b in
  N.eqb (N_of_ascii a) 194 && (N.eqb b 133 || N.eqb b 160).

Definition is_space3 (a b c : ascii) : bool :=
  let a := N_of_ascii a in
  let b := N_of_ascii b in
  let c := N_of_ascii c in
  (N.eqb a 225 && N.eqb b 154 && N.eqb c 128)
  || (N.eqb a 226 && N.eqb b 128
      && ((N.leb 128 c && N.leb c 138)
          || N.eqb c 168 || N.eqb c 169 || N.eqb c 175))
  || (N.eqb a 226 && N.eqb b 129 && N.eqb c 159)
  || (N.eqb a 227 && N.eqb b 128 && N.eqb c 128).

(** [s.lstrip()]. *)
Fixpoint lstrip (s : string) : string :=
  match s with
  | EmptyString => EmptyString
  | String a s1 =>
      if is_space a then lstrip s1
      else
        match s1 with
        | EmptyString => s
        | String b s2 =>
            if is_space2 a b then lstrip s2
            else
              match s2 with
              | EmptyString => s
              | String c s3 => if is_space3 a b c then lstrip s3 else s
              end
        end
  end.

(** [s.rstrip()]: what follows is dropped from the first point on at
    which nothing but white space is left. *)
Fixpoint rstrip (s : string) : string :=
  match s with
  | EmptyString => EmptyString
  | String c s' =>
      if String.eqb (lstrip s) "" then EmptyString else String c (rstrip s')
  end.

(** [s.strip()]. *)
Definition strip (s : string) : string := rstrip (lstrip s).

(** [s[:n]]: the bytes of the first [n] code points. *)
Fixpoint take_chars (n : nat) (s : string) : string :=
  match s with
  | EmptyString => EmptyString
  | String c s' =>
      if is_continuation c then String c (take_chars n s')
      else
        match n with
        | O => EmptyString
        | S n' => String c (take_chars n' s')
        end
  end.

Definition slice_to (n : N) (s : string) : string := take_chars (N.to_nat n) s.

(** [s.replace(' ', '_')]. *)
Fixpoint replace_spaces (s : string) : string :=
  match s with
  | EmptyString => EmptyString
  | String c s' =>
      String (if Ascii.eqb c " " then "_"%char else c) (replace_spaces s')
  end.

Fixpoint string_of_bytes (l : list N) : string :=
  match l with
  | [] => EmptyString
  | b :: l' => String (ascii_of_N b) (string_of_bytes l')
  end.

Definition newline : string := string_of_bytes [10%N].

(** [str(e)]. *)
Definition str_of_exn (e : exn) : string :=
  match e with
  | AttributeError => "AttributeError"
  | TypeError => "TypeError"
  | KeyError => "KeyError"
  | ValueError => "ValueError"
  | ImportError msg => msg
  | OSError msg => msg
  | JSONDecodeError => "JSONDecodeError"
  | DatabaseError => "DatabaseError"
  | OtherException msg => msg
  end.

(** ** Responses *)

Inductive location : Type :=
| UrlFor (endpoint : string)
| Url (address : string).

Inductive response : Type :=
| RenderTemplate (template : string) (context : pydict) (status : N)
| RedirectTo (target : location)
| SendFile (content : string) (mimetype : string) (download_name : string)
| Jsonify (body : pyval).

(** What a view function hands back: the response and the messages it
    flashed, each with its category. *)
Record reply : Type := mkReply {
  resp : response;
  flashed : list (string * string) }.

(** [request.form.get(k, '')]. *)
Fixpoint form_get (form : list (string * string)) (k : string) : string :=
  match form with
  | [] => ""
  | (k', v) :: form' => if String.eqb k' k then v else form_get form' k
  end.

(** [str(z)] for an [int]. *)
Definition str_of_int (z : Z) : string := NilZero.string_of_int (Z.to_int z).

(** [x or None] for a string [x]. *)
Definition str_or_none (x : string) : pyval :=
  if String.eqb x "" then PNone else PStr x.

Section App.

Context {platform : Platform}.

(** The reading of [datetime.utcnow()] while a request is served. *)
Variable now : Datetime.t.

(** The order in which [list(s)] enumerates a set, given its elements
    in insertion order: Python leaves it unspecified. *)
Variable set_order : list pyval -> list pyval.

(** [utils.badges.determine_badge], which is not among the sources. *)
Variable determine_badge : pyval -> result pyval.

(** The checks the schema of [models.py] makes when a transaction is
    committed (column types, constraints). *)
Variable accepts : DB -> bool.

(** [utils.helpers.create_backup(manual=False)], which is not among
    the sources. *)
Variable create_backup : FS -> result FS.

Definition skill_to_dict (s : Skill.t) : pyval :=
  PDict [("name", Skill.name s); ("level", Skill.level s)].

(** One turn of the loop over the visitor logs; the state is
    [(today_visits, unique_ips)]. *)
Definition visit_step (st : list pyval * list pyval) (log : VisitorLog.t)
  : result (list pyval * list pyval) :=
  match VisitorLog.created_at log with
  | None => Raise AttributeError
  | Some created =>
      let today_visits :=
        if Date.eqb (Datetime.date created) (Datetime.date now)
        then fst st ++ [PDict [
               ("ip", VisitorLog.ip_address log);
               ("timestamp", PStr (strftime_datetime created));
               ("date", PStr (strftime_date (Datetime.date created)))]]
        else fst st in
      unique_ips <- set_add (snd st) (VisitorLog.ip_address log) ;;
      Ok (today_visits, unique_ips)
  end.

Definition notifications_of (notif_settings : option NotificationSettings.t)
  : pydict :=
  match notif_settings with
  | Some ns =>
      if truthy (NotificationSettings.telegram_bot_token ns)
      then [("telegram", PDict [
             ("bot_token", NotificationSettings.telegram_bot_token ns);
             ("chat_id", NotificationSettings.telegram_chat_id ns);
             ("configured_at",
              fmt_datetime_or_none
                (NotificationSettings.telegram_configured_at ns))])]
      else []
  | None => []
  end.

Definition workspace_to_dict (db : DB) (workspace : option Workspace.t)
  : result pyval :=
  match workspace with
  | None => Ok get_default_portfolio_data
  | Some workspace =>
      let wid := Workspace.id workspace in
      ss <- filter_by_workspace db skills Skill.workspace_id wid ;;
      let skills := map skill_to_dict ss in
      ps <- filter_by_workspace db projects Project.workspace_id wid ;;
      let projects := map (fun p => PDict (project_to_dict p)) ps in
      cs <- filter_by_workspace db clients Client.workspace_id wid ;;
      let clients := map (fun c => PDict (client_to_dict c)) cs in
      ms <- filter_by_workspace db messages Message.workspace_id wid ;;
      let messages := map (fun m => PDict (message_to_dict m)) ms in
      sv <- filter_by_workspace db services Service.workspace_id wid ;;
      let services := map (fun s => PDict (service_to_dict s)) sv in
      visitor_logs <-
        filter_by_workspace db visitor_logs VisitorLog.workspace_id wid ;;
      ' (today_visits, unique_ips) <- foldM visit_step visitor_logs ([], []) ;;
      ns <- filter_by_workspace db notification_settings
              NotificationSettings.workspace_id wid ;;
      let notifications := notifications_of (hd_error ns) in
      Ok (PDict [
        ("username", PStr (Workspace.slug workspace));
        ("name", Workspace.name workspace);
        ("title", py_or (Workspace.title workspace) (PStr ""));
        ("description", py_or (Workspace.description workspace) (PStr ""));
        ("about", py_or (Workspace.about workspace) (PStr ""));
        ("photo", py_or (Workspace.photo workspace) (PStr ""));
        ("skills", PList skills);
        ("projects", PList projects);
        ("clients", PList clients);
        ("messages", PList messages);
        ("services", PList services);
        ("contact", py_or (Workspace.contact workspace) (PDict []));
        ("social", py_or (Workspace.social workspace) (PDict []));
        ("settings", py_or (Workspace.settings workspace)
                       (PDict [("theme", PStr "luxury-gold")]));
        ("visitors", PDict [
           ("total", PInt (Z.of_nat (length visitor_logs)));
           ("today", PList today_visits);
           ("unique_ips", PList (set_order unique_ips))]);
        ("notifications", PDict notifications)])
  end.

(** The back-fill of one legacy project in [load_data_from_json]. *)
Definition backfill_project (project : pyval) : result pyval :=
  has_type <- py_in_str "project_type" project ;;
  project <- (if has_type then Ok project
              else py_setitem project "project_type" (PStr "portfolio")) ;;
  has_badge <- py_in_str "badge" project ;;
  if has_badge then Ok project
  else
    pt <- py_get project "project_type" (PStr "portfolio") ;;
    badge <- determine_badge pt ;;
    py_setitem project "badge" badge.

(** The loop [for project in user_data['projects']] mutates the
    projects in place: the list held by [user_data] afterwards is the
    list of back-filled projects.  The keys of a dict and the
    characters of a string cannot be mutated, so when the loop over
    one of them does not raise it has changed nothing. *)
Definition backfill_projects (user_data : pyval) : result pyval :=
  container <- py_getitem user_data "projects" ;;
  items <- py_iter container ;;
  items' <- mapM backfill_project items ;;
  match container with
  | PList _ => py_setitem user_data "projects" (PList items')
  | _ => Ok user_data
  end.

(** The body of the [try] block of [load_data_from_json]. *)
Definition load_data_from_json_body (fs : FS) (username : option string)
  : result pyval :=
  data <- (if path_exists (data_json fs) then read_json (data_json fs)
           else Ok (PDict [])) ;;
  if username_given username then
    let username := username_str username in
    portfolios <- py_get data "portfolios" (PDict []) ;;
    present <- py_in_str username portfolios ;;
    if present then
      user_data <- py_getitem portfolios username ;;
      has_projects <- py_in_str "projects" user_data ;;
      if has_projects then backfill_projects user_data
      else Ok user_data
    else Ok get_default_portfolio_data
  else Ok data.

Definition load_data_from_json (fs : FS) (username : option string)
  : result pyval :=
  try_except (load_data_from_json_body fs username)
             (fun _ => Ok (PDict [])).

Definition workspace_summary (ws : Workspace.t) : pyval :=
  PDict [
    ("name", Workspace.name ws);
    ("title", py_or (Workspace.title ws) (PStr ""));
    ("description", py_or (Workspace.description ws) (PStr ""));
    ("about", py_or (Workspace.about ws) (PStr ""));
    ("photo", py_or (Workspace.photo ws) (PStr ""));
    ("username", PStr (Workspace.slug ws));
    ("is_verified", PBool false)].

(** The body of the [try] block of [load_data]. *)
Definition load_data_body (db : DB) (fs : FS) (username : option string)
  : result pyval :=
  if username_given username then
    workspace <- get_workspace_by_username db (username_str username) ;;
    match workspace with
    | Some w => workspace_to_dict db (Some w)
    | None => load_data_from_json fs username
    end
  else
    users <- query_all db users ;;
    workspaces <- query_all db workspaces ;;
    let portfolios :=
      fold_left (fun acc ws => dict_set acc (Workspace.slug ws)
                                 (workspace_summary ws))
                workspaces [] in
    Ok (PDict [
      ("users", PList (map (fun u => PDict (user_to_dict u)) users));
      ("portfolios", PDict portfolios)]).

Definition load_data (db : DB) (fs : FS) (username : option string)
  : result pyval :=
  try_except (load_data_body db fs username)
             (fun _ => load_data_from_json fs username).

(** ** The save path: the database session as explicit state *)

(** The column defaults of [models.py] for the attributes that the
    constructor call in [get_or_create_workspace] leaves unset. *)
Variable workspace_default : string -> pyval.

(** [db.session] and the file system while a request runs:
    [committed] is what the database holds, [working] is what the
    session sees (committed rows plus pending changes). *)
Record St : Type := mkSt { committed : DB; working : DB; files : FS }.

Definition io (A : Type) : Type := St -> result A * St.

Definition ret {A : Type} (a : A) : io A := fun s => (Ok a, s).

Definition bindS {A B : Type} (c : io A) (k : A -> io B) : io B :=
  fun s => match c s with
           | (Ok a, s') => k a s'
           | (Raise e, s') => (Raise e, s')
           end.

Notation "x <~ c ;; k" := (bindS c (fun x => k))
  (at level 61, c at next level, right associativity).

(** [try: body except Exception: handler], the handler running in the
    state the body left behind. *)
Definition try_exceptS {A : Type} (body : io A) (handler : exn -> io A)
  : io A :=
  fun s => match body s with
           | (Ok a, s') => (Ok a, s')
           | (Raise e, s') => handler e s'
           end.

(** A computation that does not touch the state. *)
Definition pure {A : Type} (c : result A) : io A := fun s => (c, s).

(** A query, answered from what the session sees. *)
Definition rd {A : Type} (q : DB -> result A) : io A :=
  fun s => (q (working s), s).

(** A pending change. *)
Definition wr (f : DB -> DB) : io unit :=
  fun s => (Ok tt, mkSt (committed s) (f (working s)) (files s)).

(** [db.session.commit()]. *)
Definition db_commit : io unit :=
  fun s => if available (working s) && accepts (working s)
           then (Ok tt, mkSt (working s) (working s) (files s))
           else (Raise DatabaseError, s).

(** [db.session.rollback()]. *)
Definition db_rollback : io unit :=
  fun s => (Ok tt, mkSt (committed s) (committed s) (files s)).

Definition with_files (f : FS -> FS) : io unit :=
  fun s => (Ok tt, mkSt (committed s) (working s) (f (files s))).

Definition set_workspaces (f : list Workspace.t -> list Workspace.t) (db : DB)
  : DB :=
  mkDB (available db) (f (workspaces db)) (users db) (skills db)
       (projects db) (clients db) (messages db) (services db)
       (visitor_logs db) (notification_settings db).

Definition set_skills (f : list Skill.t -> list Skill.t) (db : DB) : DB :=
  mkDB (available db) (workspaces db) (users db) (f (skills db))
       (projects db) (clients db) (messages db) (services db)
       (visitor_logs db) (notification_settings db).

(** The primary key the database gives a new workspace row. *)
Definition fresh_workspace_id (db : DB) : Z :=
  (1 + fold_right Z.max 0 (map Workspace.id (workspaces db)))%Z.

Definition get_or_create_workspace (username : string) (name : pyval)
  : io Workspace.t :=
  workspace <~ rd (fun db => get_workspace_by_username db username) ;;
  match workspace with
  | Some w => ret w
  | None =>
      fun s =>
        let w := Workspace.mk
                   (fresh_workspace_id (working s))
                   username
                   (py_or name (PStr username))
                   (workspace_default "title")
                   (PStr "")
                   (workspace_default "about")
                   (workspace_default "photo")
                   (workspace_default "contact")
                   (workspace_default "social")
                   (workspace_default "settings")
                   (PStr "pro") in
        (_ <~ wr (set_workspaces (fun rows => rows ++ [w])) ;;
         _ <~ db_commit ;;
         ret w) s
  end.

(** The keys [dict.update] may add to the document: any hashable
    value.  Two keys are the same entry when they are equal in Python,
    so [1] and [True] are. *)
Inductive pykey : Type :=
| KNone
| KBool (b : bool)
| KInt (z : Z)
| KStr (s : string).

Definition key_of (v : pyval) : option pykey :=
  match v with
  | PNone => Some KNone
  | PBool b => Some (KBool b)
  | PInt z => Some (KInt z)
  | PStr s => Some (KStr s)
  | PList _ | PDict _ => None
  end.

Definition key_eqb (a b : pykey) : bool :=
  match a, b with
  | KNone, KNone => true
  | KBool x, KBool y => Bool.eqb x y
  | KInt x, KInt y => Z.eqb x y
  | KBool x, KInt y => Z.eqb (int_of_bool x) y
  | KInt x, KBool y => Z.eqb x (int_of_bool y)
  | KStr x, KStr y => String.eqb x y
  | _, _ => false
  end.

(** [d[k] = v] on a dict with such keys: the entry keeps the key it
    was created with. *)
Fixpoint keyed_set (d : list (pykey * pyval)) (k : pykey) (v : pyval)
  : list (pykey * pyval) :=
  match d with
  | [] => [(k, v)]
  | (k', v') :: d' =>
      if key_eqb k' k then (k', v) :: d' else (k', v') :: keyed_set d' k v
  end.

(** One element of the sequence given to [dict.update]: it is iterated
    and must yield two values, a hashable key and a value. *)
Definition pair_of (item : pyval) : result (pykey * pyval) :=
  items <- py_iter item ;;
  match items with
  | [k; v] =>
      match key_of k with
      | Some key => Ok (key, v)
      | None => Raise TypeError
      end
  | _ => Raise ValueError
  end.

(** [all_data.update(user_data)]: from a mapping, or from an iterable
    of pairs. *)
Definition py_update (all_data user_data : pyval)
  : result (list (pykey * pyval)) :=
  match all_data with
  | PDict d =>
      let entries := map (fun kv => (KStr (fst kv), snd kv)) d in
      pairs <-
        match user_data with
        | PDict e => Ok (map (fun kv => (KStr (fst kv), snd kv)) e)
        | _ => items <- py_iter user_data ;; mapM pair_of items
        end ;;
      Ok (fold_left (fun acc kv => keyed_set acc (fst kv) (snd kv))
            pairs entries)
  | _ => Raise AttributeError
  end.

(** [json.dump] writes every key as a string: [1] as ["1"], [True] as
    ["true"], [None] as ["null"].  Where two entries are written under
    the same string, a reader of the file finds the later value at the
    place of the earlier entry. *)
Definition json_key (k : pykey) : string :=
  match k with
  | KNone => "null"
  | KBool true => "true"
  | KBool false => "false"
  | KInt z => str_of_int z
  | KStr s => s
  end.

Definition json_object (d : list (pykey * pyval)) : pyval :=
  PDict (fold_left (fun acc kv => dict_set acc (json_key (fst kv)) (snd kv))
           d []).

Definition save_data_to_json (user_data : pyval) (username : option string)
    (auto_backup : bool) (fs : FS) : FS :=
  let fs1 :=
    if auto_backup && path_exists (data_json fs)
    then match create_backup fs with Ok fs' => fs' | Raise _ => fs end
    else fs in
  let body :=
    all_data <- (if path_exists (data_json fs1) then read_json (data_json fs1)
                 else Ok (PDict [])) ;;
    if username_given username then
      present <- py_in_str "portfolios" all_data ;;
      all_data <- (if negb present
                   then py_setitem all_data "portfolios" (PDict [])
                   else Ok all_data) ;;
      portfolios <- py_getitem all_data "portfolios" ;;
      portfolios <- py_setitem portfolios (username_str username) user_data ;;
      py_setitem all_data "portfolios" portfolios
    else
      all_data <- py_update all_data user_data ;;
      Ok (json_object all_data) in
  match body with
  | Ok all_data => snd (write_json fs1 all_data)
  | Raise _ => fs1
  end.

Definition new_skill (wid : Z) (skill_data : pyval) : result Skill.t :=
  name <- py_get skill_data "name" (PStr "") ;;
  level <- py_get skill_data "level" (PInt 50) ;;
  Ok (Skill.mk wid name level).

(** The assignments [workspace.name = ...] to [workspace.settings = ...]. *)
Definition update_fields (workspace : Workspace.t) (user_data : pyval)
  : result Workspace.t :=
  name <- py_get user_data "name" (Workspace.name workspace) ;;
  title <- py_get user_data "title" (PStr "") ;;
  description <- py_get user_data "description" (PStr "") ;;
  photo <- py_get user_data "photo" (PStr "") ;;
  about <- py_get user_data "about" (PStr "") ;;
  contact <- py_get user_data "contact" (PDict []) ;;
  social <- py_get user_data "social" (PDict []) ;;
  settings <- py_get user_data "settings"
                (PDict [("theme", PStr "luxury-gold")]) ;;
  Ok (Workspace.mk (Workspace.id workspace) (Workspace.slug workspace)
        name title description about photo contact social settings
        (Workspace.plan workspace)).

(** The session writes an attribute change to the row with the
    object's primary key. *)
Definition store_workspace (w : Workspace.t) : DB -> DB :=
  set_workspaces
    (map (fun r => if Z.eqb (Workspace.id r) (Workspace.id w) then w else r)).

(** The loop [for skill_data in ...: db.session.add(Skill(...))]. *)
Fixpoint add_skills (wid : Z) (items : list pyval) : io unit :=
  match items with
  | [] => ret tt
  | skill_data :: rest =>
      skill <~ pure (new_skill wid skill_data) ;;
      _ <~ wr (set_skills (fun rows => rows ++ [skill])) ;;
      add_skills wid rest
  end.

Definition replace_skills (workspace : Workspace.t) (user_data : pyval)
  : io unit :=
  _ <~ rd (fun db => query_all db skills) ;;
  _ <~ wr (set_skills
            (filter (fun r => negb (Z.eqb (Skill.workspace_id r)
                                          (Workspace.id workspace))))) ;;
  container <~ pure (py_get user_data "skills" (PList [])) ;;
  items <~ pure (py_iter container) ;;
  add_skills (Workspace.id workspace) items.

(** The body of the [try] block of [save_data] for a given username. *)
Definition save_data_body (user_data : pyval) (username : string) : io unit :=
  name <~ pure (py_get user_data "name" PNone) ;;
  workspace <~ get_or_create_workspace username name ;;
  workspace <~ pure (update_fields workspace user_data) ;;
  _ <~ wr (store_workspace workspace) ;;
  has_skills <~ pure (py_in_str "skills" user_data) ;;
  _ <~ (if has_skills then replace_skills workspace user_data else ret tt) ;;
  db_commit.

Definition save_data (user_data : pyval) (username : option string)
    (auto_backup : bool) : io unit :=
  try_exceptS
    (if negb (username_given username)
     then with_files (save_data_to_json user_data username auto_backup)
     else save_data_body user_data (username_str username))
    (fun _ =>
       _ <~ db_rollback ;;
       with_files (save_data_to_json user_data username auto_backup)).

(** A request starts with a clean session on the committed database;
    what it leaves behind is the committed database and the files. *)
Definition run {A : Type} (c : io A) (db : DB) (fs : FS) : DB * FS :=
  let s := snd (c (mkSt db db fs)) in (committed s, files s).

(* ---------------------------------------------------------------- *)
(** ** The portfolio routes ([blueprints/portfolio/routes.py]) *)
(* ---------------------------------------------------------------- *)

(** Collaborators that are invoked by the routes and are not among the
    sources; each returns or raises. *)
Variable track_visitor : string -> result unit.
Variable render_template : string -> pydict -> result string.
Variable check_rate_limit : string -> result bool.
Variable send_telegram_notification : string -> string -> result pyval.

(** The two optional PDF renderers.  [weasyprint_write_pdf] stands for
    [import weasyprint] followed by [HTML(...).write_pdf]; the other
    four are [import pdfkit], [shutil.which], [pdfkit.configuration]
    and [pdfkit.from_string]. *)
Variable weasyprint_write_pdf : string -> result string.
Variable import_pdfkit : result unit.
Variable which : string -> option string.
Variable pdfkit_configuration : string -> result string.
Variable pdfkit_from_string : string -> option string -> result string.

(** The column defaults of the [Message] model for the attributes the
    constructor call in [contact] leaves unset. *)
Variable message_default : string -> pyval.
Variable message_created_at : option Datetime.t.

(** [next((u for u in users if u['username'] == username), None)]. *)
Fixpoint first_user (users : list pyval) (username : string)
  : result (option pyval) :=
  match users with
  | [] => Ok None
  | u :: rest =>
      uname <- py_getitem u "username" ;;
      if py_eq_str uname username then Ok (Some u)
      else first_user rest username
  end.

Definition find_user (users : pyval) (username : string)
  : result (option pyval) :=
  items <- py_iter users ;;
  first_user items username.

Definition entry_truthy (user_entry : option pyval) : bool :=
  match user_entry with Some u => truthy u | None => false end.

(** The user list the public page consults: [load_data().get('users', [])]. *)
Definition listed_users (db : DB) (fs : FS) : result pyval :=
  all_data <- load_data db fs None ;;
  py_get all_data "users" (PList []).

Definition user_portfolio (db : DB) (fs : FS) (username : string)
  : result reply :=
  user_data <- load_data db fs (Some username) ;;
  users <- listed_users db fs ;;
  user_entry <- find_user users username ;;
  if negb (entry_truthy user_entry) && negb (String.eqb username "admin")
  then Ok (mkReply (RenderTemplate "404.html" [] 404) [])
  else
    user_data <-
      match user_entry with
      | Some u =>
          if truthy u then
            verified <- py_get u "is_verified" (PBool false) ;;
            user_data <- py_setitem user_data "is_verified" verified ;;
            py_setitem user_data "username" (PStr username)
          else Ok user_data
      | None => Ok user_data
      end ;;
    is_admin_user <-
      match user_entry with
      | Some u =>
          if truthy u then
            role <- py_get u "role" PNone ;;
            Ok (py_eq_str role "admin" || String.eqb username "admin")
          else Ok (String.eqb username "admin")
      | None => Ok (String.eqb username "admin")
      end ;;
    if is_admin_user
    then Ok (mkReply (RedirectTo (UrlFor "pages.index")) [])
    else
      _ <- track_visitor username ;;
      settings <- py_get user_data "settings" (PDict []) ;;
      current_theme <- py_get settings "theme" (PStr "luxury-gold") ;;
      Ok (mkReply
            (RenderTemplate "index.html"
               [("data", user_data); ("is_public", PBool true);
                ("current_theme", current_theme)] 200)
            []).

(** *** PDF export *)

Definition gtk_runtime_message : string :=
  "PDF generation failed: missing GTK runtime (libgobject). On Windows install the MSYS2 GTK runtime (see https://weasyprint.readthedocs.io/en/latest/install.html#windows) or install wkhtmltopdf and python-pdfkit as an alternative (https://wkhtmltopdf.org/downloads.html).".

Definition library_missing_message : string :=
  "PDF generation library not available. Please install WeasyPrint (and its GTK runtime on Windows) or install wkhtmltopdf and python-pdfkit as an alternative.".

Definition wkhtmltopdf_missing_message : string :=
  "wkhtmltopdf not found. Install wkhtmltopdf and ensure it is on the PATH, or install WeasyPrint with GTK runtime on Windows.".

Definition back_to_preview (message : string) : reply :=
  mkReply (RedirectTo (UrlFor "portfolio.cv_preview")) [(message, "error")].

(** [data.get("name", "CV").replace(' ', '_')] and [send_file]. *)
Definition send_pdf (data : pyval) (pdf : string) : result reply :=
  name <- py_get data "name" (PStr "CV") ;;
  match name with
  | PStr name =>
      let filename := replace_spaces name in
      Ok (mkReply (SendFile pdf "application/pdf" (filename ++ "_CV.pdf")) [])
  | _ => Raise AttributeError
  end.

(** The known runtime defect of the first renderer. *)
Definition known_gtk_defect (e : exn) : bool :=
  match e with
  | OSError msg =>
      is_substring "libgobject-2.0-0" msg || is_substring "libgobject" msg
  | _ => false
  end.

(** The second [try] block of [download_cv]. *)
Definition pdfkit_fallback (data : pyval) (html_content : string) : reply :=
  let attempt :=
    _ <- import_pdfkit ;;
    config <-
      match which "wkhtmltopdf" with
      | Some wkhtml_path =>
          if String.eqb wkhtml_path "" then Ok None
          else c <- pdfkit_configuration wkhtml_path ;; Ok (Some c)
      | None => Ok None
      end ;;
    pdf_bytes <- pdfkit_from_string html_content config ;;
    send_pdf data pdf_bytes in
  match attempt with
  | Ok r => r
  | Raise (ImportError _) => back_to_preview library_missing_message
  | Raise (OSError _) => back_to_preview wkhtmltopdf_missing_message
  | Raise e => back_to_preview ("Error generating PDF: " ++ str_of_exn e)
  end.

Definition download_cv (db : DB) (fs : FS) (session_username : option string)
  : result reply :=
  let username :=
    match session_username with Some u => u | None => "admin" end in
  data <- load_data db fs (Some username) ;;
  html_content <-
    render_template "cv_preview.html" [("data", data); ("pdf_mode", PBool true)] ;;
  match (pdf <- weasyprint_write_pdf html_content ;; send_pdf data pdf) with
  | Ok r => Ok r
  | Raise e =>
      if known_gtk_defect e then Ok (back_to_preview gtk_runtime_message)
      else Ok (pdfkit_fallback data html_content)
  end.

(** *** Contact intake *)

Definition set_messages (f : list Message.t -> list Message.t) (db : DB) : DB :=
  mkDB (available db) (workspaces db) (users db) (skills db)
       (projects db) (clients db) (f (messages db)) (services db)
       (visitor_logs db) (notification_settings db).

(** The primary key the database gives a new message row. *)
Definition fresh_message_id (db : DB) : Z :=
  (1 + fold_right Z.max 0 (map Message.id (messages db)))%Z.

Definition icon_mail : string :=
  string_of_bytes [195; 176; 197; 184; 226; 128; 156; 194; 167]%N.
Definition icon_person : string :=
  string_of_bytes [195; 176; 197; 184; 226; 128; 152; 194; 164]%N.
Definition icon_speech : string :=
  string_of_bytes [195; 176; 197; 184; 226; 128; 153; 194; 172]%N.

Definition notification_text (name email message_content : string) : string :=
  icon_mail ++ " <b>New Portfolio Message</b>" ++ newline ++ newline
  ++ icon_person ++ " <b>From:</b> " ++ name ++ newline
  ++ icon_mail ++ " <b>Email:</b> " ++ email ++ newline
  ++ icon_speech ++ " <b>Message:</b>" ++ newline
  ++ slice_to 200 message_content
  ++ (if Nat.ltb 200 (py_len message_content) then "..." else "").

(** [redirect(request.referrer or url_for('pages.index'))]. *)
Definition back (referrer : option string) : response :=
  match referrer with
  | Some r => if String.eqb r "" then RedirectTo (UrlFor "pages.index")
              else RedirectTo (Url r)
  | None => RedirectTo (UrlFor "pages.index")
  end.

Definition success_flash : string * string :=
  ("Message sent successfully! We will get back to you soon.", "success").

Definition failure_flash : string * string :=
  ("Error sending message. Please try again.", "danger").

Definition new_message (wid : Z) (mid : Z)
    (name email message_content request_type interest_area seriousness
     contact_pref company : string) : Message.t :=
  Message.mk wid mid (PStr name) (PStr email)
    (PStr (slice_to 5000 message_content))
    (PBool false) (PStr "portfolio")
    (message_default "sender_id") (message_default "receiver_id")
    (PStr "visitor")
    (str_or_none request_type) (str_or_none interest_area)
    (str_or_none seriousness) (str_or_none contact_pref)
    (str_or_none company)
    message_created_at.

(** The body of the [try] block of [contact]. *)
Definition contact_body (form : list (string * string))
    (referrer : option string) : io reply :=
  if negb (String.eqb (form_get form "website") "")
  then ret (mkReply (Jsonify (PDict [("success", PBool true)])) [])
  else
    allowed <~ pure (check_rate_limit "portfolio_contact") ;;
    if negb allowed
    then ret (mkReply (back referrer) [("Too many requests.", "danger")])
    else
      let name := strip (form_get form "name") in
      let email := strip (form_get form "email") in
      let message_content := strip (form_get form "message") in
      let portfolio_owner := strip (form_get form "portfolio_owner") in
      let request_type := strip (form_get form "request_type") in
      let interest_area := strip (form_get form "interest_area") in
      let seriousness := strip (form_get form "seriousness") in
      let contact_pref := strip (form_get form "contact_pref") in
      let company := strip (form_get form "company") in
      if String.eqb name "" || String.eqb email ""
         || String.eqb message_content "" || String.eqb portfolio_owner ""
      then ret (mkReply (back referrer) [("Required fields missing.", "danger")])
      else
        workspace <~ rd (fun db => get_workspace_by_username db portfolio_owner) ;;
        match workspace with
        | None => ret (mkReply (back referrer) [failure_flash])
        | Some workspace =>
            _ <~ (fun s =>
                    wr (set_messages (fun rows => rows ++
                          [new_message (Workspace.id workspace)
                             (fresh_message_id (working s))
                             name email message_content request_type
                             interest_area seriousness contact_pref company]))
                       s) ;;
            _ <~ db_commit ;;
            _ <~ pure (send_telegram_notification
                         (notification_text name email message_content)
                         portfolio_owner) ;;
            ret (mkReply (back referrer) [success_flash])
        end.

Definition contact (form : list (string * string)) (referrer : option string)
  : io reply :=
  try_exceptS (contact_body form referrer)
    (fun _ =>
       _ <~ db_rollback ;;
       ret (mkReply (back referrer) [failure_flash])).

(* ---------------------------------------------------------------- *)
(** ** The remaining readers of the view *)
(* ---------------------------------------------------------------- *)

(** [get_current_theme(session_obj)] of [utils/data.py];
    [session_obj.get('username')] is [None] or a string. *)
Definition get_current_theme (db : DB) (fs : FS)
    (session_username : option string) : result pyval :=
  if negb (username_given session_username) then Ok (PStr "luxury-gold")
  else
    user_data <- load_data db fs session_username ;;
    settings <- py_get user_data "settings" (PDict []) ;;
    py_get settings "theme" (PStr "luxury-gold").

(** [import weasyprint], probed on its own by [cv_preview]. *)
Variable import_weasyprint : result unit.

(** The list comprehension
    [[s for s in ... if s.get('is_active', True)]]. *)
Fixpoint active_services (items : list pyval) : result (list pyval) :=
  match items with
  | [] => Ok []
  | s :: rest =>
      active <- py_get s "is_active" (PBool true) ;;
      kept <- active_services rest ;;
      Ok (if truthy active then s :: kept else kept)
  end.

(** The two availability probes of [cv_preview]: the first lets every
    exception but [ImportError] and [OSError] through, the second
    swallows all of them. *)
Definition probe_weasyprint : result (pyval * pyval) :=
  match import_weasyprint with
  | Ok _ => Ok (PBool true, PNone)
  | Raise (ImportError msg) => Ok (PBool false, PStr msg)
  | Raise (OSError msg) => Ok (PBool false, PStr msg)
  | Raise e => Raise e
  end.

Definition probe_wkhtmltopdf : pyval * pyval :=
  match import_pdfkit with
  | Ok _ =>
      match which "wkhtmltopdf" with
      | Some wk => if String.eqb wk "" then (PBool false, PNone)
                   else (PBool true, PStr wk)
      | None => (PBool false, PNone)
      end
  | Raise _ => (PBool false, PNone)
  end.

Definition cv_preview (db : DB) (fs : FS) (session_username : option string)
  : result reply :=
  let username :=
    match session_username with Some u => u | None => "admin" end in
  data <- load_data db fs (Some username) ;;
  ' (weasy_available, weasy_error) <- probe_weasyprint ;;
  let (wkhtml_available, wkhtml_path) := probe_wkhtmltopdf in
  let pdf_methods := PDict [
    ("weasy_available", weasy_available);
    ("weasy_error", weasy_error);
    ("wkhtml_available", wkhtml_available);
    ("wkhtml_path", wkhtml_path)] in
  settings <- py_get data "settings" (PDict []) ;;
  current_theme <- py_get settings "theme" (PStr "luxury-gold") ;;
  listed <- py_get data "services" (PList []) ;;
  items <- py_iter listed ;;
  services <- active_services items ;;
  Ok (mkReply
        (RenderTemplate "cv_preview.html"
           [("data", data); ("pdf_methods", pdf_methods);
            ("current_theme", current_theme);
            ("services", PList services)] 200)
        []).

(* ---------------------------------------------------------------- *)
(** ** The project page *)
(* ---------------------------------------------------------------- *)

(** Two built-ins as they are: [int(s)] for a string, [None] standing
    for the [ValueError] that [project_detail] catches, and [repr] for
    lists and dicts. *)
Variable py_int : string -> option Z.
Variable py_repr : pyval -> string.

(** [str(v)]. *)
Definition py_str (v : pyval) : string :=
  match v with
  | PNone => "None"
  | PBool true => "True"
  | PBool false => "False"
  | PInt z => str_of_int z
  | PStr s => s
  | PList _ | PDict _ => py_repr v
  end.

(** [v == project_id_int], where [project_id_int] is an [int] or
    [None]. *)
Definition eq_parsed_id (v : pyval) (project_id_int : option Z) : bool :=
  match project_id_int, v with
  | Some n, PInt m => Z.eqb m n
  | Some n, PBool b => Z.eqb (int_of_bool b) n
  | None, PNone => true
  | _, _ => false
  end.

(** [p.get('id') == project_id_int or str(p.get('id')) == str(project_id)]. *)
Definition id_matches (project_id : string) (p : pyval) : result bool :=
  pid <- py_get p "id" PNone ;;
  Ok (eq_parsed_id pid (py_int project_id)
      || String.eqb (py_str pid) project_id).

Fixpoint first_project (projects : list pyval) (project_id : string)
  : result (option pyval) :=
  match projects with
  | [] => Ok None
  | p :: rest =>
      found <- id_matches project_id p ;;
      if found then Ok (Some p) else first_project rest project_id
  end.

Definition not_found : reply := mkReply (RenderTemplate "404.html" [] 404) [].

Definition project_detail (db : DB) (fs : FS) (username project_id : string)
  : result reply :=
  user_data <- load_data db fs (Some username) ;;
  if negb (truthy user_data) then Ok not_found
  else
    listed <- py_get user_data "projects" (PList []) ;;
    items <- py_iter listed ;;
    project <- first_project items project_id ;;
    match project with
    | Some p =>
        if truthy p then
          settings <- py_get user_data "settings" (PDict []) ;;
          current_theme <- py_get settings "theme" (PStr "luxury-gold") ;;
          Ok (mkReply
                (RenderTemplate "project_detail.html"
                   [("project", p); ("data", user_data);
                    ("current_theme", current_theme)] 200)
                [])
        else Ok not_found
    | None => Ok not_found
    end.

End App.

(* ================================================================== *)
(** * Vocabulary of the properties *)
(* ================================================================== *)

(** The four keys a project of type [request] adds to its view. *)
Definition request_keys : list string :=
  ["request_budget_min"; "request_budget_max"; "request_deadline";
   "request_status"].

(** The keys under which the view holds a date or a time. *)
Definition date_keys : list string :=
  ["created_at"; "updated_at"; "request_deadline"; "deadline"; "start_date";
   "status_updated_at"; "date"; "timestamp"; "configured_at"].

(** Every date field present in a view dict is [None] or follows one of
    the two fixed patterns. *)
Definition dates_ok (d : pydict) : bool :=
  forallb (fun k => match dict_get d k with
                    | Some v => date_field_ok v
                    | None => true
                    end) date_keys.

(** A date whose year every platform prints with four digits. *)
Definition four_digit_year (y : N) : bool := N.leb 1000 y.

Definition date_printed_alike (x : option Date.t) : bool :=
  match x with Some d => four_digit_year (Date.year d) | None => true end.

Definition datetime_printed_alike (x : option Datetime.t) : bool :=
  match x with Some dt => four_digit_year (Datetime.year dt) | None => true end.

(** The flat-file document has the documented shape: a JSON object whose
    [portfolios] entries are objects. *)
Definition entries_are_dicts (v : pyval) : bool :=
  match v with
  | PDict p => forallb (fun kv => is_dict (snd kv)) p
  | _ => true
  end.

Definition flat_well_formed (fs : FS) : bool :=
  match data_json fs with
  | Content (PDict d) =>
      entries_are_dicts (dict_get_default d "portfolios" (PDict []))
  | Content _ => false
  | Missing | Unreadable => true
  end.

(** The flat-file document can be read and its [portfolios] mapping has
    no entry for the username. *)
Definition absent_from_flat_file (fs : FS) (username : string) : bool :=
  match data_json fs with
  | Missing => true
  | Unreadable => false
  | Content (PDict d) =>
      match dict_get d "portfolios" with
      | None => true
      | Some (PDict p) => negb (has_key p username)
      | Some _ => false
      end
  | Content _ => false
  end.

(** The profile part of a view is empty: each of its fields is absent
    or holds an empty value. *)
Definition profile_keys : list string :=
  ["name"; "title"; "description"; "about"; "photo"; "contact"; "social"].

Definition profile_is_empty (d : pydict) : bool :=
  forallb (fun k => match dict_get d k with
                    | Some v => negb (truthy v)
                    | None => true
                    end) profile_keys.

Definition list_keys : list string :=
  ["skills"; "projects"; "services"; "messages"; "clients"].

(** The scalar fields of a view that [save_data] writes. *)
Definition scalar_keys : list string :=
  ["name"; "title"; "description"; "about"; "photo"; "contact"; "social";
   "settings"].

Definition default_settings : pyval := PDict [("theme", PStr "luxury-gold")].

(** The value a scalar field is read back as when the saved one is
    missing or empty. *)
Definition scalar_default (k : string) : pyval :=
  if String.eqb k "contact" || String.eqb k "social" then PDict []
  else if String.eqb k "settings" then default_settings
  else PStr "".

(** What a saved skill entry reads back as: its name and level, with the
    defaults of [save_data] for a missing key. *)
Definition normalized_skill (skill_data : pydict) : pyval :=
  PDict [("name", dict_get_default skill_data "name" (PStr ""));
         ("level", dict_get_default skill_data "level" (PInt 50))].

(** The filter of [get_workspace_by_username]. *)
Definition by_slug (username : string) (w : Workspace.t) : bool :=
  String.eqb (Workspace.slug w) username.

(** The four collections that [save_data] does not own. *)
Definition other_tables (db : DB)
  : list Project.t * list Client.t * list Message.t * list Service.t :=
  (projects db, clients db, messages db, services db).

(** A session state in which neither the committed database nor the
    pending changes differ from [db0] on those collections. *)
Definition frame (db0 : DB) (s : St) : Prop :=
  other_tables (committed s) = other_tables db0
  /\ other_tables (working s) = other_tables db0.

Definition preserves {A : Type} (c : io A) : Prop :=
  forall db0 s, frame db0 s -> frame db0 (snd (c s)).

(** A trimmed form field, as [contact] reads it. *)
Definition field (form : list (string * string)) (k : string) : string :=
  strip (form_get form k).

(** The submission passes the validation stages that precede the
    workspace lookup: empty honeypot and no blank required field. *)
Definition passes_validation (form : list (string * string)) : bool :=
  String.eqb (form_get form "website") ""
  && negb (String.eqb (field form "name") "")
  && negb (String.eqb (field form "email") "")
  && negb (String.eqb (field form "message") "")
  && negb (String.eqb (field form "portfolio_owner") "").

(** The row [contact] builds for a submission. *)
Definition intake_message (message_default : string -> pyval)
    (message_created_at : option Datetime.t) (db : DB) (w : Workspace.t)
    (form : list (string * string)) : Message.t :=
  new_message message_default message_created_at
    (Workspace.id w) (fresh_message_id db)
    (field form "name") (field form "email") (field form "message")
    (field form "request_type") (field form "interest_area")
    (field form "seriousness") (field form "contact_pref")
    (field form "company").

(** The flat-file document as a mapping: empty when there is no file. *)
Definition flat_document (f : file_state) : option pydict :=
  match f with
  | Missing => Some []
  | Content (PDict doc) => Some doc
  | _ => None
  end.

(** Its [portfolios] mapping: empty when the file or the key is missing. *)
Definition flat_portfolios (f : file_state) : option pydict :=
  match flat_document f with
  | Some doc =>
      match dict_get doc "portfolios" with
      | None => Some []
      | Some (PDict p) => Some p
      | Some _ => None
      end
  | None => None
  end.

(** A backup, when it succeeds, leaves [data.json] and its permissions
    as they are. *)
Definition backup_keeps_document (create_backup : FS -> result FS) (fs : FS)
  : Prop :=
  forall fs', create_backup fs = Ok fs' ->
    data_json fs' = data_json fs /\ writable fs' = writable fs.

(** A backup, when it succeeds, does not change how the write that
    follows it ends. *)
Definition backup_keeps_outcome (create_backup : FS -> result FS) (fs : FS)
  : Prop :=
  forall fs', create_backup fs = Ok fs' -> on_write fs' = on_write fs.

(** A computation that commits nothing. *)
Definition keeps_committed {A : Type} (c : io A) : Prop :=
  forall s, committed (snd (c s)) = committed s.

(** The visitor log row was written on today's UTC date. *)
Definition visited_today (now : Datetime.t) (log : VisitorLog.t) : bool :=
  match VisitorLog.created_at log with
  | Some created => Date.eqb (Datetime.date created) (Datetime.date now)
  | None => false
  end.

(** No two elements of the list are equal as a [set] sees them. *)
Fixpoint no_duplicate_ips (l : list pyval) : bool :=
  match l with
  | [] => true
  | x :: rest => negb (existsb (py_hash_eq x) rest) && no_duplicate_ips rest
  end.

(** The rows of a table that belong to a workspace. *)
Definition rows_of {A : Type} (wid : A -> Z) (w : Workspace.t) (rows : list A)
  : list A :=
  filter (fun r => Z.eqb (wid r) (Workspace.id w)) rows.

(** ** Sample data *)

(** The two ways of printing a year below 1000: as glibc does, and
    padded with zeros.  The samples run on the first. *)
Definition glibc : Platform :=
  {| year_below_1000 := fun y => NilZero.string_of_uint (N.to_uint y) |}.

Definition zero_padding : Platform := {| year_below_1000 := pad4 |}.

#[global] Existing Instance glibc.

Definition sample_now : Datetime.t := Datetime.mk 2024 1 2 12 0 0 0.

Definition sample_workspace : Workspace.t :=
  Workspace.mk 1 "ann" (PStr "Ann") (PStr "Engineer") (PStr "") PNone PNone
    (PDict [("email", PStr "ann@example.org")]) PNone PNone (PStr "pro").

Definition sample_project : Project.t :=
  Project.mk 1 7 (PStr "Site") PNone PNone PNone PNone PNone PNone PNone PNone
    PNone (PStr "request") PNone (Some (Datetime.mk 2023 12 31 23 59 58 0))
    (PInt 100) (PInt 200) (Some (Date.mk 2024 3 1)) PNone.

Definition sample_service : Service.t :=
  Service.mk 1 3 (PStr "Design") PNone PNone PNone PNone PNone PNone PNone
    PNone PNone PNone PNone PNone (PBool true) (PBool false)
    (Some (Datetime.mk 2024 1 2 3 4 5 0)) None.

Definition sample_users : list User.t :=
  [ User.mk 1 (PStr "ann") (PStr "ann@example.org") (PStr "h1") (PStr "user")
      (PBool false) (PBool true) (PBool false) None;
    User.mk 2 (PStr "root") (PStr "root@example.org") (PStr "h2") (PStr "admin")
      (PBool false) (PBool true) (PBool false) None ].

Definition sample_db : DB :=
  mkDB true [sample_workspace] sample_users
    [Skill.mk 1 (PStr "Rocq") (PInt 80)]
    [sample_project] [] [] [sample_service]
    [VisitorLog.mk 1 (PStr "10.0.0.1") (Some sample_now)] [].

Definition sample_fs : FS := mkFS Missing Written [].

Definition sample_set_order : list pyval -> list pyval := fun l => l.
Definition sample_badge : pyval -> result pyval := fun _ => Ok (PStr "Verified").
Definition sample_accepts : DB -> bool := fun _ => true.
Definition sample_backup : FS -> result FS := fun fs => Ok fs.
Definition sample_default : string -> pyval := fun _ => PNone.

(** A view with every saved scalar non-empty and complete skill entries. *)
Definition sample_view : pydict :=
  [ ("name", PStr "Ann B.");
    ("title", PStr "Proof engineer");
    ("settings", PDict [("theme", PStr "midnight")]);
    ("skills", PList [
       PDict [("name", PStr "Python"); ("level", PInt 90)];
       PDict [("name", PStr "Rocq"); ("level", PInt 70)]]) ].

(** A view with a null title, empty settings and a skill without level. *)
Definition loose_view : pydict :=
  [ ("name", PStr "Ann");
    ("title", PNone);
    ("settings", PDict []);
    ("skills", PList [PDict [("name", PStr "Python")]]) ].

Definition sample_form : list (string * string) :=
  [ ("name", " Bob "); ("email", "bob@example.org");
    ("message", "Hello Ann"); ("portfolio_owner", "ann") ].

Definition sample_rate_limit : string -> result bool := fun _ => Ok true.

(** A notifier that reports a failed delivery, and one that raises. *)
Definition notifier_reporting_failure : string -> string -> result pyval :=
  fun _ _ => Ok (PBool false).
Definition notifier_raising : string -> string -> result pyval :=
  fun _ _ => Raise (OtherException "telegram unreachable").

Definition sample_track : string -> result unit := fun _ => Ok tt.
Definition sample_render : string -> pydict -> result string :=
  fun _ _ => Ok "<html></html>".

(** Neither renderer is installed. *)
Definition weasyprint_missing : string -> result string :=
  fun _ => Raise (ImportError "No module named weasyprint").
Definition pdfkit_missing : result unit :=
  Raise (ImportError "No module named pdfkit").
Definition no_binary : string -> option string := fun _ => None.
Definition sample_configuration : string -> result string := fun p => Ok p.
Definition sample_from_string : string -> option string -> result string :=
  fun _ _ => Raise (OSError "No wkhtmltopdf executable found").

(** A flat file holding a legacy record for [bob]. *)
Definition legacy_project : pydict := [("id", PInt 1); ("title", PStr "Old")].

Definition legacy_fs : FS :=
  mkFS (Content (PDict [
          ("portfolios", PDict [
             ("bob", PDict [("name", PStr "Bob");
                            ("projects", PList [PDict legacy_project])])])]))
       Written [].

Definition offline_db : DB :=
  mkDB false [sample_workspace] sample_users [] [] [] [] [] [] [].

Definition legacy_record : pydict :=
  [("name", PStr "Bob"); ("projects", PList [PDict legacy_project])].

Definition unreadable_fs : FS := mkFS Unreadable Written [].

(** A database with a visitor log row that has no timestamp. *)
Definition broken_db : DB :=
  mkDB true [sample_workspace] sample_users [] [] [] [] []
    [VisitorLog.mk 1 (PStr "10.0.0.2") None] [].

(** A view whose skill list holds a number. *)
Definition failing_view : pydict :=
  [("name", PStr "Zed"); ("skills", PList [PInt 1])].

Definition spam_form : list (string * string) :=
  [("website", "http://spam.example"); ("name", "Bot")].


Definition stranger_form : list (string * string) :=
  [ ("name", "Bob"); ("email", "bob@example.org");
    ("message", "Hello"); ("portfolio_owner", "nobody") ].

(** A parser for the sample that knows the numeral [7], and a
    placeholder for [repr]. *)
Definition sample_int : string -> option Z :=
  fun s => if String.eqb s "7" then Some 7%Z else None.
Definition sample_repr : pyval -> string := fun _ => "[]".

(** A flat file whose record for [carl] holds a project without id. *)
Definition no_id_fs : FS :=
  mkFS (Content (PDict [
          ("portfolios", PDict [
             ("carl", PDict [("projects",
                              PList [PDict [("title", PStr "Untitled");
                                            ("project_type", PStr "portfolio");
                                            ("badge", PStr "")]])])])]))
       Written [].

(** The sample database with rows of a second workspace added. *)
Definition crowded_db : DB :=
  mkDB true (workspaces sample_db) (users sample_db)
    (Skill.mk 2 (PStr "Go") (PInt 10) :: skills sample_db)
    (projects sample_db) (clients sample_db) (messages sample_db)
    (services sample_db)
    (visitor_logs sample_db ++ [VisitorLog.mk 2 (PStr "10.9.9.9") None])
    (notification_settings sample_db).

(** A flat file with a record for [ann], on a disk that fills up while
    the next document is written. *)
Definition full_disk_fs : FS :=
  mkFS (Content (PDict [
          ("portfolios", PDict [("ann", PDict [("name", PStr "Ann")])])]))
       DumpInterrupted [].

(** A flat file whose record for [bob] is a list. *)
Definition list_fs : FS :=
  mkFS (Content (PDict [
          ("portfolios", PDict [("bob", PList [PInt 1; PInt 2])])]))
       Written [].

Definition weasyprint_ok : string -> result string := fun _ => Ok "%PDF-A".
Definition weasyprint_import_ok : result unit := Ok tt.
Definition weasyprint_import_broken : result unit :=
  Raise (OtherException "broken install").

(* ================================================================== *)
(** * Properties of the view materializer *)
(* ================================================================== *)

Lemma is_digit_digit_char (n : N) : is_digit (digit_char n) = true.
Proof.
  unfold is_digit, digit_char.
  assert (H : (n mod 10 < 10)%N) by (apply N.mod_lt; discriminate).
  revert H. generalize (n mod 10)%N. intros r H.
  rewrite N_ascii_embedding by lia.
  apply andb_true_intro; split; apply N.leb_le; lia.
Qed.

Section Materializer.

Context {platform : Platform}.

Lemma strftime_year_four_digits (y : N) :
  four_digit_year y = true -> strftime_year y = pad4 y.
Proof.
  unfold four_digit_year, strftime_year. intros H.
  apply N.leb_le in H.
  destruct (N.ltb_spec y 1000); [lia|reflexivity].
Qed.

Lemma strftime_date_pattern (d : Date.t) :
  four_digit_year (Date.year d) = true ->
  matches_pattern date_pattern (strftime_date d) = true.
Proof.
  intros H. unfold strftime_date. rewrite (strftime_year_four_digits _ H).
  unfold pad4, pad2, date_pattern. cbn.
  rewrite !is_digit_digit_char. reflexivity.
Qed.

Lemma strftime_datetime_pattern (dt : Datetime.t) :
  four_digit_year (Datetime.year dt) = true ->
  matches_pattern datetime_pattern (strftime_datetime dt) = true.
Proof.
  intros H. unfold strftime_datetime, strftime_date. cbn [Datetime.date Date.year Date.month Date.day].
  rewrite (strftime_year_four_digits _ H).
  unfold pad4, pad2, datetime_pattern. cbn.
  rewrite !is_digit_digit_char. reflexivity.
Qed.

Lemma fmt_datetime_or_none_ok (x : option Datetime.t) :
  datetime_printed_alike x = true ->
  date_field_ok (fmt_datetime_or_none x) = true.
Proof.
  destruct x as [dt|];
    cbn [fmt_datetime_or_none date_field_ok datetime_printed_alike]; intros H.
  - rewrite (strftime_datetime_pattern _ H). reflexivity.
  - reflexivity.
Qed.

Lemma fmt_date_or_none_ok (x : option Date.t) :
  date_printed_alike x = true ->
  date_field_ok (fmt_date_or_none x) = true.
Proof.
  destruct x as [d|];
    cbn [fmt_date_or_none date_field_ok date_printed_alike]; intros H.
  - rewrite (strftime_date_pattern _ H). apply orb_true_r.
  - reflexivity.
Qed.

(** Absent dates render as [None] in every converter. *)
Lemma absent_dates_render_none :
  fmt_datetime_or_none None = PNone /\ fmt_date_or_none None = PNone
  /\ isoformat_or_none None = PNone.
Proof. repeat split. Qed.

Ltac unfold_dates :=
  unfold dates_ok, date_keys;
  cbn -[date_field_ok fmt_datetime_or_none fmt_date_or_none isoformat_or_none];
  rewrite ?fmt_datetime_or_none_ok, ?fmt_date_or_none_ok by assumption;
  try reflexivity.

(** From the year 1000 on, the date fields of the converters that use
    [strftime] follow the fixed patterns on every platform. *)
Lemma project_dates_ok (project : Project.t) :
  datetime_printed_alike (Project.created_at project) = true ->
  date_printed_alike (Project.request_deadline project) = true ->
  dates_ok (project_to_dict project) = true.
Proof.
  intros H1 H2. unfold project_to_dict, request_fields.
  destruct (py_eq_str (Project.project_type project) "request"); unfold_dates.
Qed.

Lemma client_dates_ok (client : Client.t) :
  date_printed_alike (Client.deadline client) = true ->
  date_printed_alike (Client.start_date client) = true ->
  datetime_printed_alike (Client.created_at client) = true ->
  datetime_printed_alike (Client.status_updated_at client) = true ->
  dates_ok (client_to_dict client) = true.
Proof. intros H1 H2 H3 H4. unfold client_to_dict. unfold_dates. Qed.

Lemma message_dates_ok (message : Message.t) :
  datetime_printed_alike (Message.created_at message) = true ->
  dates_ok (message_to_dict message) = true.
Proof. intros H. unfold message_to_dict. unfold_dates. Qed.

Lemma user_dates_ok (user : User.t) :
  datetime_printed_alike (User.created_at user) = true ->
  dates_ok (user_to_dict user) = true.
Proof. intros H. unfold user_to_dict. unfold_dates. Qed.

Lemma notification_dates_ok (ns : NotificationSettings.t) (d : pydict) :
  datetime_printed_alike (NotificationSettings.telegram_configured_at ns)
    = true ->
  dict_get (notifications_of (Some ns)) "telegram" = Some (PDict d) ->
  dates_ok d = true.
Proof.
  intros Hy. unfold notifications_of.
  destruct (truthy (NotificationSettings.telegram_bot_token ns)); [|discriminate].
  cbn. intros H. injection H as <-. unfold_dates.
Qed.

(** The ISO format of a timestamp follows neither fixed pattern: the
    eleventh character is [T]. *)
Lemma isoformat_breaks_pattern (dt : Datetime.t) :
  date_field_ok (PStr (isoformat dt)) = false.
Proof.
  unfold date_field_ok, isoformat, pad4, pad2, datetime_pattern, date_pattern.
  cbn. rewrite !is_digit_digit_char. reflexivity.
Qed.

Lemma service_timestamps_break_pattern (service : Service.t) (dt : Datetime.t) :
  Service.created_at service = Some dt ->
  dates_ok (service_to_dict service) = false.
Proof.
  intros H. unfold service_to_dict, dates_ok, date_keys. rewrite H.
  cbn -[date_field_ok isoformat].
  rewrite isoformat_breaks_pattern. reflexivity.
Qed.

(** C5.  For every project record, each of the four request keys
    (budget min, budget max, deadline, status) is a key of the
    materialized project mapping exactly when [project_type] is
    ['request']; for a project of type ['portfolio'] the key is absent
    from the mapping (a lookup finds nothing, not a null value). *)
Theorem project_request_keys (project : Project.t) (k : string) :
  In k request_keys ->
  has_key (project_to_dict project) k
    = py_eq_str (Project.project_type project) "request"
  /\ (Project.project_type project = PStr "portfolio" ->
      dict_get (project_to_dict project) k = None).
Proof.
  intros Hin.
  assert (Hmain : has_key (project_to_dict project) k
                  = py_eq_str (Project.project_type project) "request").
  { unfold project_to_dict, request_keys in *.
    destruct (py_eq_str (Project.project_type project) "request");
      cbn in Hin;
      destruct Hin as [<-|[<-|[<-|[<-|[]]]]]; reflexivity. }
  split; [exact Hmain|].
  intros Hp. rewrite Hp in Hmain. unfold has_key in Hmain.
  destruct (dict_get (project_to_dict project) k); [discriminate|reflexivity].
Qed.

End Materializer.

(** Below the year 1000 the two platforms differ, and the output of
    glibc does not follow the date pattern. *)
Lemma strftime_below_1000 :
  @strftime_date glibc (Date.mk 999 1 2) = "999-01-02"
  /\ @strftime_date zero_padding (Date.mk 999 1 2) = "0999-01-02"
  /\ matches_pattern date_pattern (@strftime_date glibc (Date.mk 999 1 2))
     = false.
Proof. repeat split; vm_compute; reflexivity. Qed.

Lemma project_request_keys_witness :
  has_key (project_to_dict sample_project) "request_deadline"
    = py_eq_str (Project.project_type sample_project) "request"
  /\ (Project.project_type sample_project = PStr "portfolio" ->
      dict_get (project_to_dict sample_project) "request_deadline" = None).
Proof.
  apply (project_request_keys sample_project "request_deadline").
  cbn. tauto.
Defined.

(** C6.  The service converter renders a present timestamp with
    [isoformat]: for the sample service created at 2024-01-02 03:04:05
    the view holds ['2024-01-02T03:04:05'], which follows neither
    ['YYYY-MM-DD HH:MM:SS'] nor ['YYYY-MM-DD']. *)
Theorem service_to_dict_iso_timestamp :
  dict_get (service_to_dict sample_service) "created_at"
    = Some (PStr "2024-01-02T03:04:05")
  /\ date_field_ok (PStr "2024-01-02T03:04:05") = false
  /\ dates_ok (service_to_dict sample_service) = false.
Proof. repeat split; vm_compute; reflexivity. Qed.

(* ================================================================== *)
(** * Properties of the data-access facade: loading *)
(* ================================================================== *)

Ltac bind_inv H :=
  repeat match type of H with
         | bind ?c _ = Ok _ =>
             let E := fresh "E" in
             destruct c eqn:E; cbn [bind] in H; [|discriminate H]
         | (let (_, _) := ?p in _) = Ok _ => destruct p
         | match ?p with pair _ _ => _ end = Ok _ => destruct p
         end.

Section Loading.

Context {platform : Platform}.

Variable now : Datetime.t.
Variable set_order : list pyval -> list pyval.
Variable determine_badge : pyval -> result pyval.

Local Abbreviation load := (load_data now set_order determine_badge).
Local Abbreviation load_body := (load_data_body now set_order determine_badge).
Local Abbreviation from_json := (load_data_from_json determine_badge).
Local Abbreviation from_json_body := (load_data_from_json_body determine_badge).
Local Abbreviation materialize := (workspace_to_dict now set_order).

Lemma username_given_nonempty (username : string) :
  username <> "" -> username_given (Some username) = true.
Proof.
  intros H. unfold username_given.
  destruct (String.eqb_spec username ""); [contradiction|reflexivity].
Qed.

Lemma load_data_from_json_total (fs : FS) (username : option string) :
  exists v, from_json fs username = Ok v.
Proof.
  unfold load_data_from_json, try_except.
  destruct (from_json_body fs username); eauto.
Qed.

(** When the relational lookup finds no workspace, the facade answers
    from the flat file. *)
Lemma load_data_falls_back_absent (db : DB) (fs : FS) (username : string) :
  username <> "" ->
  get_workspace_by_username db username = Ok None ->
  load db fs (Some username) = from_json fs (Some username).
Proof.
  intros Hne Hlook. unfold load_data, load_data_body.
  rewrite (username_given_nonempty _ Hne). cbn [username_str].
  rewrite Hlook. cbn [bind].
  destruct (load_data_from_json_total fs (Some username)) as [v Hv].
  rewrite Hv. reflexivity.
Qed.

(** When the relational path raises, the facade answers from the flat
    file. *)
Lemma load_data_falls_back_raise (db : DB) (fs : FS)
    (username : option string) (e : exn) :
  load_body db fs username = Raise e ->
  load db fs username = from_json fs username.
Proof.
  intros H. unfold load_data. rewrite H. reflexivity.
Qed.

Lemma load_data_from_json_unreadable (fs : FS) (username : option string) :
  data_json fs = Unreadable ->
  from_json fs username = Ok (PDict []).
Proof.
  intros H. unfold load_data_from_json, load_data_from_json_body.
  rewrite H. reflexivity.
Qed.

(** C1.  For every (non-empty) username that resolves to a Workspace
    record in the relational store, [load_data(username)] returns
    exactly the mapping that [workspace_to_dict] produces for that
    workspace: the facade adds, removes and changes nothing. *)
Theorem load_data_is_materialized_view
    (db : DB) (fs : FS) (username : string) (w : Workspace.t) (view : pyval) :
  username <> "" ->
  get_workspace_by_username db username = Ok (Some w) ->
  materialize db (Some w) = Ok view ->
  load db fs (Some username) = Ok view.
Proof.
  intros Hne Hlook Hview. unfold load_data, load_data_body.
  rewrite (username_given_nonempty _ Hne). cbn [username_str].
  rewrite Hlook. cbn [bind]. rewrite Hview. reflexivity.
Qed.

(** *** The facade never raises and answers with a dict *)

Lemma workspace_to_dict_is_dict (db : DB) (w : option Workspace.t) (v : pyval) :
  materialize db w = Ok v -> is_dict v = true.
Proof.
  unfold workspace_to_dict. intros H.
  destruct w as [w|]; [|injection H as <-; reflexivity].
  bind_inv H. injection H as <-. reflexivity.
Qed.

Lemma backfill_projects_is_dict (d : pydict) (v : pyval) :
  backfill_projects determine_badge (PDict d) = Ok v -> is_dict v = true.
Proof.
  unfold backfill_projects. intros H. bind_inv H.
  destruct a; cbn in H; injection H as <-; reflexivity.
Qed.

Lemma dict_get_entries_are_dicts (p : pydict) (k : string) (x : pyval) :
  forallb (fun kv => is_dict (snd kv)) p = true ->
  dict_get p k = Some x -> is_dict x = true.
Proof.
  induction p as [|[k' v'] p IH]; cbn; [discriminate|].
  intros Hall Hget. apply andb_prop in Hall as [Hv Hp].
  destruct (String.eqb k' k).
  - injection Hget as <-. exact Hv.
  - auto.
Qed.

Lemma from_json_body_is_dict (fs : FS) (username : option string) (v : pyval) :
  flat_well_formed fs = true ->
  from_json_body fs username = Ok v -> is_dict v = true.
Proof.
  unfold flat_well_formed, load_data_from_json_body.
  destruct (data_json fs) as [| |doc]; cbn [path_exists read_json bind].
  - intros _. destruct (username_given username); cbn.
    + intros H. injection H as <-. reflexivity.
    + intros H. injection H as <-. reflexivity.
  - discriminate.
  - destruct doc as [| | | | |d]; try discriminate.
    intros Hwf. destruct (username_given username).
    2:{ intros H. injection H as <-. reflexivity. }
    cbn [py_get bind].
    destruct (dict_get_default d "portfolios" (PDict [])) as [| | |t|l|p];
      cbn [py_in_str bind]; try discriminate.
    + destruct (is_substring _ t); cbn; [discriminate|].
      intros H. injection H as <-. reflexivity.
    + destruct (existsb _ l); cbn; [discriminate|].
      intros H. injection H as <-. reflexivity.
    + cbn [entries_are_dicts] in Hwf.
      destruct (has_key p (username_str username)) eqn:Hk.
      2:{ intros H. injection H as <-. reflexivity. }
      cbn [py_getitem]. unfold has_key in Hk.
      destruct (dict_get p (username_str username)) as [x|] eqn:Hx;
        [|discriminate].
      cbn [bind].
      pose proof (dict_get_entries_are_dicts _ _ _ Hwf Hx) as Hd.
      destruct x as [| | | | |ud]; try discriminate.
      cbn [py_in_str bind].
      destruct (has_key ud "projects").
      * apply backfill_projects_is_dict.
      * intros H. injection H as <-. reflexivity.
Qed.

Lemma from_json_is_dict (fs : FS) (username : option string) :
  flat_well_formed fs = true ->
  exists d, from_json fs username = Ok (PDict d).
Proof.
  intros Hwf. unfold load_data_from_json, try_except.
  destruct (from_json_body fs username) as [v|e] eqn:E; [|eauto].
  apply from_json_body_is_dict in E; [|exact Hwf].
  destruct v; try discriminate. eauto.
Qed.

Lemma load_data_is_dict (db : DB) (fs : FS) (username : option string) :
  flat_well_formed fs = true ->
  exists d, load db fs username = Ok (PDict d).
Proof.
  intros Hwf. unfold load_data, try_except.
  destruct (load_body db fs username) as [v|e] eqn:E;
    [|apply from_json_is_dict; exact Hwf].
  assert (Hv : is_dict v = true).
  { unfold load_data_body in E.
    destruct (username_given username).
    - bind_inv E. destruct a as [w|].
      + eapply workspace_to_dict_is_dict; eassumption.
      + destruct (from_json_is_dict fs username Hwf) as [d Hd].
        rewrite Hd in E. injection E as <-. reflexivity.
    - bind_inv E. injection E as <-. reflexivity. }
  destruct v; try discriminate. eauto.
Qed.

(** C10, as amended.  [load_data] is total: for every input it returns
    a value and never raises; an exception of the relational path is
    caught and the flat-file path answers instead; if the flat-file read
    itself fails the answer is the empty dict, which is not the default
    template; and the value returned is a dict whenever the flat-file
    document has its documented shape (a JSON object whose [portfolios]
    entries are objects).  Without that shape the value need not be a
    dict: the record stored for the username is returned as it is. *)
Theorem load_data_never_raises
    (db : DB) (fs : FS) (username : option string) :
  (exists v, load db fs username = Ok v)
  /\ (forall e, load_body db fs username = Raise e ->
       load db fs username = from_json fs username)
  /\ (data_json fs = Unreadable ->
       from_json fs username = Ok (PDict [])
       /\ (forall e, load_body db fs username = Raise e ->
            load db fs username = Ok (PDict []))
       /\ PDict [] <> get_default_portfolio_data)
  /\ (flat_well_formed fs = true ->
       exists d, load db fs username = Ok (PDict d)).
Proof.
  split; [|split; [|split]].
  - unfold load_data, try_except.
    destruct (load_body db fs username); [eauto|].
    apply load_data_from_json_total.
  - intros e. apply load_data_falls_back_raise.
  - intros Hbad. split; [|split].
    + apply load_data_from_json_unreadable. exact Hbad.
    + intros e He. rewrite (load_data_falls_back_raise _ _ _ _ He).
      apply load_data_from_json_unreadable. exact Hbad.
    + discriminate.
  - apply load_data_is_dict.
Qed.

(** *** The default template *)

Lemma from_json_absent (fs : FS) (username : string) :
  username <> "" ->
  absent_from_flat_file fs username = true ->
  from_json fs (Some username) = Ok get_default_portfolio_data.
Proof.
  intros Hne. unfold absent_from_flat_file, load_data_from_json,
    load_data_from_json_body.
  rewrite (username_given_nonempty _ Hne). cbn [username_str].
  destruct (data_json fs) as [| |doc]; cbn [path_exists read_json bind].
  - intros _. reflexivity.
  - discriminate.
  - destruct doc as [| | | | |d]; try discriminate.
    cbn [py_get bind]. unfold dict_get_default.
    destruct (dict_get d "portfolios") as [p|].
    + destruct p as [| | | | |p]; try discriminate.
      cbn [py_in_str bind]. intros H.
      apply negb_true_iff in H. rewrite H. reflexivity.
    + intros _. reflexivity.
Qed.

(** C4 (amended).  For every non-empty username for which the
    relational store has no workspace (or cannot answer) and which is
    absent from the [portfolios] mapping of a readable flat-file
    document, [load_data(username)] returns the hard-coded default
    template: an empty name with the placeholder title and description,
    no about, photo, contact or social entry, the default theme
    ['luxury-gold'] in settings, and empty lists for skills, projects,
    services, messages and clients. *)
Theorem load_data_default_template (db : DB) (fs : FS) (username : string) :
  username <> "" ->
  (forall w, get_workspace_by_username db username <> Ok (Some w)) ->
  absent_from_flat_file fs username = true ->
  exists d,
    load db fs (Some username) = Ok (PDict d)
    /\ PDict d = get_default_portfolio_data
    /\ dict_get d "name" = Some (PStr "")
    /\ dict_get d "title" = Some (PStr "Web Developer & Designer")
    /\ dict_get d "description"
         = Some (PStr "Welcome to my professional portfolio.")
    /\ (forall k, In k ["about"; "photo"; "contact"; "social"] ->
         dict_get d k = None)
    /\ dict_get d "settings" = Some (PDict [("theme", PStr "luxury-gold")])
    /\ (forall k, In k list_keys -> dict_get d k = Some (PList [])).
Proof.
  intros Hne Hdb Hflat.
  assert (Hload : load db fs (Some username) = Ok get_default_portfolio_data).
  { destruct (get_workspace_by_username db username) as [[w|]|e] eqn:E.
    - exfalso. exact (Hdb w eq_refl).
    - rewrite (load_data_falls_back_absent db fs username Hne E).
      apply from_json_absent; assumption.
    - rewrite (load_data_falls_back_raise db fs (Some username) e).
      + apply from_json_absent; assumption.
      + unfold load_data_body.
        rewrite (username_given_nonempty _ Hne). cbn [username_str].
        rewrite E. reflexivity. }
  unfold get_default_portfolio_data in *.
  eexists. split; [exact Hload|].
  split; [reflexivity|].
  repeat split.
  - intros k Hk. cbn in Hk.
    destruct Hk as [<-|[<-|[<-|[<-|[]]]]]; reflexivity.
  - intros k Hk. cbn in Hk.
    destruct Hk as [<-|[<-|[<-|[<-|[<-|[]]]]]]; reflexivity.
Qed.

End Loading.

(* ================================================================== *)
(** * Properties of the data-access facade: saving *)
(* ================================================================== *)

Section Saving.

Context {platform : Platform}.

Variable accepts : DB -> bool.
Variable create_backup : FS -> result FS.
Variable workspace_default : string -> pyval.

Local Abbreviation save := (save_data accepts create_backup workspace_default).
Local Abbreviation save_body := (save_data_body accepts workspace_default).
Local Abbreviation to_json := (save_data_to_json create_backup).

(** *** The frame: projects, clients, messages and services *)

Lemma preserves_ret {A : Type} (a : A) : preserves (ret a).
Proof. intros db0 s H. exact H. Qed.

Lemma preserves_pure {A : Type} (c : result A) : preserves (pure c).
Proof. intros db0 s H. exact H. Qed.

Lemma preserves_rd {A : Type} (q : DB -> result A) : preserves (rd q).
Proof. intros db0 s H. exact H. Qed.

Lemma preserves_wr (f : DB -> DB) :
  (forall db, other_tables (f db) = other_tables db) -> preserves (wr f).
Proof.
  intros Hf db0 s [Hc Hw]. split; cbn; [exact Hc|]. rewrite Hf. exact Hw.
Qed.

Lemma preserves_commit : preserves (db_commit accepts).
Proof.
  intros db0 s [Hc Hw]. unfold db_commit.
  destruct (available (working s) && accepts (working s)); split; cbn; assumption.
Qed.

Lemma preserves_rollback : preserves db_rollback.
Proof. intros db0 s [Hc Hw]. split; cbn; assumption. Qed.

Lemma preserves_with_files (f : FS -> FS) : preserves (with_files f).
Proof. intros db0 s [Hc Hw]. split; cbn; assumption. Qed.

Lemma preserves_bindS {A B : Type} (c : io A) (k : A -> io B) :
  preserves c -> (forall a, preserves (k a)) -> preserves (bindS c k).
Proof.
  intros Hc Hk db0 s H. unfold bindS.
  specialize (Hc db0 s H).
  destruct (c s) as [[a|e] s']; cbn in *.
  - apply Hk. exact Hc.
  - exact Hc.
Qed.

Lemma preserves_try_exceptS {A : Type} (body : io A) (handler : exn -> io A) :
  preserves body -> (forall e, preserves (handler e)) ->
  preserves (try_exceptS body handler).
Proof.
  intros Hb Hh db0 s H. unfold try_exceptS.
  specialize (Hb db0 s H).
  destruct (body s) as [[a|e] s']; cbn in *.
  - exact Hb.
  - apply Hh. exact Hb.
Qed.

Lemma preserves_fun {A : Type} (c : St -> io A) :
  (forall s0, preserves (c s0)) -> preserves (fun s => c s s).
Proof. intros H db0 s Hs. apply H. exact Hs. Qed.

Lemma other_tables_set_workspaces f db :
  other_tables (set_workspaces f db) = other_tables db.
Proof. reflexivity. Qed.

Lemma other_tables_set_skills f db :
  other_tables (set_skills f db) = other_tables db.
Proof. reflexivity. Qed.

Create HintDb frame.
#[local] Hint Resolve preserves_ret preserves_pure preserves_rd preserves_commit
  preserves_rollback preserves_with_files other_tables_set_workspaces
  other_tables_set_skills : frame.

Ltac frame_step :=
  first [ apply preserves_bindS; [|intros ?]
        | apply preserves_wr; intros ?; reflexivity
        | solve [auto with frame] ].

Lemma preserves_get_or_create (username : string) (name : pyval) :
  preserves (get_or_create_workspace accepts workspace_default username name).
Proof.
  unfold get_or_create_workspace.
  apply preserves_bindS; [auto with frame|].
  intros [w|]; [auto with frame|].
  apply (preserves_fun (fun s0 => _)). intros s0.
  repeat frame_step.
Qed.

Lemma preserves_add_skills (wid : Z) (items : list pyval) :
  preserves (add_skills wid items).
Proof.
  induction items as [|x items IH]; cbn [add_skills].
  - auto with frame.
  - repeat frame_step.
Qed.

Lemma preserves_replace_skills (w : Workspace.t) (user_data : pyval) :
  preserves (replace_skills w user_data).
Proof.
  unfold replace_skills. repeat frame_step. apply preserves_add_skills.
Qed.

Lemma preserves_save_data_body (user_data : pyval) (username : string) :
  preserves (save_body user_data username).
Proof.
  unfold save_data_body.
  apply preserves_bindS; [auto with frame|intros name].
  apply preserves_bindS; [apply preserves_get_or_create|intros w].
  apply preserves_bindS; [auto with frame|intros w1].
  apply preserves_bindS; [apply preserves_wr; intros ?; reflexivity|intros _].
  apply preserves_bindS; [auto with frame|intros has_skills].
  apply preserves_bindS; [|intros _; auto with frame].
  destruct has_skills; [apply preserves_replace_skills|auto with frame].
Qed.

Lemma preserves_save_data (user_data : pyval) (username : option string)
    (auto_backup : bool) :
  preserves (save user_data username auto_backup).
Proof.
  unfold save_data. apply preserves_try_exceptS.
  - destruct (negb (username_given username));
      [auto with frame|apply preserves_save_data_body].
  - intros e. repeat frame_step.
Qed.

(** C3.  For every username and every input view, [save_data] leaves
    the Project, Client, Message and Service rows as they were: it
    deletes, inserts and modifies no row of those four collections,
    whichever path (relational, rollback, flat file) the call takes. *)
Theorem save_data_leaves_other_collections
    (user_data : pyval) (username : option string) (auto_backup : bool)
    (db : DB) (fs : FS) :
  let db' := fst (run (save user_data username auto_backup) db fs) in
  projects db' = projects db /\ clients db' = clients db
  /\ messages db' = messages db /\ services db' = services db.
Proof.
  cbn zeta. unfold run. cbn [fst].
  assert (H0 : frame db (mkSt db db fs)) by (split; reflexivity).
  destruct (preserves_save_data user_data username auto_backup db _ H0)
    as [Hc _].
  unfold other_tables in Hc. injection Hc as -> -> -> ->. repeat split.
Qed.

(** *** Save followed by load *)

Variable now : Datetime.t.
Variable set_order : list pyval -> list pyval.
Variable determine_badge : pyval -> result pyval.

Local Abbreviation load := (load_data now set_order determine_badge).
Local Abbreviation load_body := (load_data_body now set_order determine_badge).
Local Abbreviation get_or_create :=
  (get_or_create_workspace accepts workspace_default).

Lemma find_app_new {A : Type} (p : A -> bool) (rows : list A) (x : A) :
  find p rows = None -> p x = true -> find p (rows ++ [x]) = Some x.
Proof.
  induction rows as [|r rows IH]; cbn; intros Hn Hx.
  - rewrite Hx. reflexivity.
  - destruct (p r); [discriminate|auto].
Qed.

Lemma find_store (rows : list Workspace.t) (username : string)
    (w0 w1 : Workspace.t) :
  find (by_slug username) rows = Some w0 ->
  Workspace.slug w1 = username ->
  Workspace.id w1 = Workspace.id w0 ->
  find (by_slug username)
       (map (fun r => if Z.eqb (Workspace.id r) (Workspace.id w1)
                      then w1 else r) rows) = Some w1.
Proof.
  intros Hfind Hslug Hid.
  assert (Hw1 : by_slug username w1 = true)
    by (unfold by_slug; rewrite Hslug; apply String.eqb_refl).
  induction rows as [|r rows IH]; cbn in *; [discriminate|].
  destruct (by_slug username r) eqn:Hr.
  - injection Hfind as ->. rewrite Hid, Z.eqb_refl, Hw1. reflexivity.
  - destruct (Z.eqb (Workspace.id r) (Workspace.id w1)).
    + rewrite Hw1. reflexivity.
    + rewrite Hr. auto.
Qed.

Lemma get_or_create_ok (username : string) (name : pyval) (s s1 : St)
    (w : Workspace.t) :
  get_or_create username name s = (Ok w, s1) ->
  available (working s1) = true
  /\ Workspace.slug w = username
  /\ find (by_slug username) (workspaces (working s1)) = Some w
  /\ skills (working s1) = skills (working s)
  /\ files s1 = files s.
Proof.
  unfold get_or_create_workspace, bindS, rd, get_workspace_by_username,
    query_all.
  destruct (available (working s)) eqn:Hav; cbn [bind]; [|discriminate].
  fold (by_slug username).
  destruct (find (by_slug username) (workspaces (working s))) as [w0|] eqn:Hf.
  - unfold ret. intros H. injection H as <- <-.
    repeat split; try assumption.
    apply find_some in Hf. destruct Hf as [_ Hf].
    apply String.eqb_eq. exact Hf.
  - unfold wr, db_commit, ret. cbn.
    rewrite Hav. cbn [andb].
    destruct (accepts _); [|discriminate].
    intros H. injection H as <- <-. cbn.
    repeat split; try assumption.
    apply find_app_new; [exact Hf|].
    unfold by_slug. cbn. apply String.eqb_refl.
Qed.

Lemma set_skills_app_nil (db : DB) :
  set_skills (fun rows => rows ++ []) db = db.
Proof. destruct db. unfold set_skills. cbn. rewrite app_nil_r. reflexivity. Qed.

Lemma add_skills_ok (wid : Z) (items : list pyval) (s s' : St) :
  add_skills wid items s = (Ok tt, s') ->
  exists rows,
    mapM (new_skill wid) items = Ok rows
    /\ s' = mkSt (committed s)
               (set_skills (fun r => r ++ rows) (working s)) (files s).
Proof.
  revert s. induction items as [|x items IH]; intros s; cbn [add_skills mapM].
  - unfold ret. intros H. injection H as <-. exists []. split; [reflexivity|].
    rewrite set_skills_app_nil. destruct s; reflexivity.
  - unfold bindS at 1, pure.
    destruct (new_skill wid x) as [sk|e]; [|discriminate].
    unfold bindS at 1, wr. intros H.
    apply IH in H. destruct H as [rows [Hrows ->]].
    exists (sk :: rows). cbn [bind]. rewrite Hrows. cbn [bind].
    split; [reflexivity|].
    cbn. unfold set_skills. cbn. rewrite <- app_assoc. reflexivity.
Qed.

Lemma new_skill_rows (wid : Z) (items : list pyval) (rows : list Skill.t) :
  mapM (new_skill wid) items = Ok rows ->
  Forall (fun r => Skill.workspace_id r = wid) rows
  /\ exists ds, items = map PDict ds
              /\ map skill_to_dict rows = map normalized_skill ds.
Proof.
  revert rows. induction items as [|x items IH]; intros rows; cbn [mapM].
  - intros H. injection H as <-. split; [constructor|]. exists []. split; reflexivity.
  - intros H. bind_inv H. injection H as <-.
    destruct (IH _ eq_refl) as [Hall [ds [-> Hmap]]].
    unfold new_skill in E.
    destruct x as [| | | | |d]; try discriminate.
    cbn in E. injection E as <-.
    split; [constructor; [reflexivity|exact Hall]|].
    exists (d :: ds). split; [reflexivity|].
    cbn [map]. rewrite Hmap. reflexivity.
Qed.

Lemma filter_replaced (wid : Z) (old rows : list Skill.t) :
  Forall (fun r => Skill.workspace_id r = wid) rows ->
  filter (fun r => Z.eqb (Skill.workspace_id r) wid)
    (filter (fun r => negb (Z.eqb (Skill.workspace_id r) wid)) old ++ rows)
  = rows.
Proof.
  intros Hall. rewrite filter_app.
  replace (filter _ (filter _ old)) with (@nil Skill.t).
  - cbn. induction Hall as [|r rows Hr _ IH]; cbn; [reflexivity|].
    rewrite Hr, Z.eqb_refl, IH. reflexivity.
  - induction old as [|r old IH]; cbn; [reflexivity|].
    destruct (Z.eqb (Skill.workspace_id r) wid) eqn:Hr; cbn; [exact IH|].
    rewrite Hr. exact IH.
Qed.

(** What a completed relational save leaves in the database. *)
Lemma save_body_ok (view : pydict) (username : string) (s s' : St) :
  save_body (PDict view) username s = (Ok tt, s') ->
  exists w0 s1 w1 sk,
    get_or_create username (dict_get_default view "name" PNone) s = (Ok w0, s1)
    /\ update_fields w0 (PDict view) = Ok w1
    /\ committed s' = set_skills (fun _ => sk) (store_workspace w1 (working s1))
    /\ files s' = files s1
    /\ (if has_key view "skills"
        then exists items rows,
            py_iter (dict_get_default view "skills" (PList [])) = Ok items
            /\ mapM (new_skill (Workspace.id w1)) items = Ok rows
            /\ sk = filter (fun r => negb (Z.eqb (Skill.workspace_id r)
                                                (Workspace.id w1)))
                           (skills (working s1)) ++ rows
        else sk = skills (working s1)).
Proof.
  unfold save_data_body.
  unfold bindS at 1, pure. cbn [py_get].
  unfold bindS at 1.
  destruct (get_or_create username (dict_get_default view "name" PNone) s)
    as [[w0|e] s1] eqn:Hgoc; [|discriminate].
  destruct (get_or_create_ok _ _ _ _ _ Hgoc) as [Hav _].
  unfold bindS at 1, pure.
  destruct (update_fields w0 (PDict view)) as [w1|e] eqn:Hup; [|discriminate].
  unfold bindS at 1, wr.
  unfold bindS at 1, pure. cbn [py_in_str].
  intros H. exists w0, s1, w1.
  destruct (has_key view "skills").
  - unfold bindS at 1 in H. unfold replace_skills in H.
    unfold bindS at 1, rd, query_all in H. cbn [working] in H.
    replace (available (store_workspace w1 (working s1))) with true in H
      by (symmetry; exact Hav).
    unfold bindS at 1, wr in H. cbn [working committed files] in H.
    unfold bindS at 1, pure in H. cbn [py_get] in H.
    unfold bindS at 1, pure in H.
    destruct (py_iter (dict_get_default view "skills" (PList [])))
      as [items|e] eqn:Hiter; [|discriminate].
    match type of H with
    | match add_skills ?wid ?items ?st with _ => _ end = _ =>
        destruct (add_skills wid items st) as [[[]|e] s2] eqn:Hadd;
          [|discriminate]
    end.
    apply add_skills_ok in Hadd. destruct Hadd as [rows [Hrows ->]].
    unfold db_commit in H. cbn [working committed files] in H.
    match type of H with
    | (if ?c then _ else _) = _ => destruct c; [|discriminate]
    end.
    injection H as <-. cbn [committed files].
    eexists. split; [first [reflexivity|exact Hgoc]|]. split; [exact Hup|].
    split; [reflexivity|]. split; [reflexivity|].
    exists items, rows. repeat split; assumption.
  - unfold bindS at 1, ret in H.
    unfold db_commit in H. cbn [working committed files] in H.
    match type of H with
    | (if ?c then _ else _) = _ => destruct c; [|discriminate]
    end.
    injection H as <-. cbn [committed files].
    exists (skills (working s1)).
    split; [first [reflexivity|exact Hgoc]|]. split; [exact Hup|].
    split; [|split; reflexivity].
    destruct (working s1); reflexivity.
Qed.

(** A save that completes on the relational path is what [save_data]
    does. *)
Lemma save_data_relational (user_data : pyval) (username : string)
    (auto_backup : bool) (s s' : St) :
  username <> "" ->
  save_body user_data username s = (Ok tt, s') ->
  save user_data (Some username) auto_backup s = (Ok tt, s').
Proof.
  intros Hne H. unfold save_data, try_exceptS.
  rewrite (username_given_nonempty _ Hne). cbn [negb username_str].
  rewrite H. reflexivity.
Qed.

(** C2 (amended).  For every non-empty username and every view whose
    save completes on the relational path, a load that the relational
    path answers returns a view in which: the name is the saved one;
    every other scalar field (title, description, about, photo, contact,
    social, settings) is the saved value, or the field's default when
    the saved value is missing or empty, so that every non-empty saved
    scalar is read back unchanged; and, when the view carries a skill
    list, the skills are, as an order-insensitive collection, the saved
    entries reduced to their name and level, with the defaults [''] and
    [50] for a missing key. *)
Theorem save_then_load
    (db : DB) (fs : FS) (view : pydict) (username : string)
    (auto_backup : bool) (loaded : pyval) :
  username <> "" ->
  fst (save_body (PDict view) username (mkSt db db fs)) = Ok tt ->
  let after := run (save (PDict view) (Some username) auto_backup) db fs in
  load_body (fst after) (snd after) (Some username) = Ok loaded ->
  load (fst after) (snd after) (Some username) = Ok loaded
  /\ exists l,
      loaded = PDict l
      /\ (forall v, dict_get view "name" = Some v -> dict_get l "name" = Some v)
      /\ (forall k, In k scalar_keys -> k <> "name" ->
           dict_get l k
           = Some (py_or (dict_get_default view k (scalar_default k))
                         (scalar_default k)))
      /\ (forall k v, In k scalar_keys -> dict_get view k = Some v ->
           truthy v = true -> dict_get l k = Some v)
      /\ (forall sv, dict_get view "skills" = Some sv ->
           exists items ds loaded_skills,
             py_iter sv = Ok items
             /\ items = map PDict ds
             /\ dict_get l "skills" = Some (PList loaded_skills)
             /\ Permutation loaded_skills (map normalized_skill ds)).
Proof.
  intros Hne Hsave.
  destruct (save_body (PDict view) username (mkSt db db fs))
    as [[[]|e] s'] eqn:Hb; cbn [fst] in Hsave; [|discriminate].
  cbn zeta. unfold run.
  rewrite (save_data_relational _ _ auto_backup _ _ Hne Hb). cbn [snd fst].
  destruct (save_body_ok _ _ _ _ Hb)
    as (w0 & s1 & w1 & sk & Hgoc & Hup & Hc & Hf & Hsk).
  destruct (get_or_create_ok _ _ _ _ _ Hgoc)
    as (Hav & Hslug & Hfind & Hskills & Hfiles).
  intros Hload.
  split; [unfold load_data; rewrite Hload; reflexivity|].
  assert (Hw1 : Workspace.slug w1 = username
                /\ Workspace.id w1 = Workspace.id w0).
  { unfold update_fields in Hup. cbn in Hup. injection Hup as <-.
    split; [exact Hslug|reflexivity]. }
  destruct Hw1 as [Hslug1 Hid1].
  unfold load_data_body in Hload.
  rewrite (username_given_nonempty _ Hne) in Hload. cbn [username_str] in Hload.
  unfold get_workspace_by_username, query_all in Hload.
  rewrite Hc in Hload. cbn [available set_skills store_workspace set_workspaces
                             workspaces bind] in Hload.
  rewrite Hav in Hload. cbn [bind] in Hload.
  fold (by_slug username) in Hload.
  rewrite (find_store _ username w0 w1 Hfind Hslug1 Hid1) in Hload.
  cbn [bind] in Hload.
  unfold workspace_to_dict in Hload.
  match type of Hload with
  | bind ?c _ = _ => destruct c as [ss|e] eqn:Hss; [|discriminate]
  end.
  cbn [bind] in Hload.
  unfold filter_by_workspace, query_all in Hss. cbn in Hss.
  rewrite Hav in Hss. cbn in Hss. injection Hss as <-.
  bind_inv Hload. injection Hload as <-.
  unfold update_fields in Hup. cbn in Hup. injection Hup as <-.
  eexists. split; [reflexivity|].
  split; [|split; [|split]].
  - intros v Hv. cbn. unfold dict_get_default. rewrite Hv. reflexivity.
  - intros k Hin Hnn. cbn in Hin.
    destruct Hin as [<-|[<-|[<-|[<-|[<-|[<-|[<-|[<-|[]]]]]]]]];
      try contradiction; reflexivity.
  - intros k v Hin Hv Ht. cbn in Hin.
    destruct Hin as [<-|[<-|[<-|[<-|[<-|[<-|[<-|[<-|[]]]]]]]]];
      cbn; unfold dict_get_default, py_or; rewrite Hv, ?Ht; reflexivity.
  - intros sv Hsv.
    assert (Hk : has_key view "skills" = true)
      by (unfold has_key; rewrite Hsv; reflexivity).
    rewrite Hk in Hsk. destruct Hsk as (items & rows & Hiter & Hrows & ->).
    unfold dict_get_default in Hiter. rewrite Hsv in Hiter.
    destruct (new_skill_rows _ _ _ Hrows) as (Hall & ds & -> & Hmap).
    exists (map PDict ds), ds, (map normalized_skill ds).
    split; [exact Hiter|]. split; [reflexivity|].
    split; [|apply Permutation_refl].
    cbn. cbn in Hall. rewrite (filter_replaced _ _ _ Hall).
    rewrite Hmap. reflexivity.
Qed.

End Saving.

(* ================================================================== *)
(** * Properties of the portfolio routes *)
(* ================================================================== *)

Section Routes.

Context {platform : Platform}.

Variable now : Datetime.t.
Variable set_order : list pyval -> list pyval.
Variable determine_badge : pyval -> result pyval.
Variable accepts : DB -> bool.
Variable track_visitor : string -> result unit.
Variable render_template : string -> pydict -> result string.
Variable check_rate_limit : string -> result bool.
Variable send_telegram_notification : string -> string -> result pyval.
Variable weasyprint_write_pdf : string -> result string.
Variable import_pdfkit : result unit.
Variable which : string -> option string.
Variable pdfkit_configuration : string -> result string.
Variable pdfkit_from_string : string -> option string -> result string.
Variable message_default : string -> pyval.
Variable message_created_at : option Datetime.t.

Local Abbreviation load := (load_data now set_order determine_badge).
Local Abbreviation portfolio_page :=
  (user_portfolio now set_order determine_badge track_visitor).
Local Abbreviation users_of := (listed_users now set_order determine_badge).
Local Abbreviation download :=
  (download_cv now set_order determine_badge render_template
     weasyprint_write_pdf import_pdfkit which pdfkit_configuration
     pdfkit_from_string).
Local Abbreviation intake :=
  (contact accepts check_rate_limit send_telegram_notification
     message_default message_created_at).

(** *** The public portfolio page *)

Lemma first_user_some (l : list pyval) (username : string) (u : pyval) :
  first_user l username = Ok (Some u) ->
  exists d, u = PDict d /\ truthy u = true.
Proof.
  induction l as [|x l IH]; cbn [first_user]; [discriminate|].
  intros H. bind_inv H.
  destruct (py_eq_str a username).
  - injection H as <-. destruct x as [| | | | |d]; try discriminate.
    exists d. split; [reflexivity|].
    destruct d; [discriminate|reflexivity].
  - auto.
Qed.

Lemma find_user_some (users : pyval) (username : string) (u : pyval) :
  find_user users username = Ok (Some u) ->
  exists d, u = PDict d /\ truthy u = true.
Proof.
  unfold find_user. intros H. bind_inv H.
  eapply first_user_some; eassumption.
Qed.


(** *** PDF export *)

(** C8.  Whenever both PDF renderers are unavailable (the first one
    raises without the known shared-library defect, and the second
    one's library or binary is missing), the CV download streams no
    file and redirects to the preview page with a library-install
    remediation message. *)
Theorem download_cv_without_renderers
    (db : DB) (fs : FS) (session_username : option string)
    (data : pyval) (html_content : string) (e : exn) (m : string) :
  load db fs (Some (match session_username with
                    | Some u => u | None => "admin" end)) = Ok data ->
  render_template "cv_preview.html" [("data", data); ("pdf_mode", PBool true)]
    = Ok html_content ->
  weasyprint_write_pdf html_content = Raise e ->
  known_gtk_defect e = false ->
  (import_pdfkit = Raise (ImportError m)
   \/ (import_pdfkit = Ok tt /\ which "wkhtmltopdf" = None
       /\ pdfkit_from_string html_content None = Raise (OSError m))) ->
  let message := match import_pdfkit with
                 | Raise _ => library_missing_message
                 | Ok _ => wkhtmltopdf_missing_message
                 end in
  download db fs session_username
    = Ok (mkReply (RedirectTo (UrlFor "portfolio.cv_preview"))
                  [(message, "error")])
  /\ is_substring "install" message = true
  /\ (forall r content mimetype download_name,
        download db fs session_username = Ok r ->
        resp r <> SendFile content mimetype download_name).
Proof.
  intros Hdata Hhtml Ha Hdefect Hb. cbn zeta.
  assert (Hmain : download db fs session_username
                  = Ok (back_to_preview
                          (match import_pdfkit with
                           | Raise _ => library_missing_message
                           | Ok _ => wkhtmltopdf_missing_message
                           end))).
  { unfold download_cv. rewrite Hdata. cbn [bind].
    rewrite Hhtml. cbn [bind]. rewrite Ha. cbn [bind]. rewrite Hdefect.
    unfold pdfkit_fallback.
    destruct Hb as [Hb|[Hb [Hw Hf]]].
    - rewrite Hb. reflexivity.
    - rewrite Hb. cbn [bind]. rewrite Hw. cbn [bind]. rewrite Hf.
      reflexivity. }
  split; [exact Hmain|]. split.
  - destruct import_pdfkit; vm_compute; reflexivity.
  - intros r content mimetype download_name Hr.
    rewrite Hmain in Hr. injection Hr as <-. discriminate.
Qed.

(** *** Contact intake *)

Lemma lookup_available (db : DB) (username : string) (w : option Workspace.t) :
  get_workspace_by_username db username = Ok w -> available db = true.
Proof.
  unfold get_workspace_by_username, query_all.
  destruct (available db); [reflexivity|discriminate].
Qed.

(** What [contact] does with a valid submission whose row is committed,
    for each outcome of the notifier. *)
Lemma contact_committed
    (form : list (string * string)) (referrer : option string)
    (db : DB) (fs : FS) (w : Workspace.t) :
  passes_validation form = true ->
  check_rate_limit "portfolio_contact" = Ok true ->
  get_workspace_by_username db (field form "portfolio_owner") = Ok (Some w) ->
  let row := intake_message message_default message_created_at db w form in
  let db' := set_messages (fun rows => rows ++ [row]) db in
  accepts db' = true ->
  intake form referrer (mkSt db db fs)
  = (Ok (mkReply (back referrer)
           [match send_telegram_notification
                    (notification_text (field form "name") (field form "email")
                       (field form "message"))
                    (field form "portfolio_owner") with
            | Ok _ => success_flash
            | Raise _ => failure_flash
            end]),
     mkSt db' db' fs).
Proof.
  intros Hv Hrate Hlook row db' Hacc.
  pose proof (lookup_available _ _ _ Hlook) as Hav.
  unfold passes_validation in Hv.
  repeat (apply andb_prop in Hv; destruct Hv as [Hv ?]).
  repeat match goal with
         | H : negb _ = true |- _ => apply negb_true_iff in H
         end.
  unfold field in *.
  unfold contact, try_exceptS, contact_body.
  rewrite Hv. cbn [negb].
  unfold bindS at 1, pure. rewrite Hrate. cbn [negb].
  repeat match goal with
         | H : String.eqb _ "" = false |- _ => rewrite H; clear H
         end.
  cbn [orb].
  unfold bindS at 1, rd. cbn [working]. rewrite Hlook.
  unfold bindS at 1, wr. cbn [working committed files].
  unfold bindS at 1, db_commit. cbn [working committed files].
  fold (field form "name") (field form "email") (field form "message")
       (field form "request_type") (field form "interest_area")
       (field form "seriousness") (field form "contact_pref")
       (field form "company") (field form "portfolio_owner").
  change (set_messages _ db) with db'.
  replace (available db') with true by (symmetry; exact Hav).
  rewrite Hacc. cbn [andb].
  unfold bindS, pure.
  destruct (send_telegram_notification _ _); reflexivity.
Qed.

(** C7 (amended).  For every contact submission that passes validation
    and whose Message row is committed, the row stays in the database
    whatever the notifier does, and the success response is returned
    whenever the notifier call returns, whatever result it reports. *)
Theorem contact_notification_decoupled
    (form : list (string * string)) (referrer : option string)
    (db : DB) (fs : FS) (w : Workspace.t) :
  passes_validation form = true ->
  check_rate_limit "portfolio_contact" = Ok true ->
  get_workspace_by_username db (field form "portfolio_owner") = Ok (Some w) ->
  let row := intake_message message_default message_created_at db w form in
  accepts (set_messages (fun rows => rows ++ [row]) db) = true ->
  let out := intake form referrer (mkSt db db fs) in
  messages (committed (snd out)) = messages db ++ [row]
  /\ (forall v,
        send_telegram_notification
          (notification_text (field form "name") (field form "email")
             (field form "message"))
          (field form "portfolio_owner") = Ok v ->
        fst out = Ok (mkReply (back referrer) [success_flash])).
Proof.
  intros Hv Hrate Hlook row Hacc out. subst out.
  rewrite (contact_committed form referrer db fs w Hv Hrate Hlook Hacc).
  cbn [fst snd committed]. split; [reflexivity|].
  intros v Hn. rewrite Hn. reflexivity.
Qed.

End Routes.

(* ================================================================== *)
(** * The properties on the sample data *)
(* ================================================================== *)

Lemma load_data_is_materialized_view_witness :
  exists view,
    workspace_to_dict sample_now sample_set_order sample_db
      (Some sample_workspace) = Ok view
    /\ load_data sample_now sample_set_order sample_badge sample_db sample_fs
         (Some "ann") = Ok view.
Proof.
  eexists. split; [vm_compute; reflexivity|].
  apply (load_data_is_materialized_view sample_now sample_set_order
           sample_badge sample_db sample_fs "ann" sample_workspace).
  - discriminate.
  - reflexivity.
  - vm_compute. reflexivity.
Defined.

Lemma load_data_never_raises_witness :
  exists d,
    load_data sample_now sample_set_order sample_badge sample_db sample_fs
      (Some "nobody") = Ok (PDict d).
Proof.
  apply (proj2 (proj2 (proj2
           (load_data_never_raises sample_now sample_set_order sample_badge
              sample_db sample_fs (Some "nobody"))))).
  reflexivity.
Defined.

(** C10, counterexample.  A list saved for [bob] is stored in the flat
    file (the relational path raises on [user_data.get] before any
    workspace is created), and [load_data('bob')] then returns that
    list, which is not a dict. *)
Lemma load_data_returns_a_list :
  run (save_data sample_accepts sample_backup sample_default
         (PList [PInt 1; PInt 2]) (Some "bob") true) sample_db sample_fs
    = (sample_db, list_fs)
  /\ load_data sample_now sample_set_order sample_badge sample_db list_fs
       (Some "bob") = Ok (PList [PInt 1; PInt 2])
  /\ is_dict (PList [PInt 1; PInt 2]) = false.
Proof. repeat split; vm_compute; reflexivity. Qed.

Lemma load_data_default_template_witness :
  exists d,
    load_data sample_now sample_set_order sample_badge sample_db sample_fs
      (Some "nobody") = Ok (PDict d)
    /\ PDict d = get_default_portfolio_data.
Proof.
  destruct (load_data_default_template sample_now sample_set_order
              sample_badge sample_db sample_fs "nobody")
    as [d [H1 [H2 _]]].
  - discriminate.
  - intros w H. vm_compute in H. discriminate H.
  - reflexivity.
  - exists d. split; assumption.
Defined.

(** The profile of the default template is not empty: its title and
    description hold placeholder text. *)
Lemma default_template_profile_not_empty :
  get_workspace_by_username sample_db "nobody" = Ok None
  /\ absent_from_flat_file sample_fs "nobody" = true
  /\ exists d,
      load_data sample_now sample_set_order sample_badge sample_db sample_fs
        (Some "nobody") = Ok (PDict d)
      /\ profile_is_empty d = false
      /\ dict_get d "title" = Some (PStr "Web Developer & Designer")
      /\ dict_get d "description"
           = Some (PStr "Welcome to my professional portfolio.").
Proof.
  split; [reflexivity|]. split; [reflexivity|].
  eexists. split; [vm_compute; reflexivity|].
  repeat split.
Qed.

Lemma save_then_load_witness :
  let after := run (save_data sample_accepts sample_backup sample_default
                      (PDict sample_view) (Some "ann") true)
                   sample_db sample_fs in
  exists l,
    load_data sample_now sample_set_order sample_badge
      (fst after) (snd after) (Some "ann") = Ok (PDict l)
    /\ dict_get l "title" = Some (PStr "Proof engineer")
    /\ dict_get l "skills"
       = Some (PList [PDict [("name", PStr "Python"); ("level", PInt 90)];
                      PDict [("name", PStr "Rocq"); ("level", PInt 70)]]).
Proof.
  cbn zeta.
  eassert (Hbody : load_data_body sample_now sample_set_order sample_badge
                     (fst (run (save_data sample_accepts sample_backup
                                  sample_default (PDict sample_view)
                                  (Some "ann") true) sample_db sample_fs))
                     (snd (run (save_data sample_accepts sample_backup
                                  sample_default (PDict sample_view)
                                  (Some "ann") true) sample_db sample_fs))
                     (Some "ann") = Ok _)
    by (vm_compute; reflexivity).
  match type of Hbody with
  | _ = Ok ?v =>
      destruct (save_then_load sample_accepts sample_backup sample_default
                  sample_now sample_set_order sample_badge
                  sample_db sample_fs sample_view "ann" true v)
        as [Hload [l [Hl [_ [_ [Hscalar _]]]]]]
  end.
  - discriminate.
  - vm_compute. reflexivity.
  - exact Hbody.
  - exists l. rewrite Hload. split; [rewrite Hl; reflexivity|]. split.
    + apply (Hscalar "title"); [cbn; tauto|reflexivity|reflexivity].
    + injection Hl as <-. vm_compute. reflexivity.
Defined.

(** A save that does not read back as saved: a null title reads back as
    [''], empty settings as the default theme, and a skill saved without
    level as a skill of level 50. *)
Lemma save_then_load_not_identity :
  let after := run (save_data sample_accepts sample_backup sample_default
                      (PDict loose_view) (Some "ann") true)
                   sample_db sample_fs in
  exists l saved_skills loaded_skills,
    load_data sample_now sample_set_order sample_badge
      (fst after) (snd after) (Some "ann") = Ok (PDict l)
    /\ dict_get loose_view "title" = Some PNone
    /\ dict_get l "title" = Some (PStr "")
    /\ dict_get loose_view "settings" = Some (PDict [])
    /\ dict_get l "settings" = Some (PDict [("theme", PStr "luxury-gold")])
    /\ dict_get loose_view "skills" = Some (PList saved_skills)
    /\ dict_get l "skills" = Some (PList loaded_skills)
    /\ ~ Permutation loaded_skills saved_skills.
Proof.
  cbn zeta. eexists. eexists. eexists.
  split; [vm_compute; reflexivity|].
  repeat (split; [reflexivity|]).
  intros H. apply Permutation_length_1 in H. discriminate H.
Qed.


Lemma download_cv_without_renderers_witness :
  download_cv sample_now sample_set_order sample_badge sample_render
    weasyprint_missing pdfkit_missing no_binary sample_configuration
    sample_from_string sample_db sample_fs (Some "ann")
  = Ok (mkReply (RedirectTo (UrlFor "portfolio.cv_preview"))
          [(library_missing_message, "error")]).
Proof.
  eapply proj1.
  eapply (download_cv_without_renderers sample_now sample_set_order
            sample_badge sample_render weasyprint_missing pdfkit_missing
            no_binary sample_configuration sample_from_string
            sample_db sample_fs (Some "ann")).
  - vm_compute. reflexivity.
  - reflexivity.
  - reflexivity.
  - reflexivity.
  - left. reflexivity.
Defined.

Lemma contact_notification_decoupled_witness :
  let out := contact sample_accepts sample_rate_limit
               notifier_reporting_failure sample_default None
               sample_form None (mkSt sample_db sample_db sample_fs) in
  messages (committed (snd out))
  = [intake_message sample_default None sample_db sample_workspace sample_form]
  /\ fst out = Ok (mkReply (RedirectTo (UrlFor "pages.index")) [success_flash]).
Proof.
  destruct (contact_notification_decoupled sample_accepts sample_rate_limit
              notifier_reporting_failure sample_default None
              sample_form None sample_db sample_fs sample_workspace)
    as [Hrow Hreply].
  - vm_compute. reflexivity.
  - reflexivity.
  - vm_compute. reflexivity.
  - reflexivity.
  - split; [exact Hrow|].
    apply (Hreply (PBool false)). reflexivity.
Defined.

(** A valid submission whose row is committed, with a notifier that
    raises: the row stays, and the submitter is told that sending
    failed. *)
Lemma contact_reports_failure_when_notifier_raises :
  passes_validation sample_form = true
  /\ let out := contact sample_accepts sample_rate_limit notifier_raising
                  sample_default None sample_form None
                  (mkSt sample_db sample_db sample_fs) in
     messages (committed (snd out))
     = [intake_message sample_default None sample_db sample_workspace
          sample_form]
     /\ fst out
        = Ok (mkReply (RedirectTo (UrlFor "pages.index")) [failure_flash])
     /\ fst out
        <> Ok (mkReply (RedirectTo (UrlFor "pages.index")) [success_flash]).
Proof.
  split; [vm_compute; reflexivity|].
  cbn zeta. split; [vm_compute; reflexivity|].
  split; [vm_compute; reflexivity|].
  vm_compute. discriminate.
Qed.

(* ================================================================== *)
(** * Further properties: dicts, workspaces and the global view *)
(* ================================================================== *)

Lemma dict_get_set_same (d : pydict) (k : string) (v : pyval) :
  dict_get (dict_set d k v) k = Some v.
Proof.
  induction d as [|[k' v'] d IH]; cbn.
  - rewrite String.eqb_refl. reflexivity.
  - destruct (String.eqb k' k) eqn:E; cbn; rewrite E; [reflexivity|exact IH].
Qed.

Lemma dict_get_set_other (d : pydict) (k k' : string) (v : pyval) :
  k' <> k -> dict_get (dict_set d k v) k' = dict_get d k'.
Proof.
  intros Hne. induction d as [|[k0 v0] d IH]; cbn.
  - destruct (String.eqb_spec k k'); [congruence|reflexivity].
  - destruct (String.eqb_spec k0 k) as [->|Hk]; cbn.
    + destruct (String.eqb_spec k k'); [congruence|reflexivity].
    + destruct (String.eqb k0 k'); [reflexivity|exact IH].
Qed.

Lemma has_key_set (d : pydict) (k k' : string) (v : pyval) :
  has_key (dict_set d k v) k' = has_key d k' || String.eqb k k'.
Proof.
  unfold has_key. destruct (String.eqb_spec k k') as [->|Hne].
  - rewrite dict_get_set_same, orb_true_r. reflexivity.
  - rewrite dict_get_set_other by congruence. rewrite orb_false_r. reflexivity.
Qed.

Lemma max_id_bound (rows : list Workspace.t) (r : Workspace.t) :
  In r rows ->
  (Workspace.id r <= fold_right Z.max 0 (map Workspace.id rows))%Z.
Proof.
  induction rows as [|x rows IH]; cbn; [contradiction|].
  intros [->|Hin]; [lia|]. specialize (IH Hin). lia.
Qed.

Lemma fresh_id_above (db : DB) :
  Forall (fun r => (Workspace.id r < fresh_workspace_id db)%Z) (workspaces db).
Proof.
  apply Forall_forall. intros r Hr.
  pose proof (max_id_bound _ _ Hr) as Hb. unfold fresh_workspace_id. lia.
Qed.

Section Workspaces.

Context {platform : Platform}.

Variable accepts : DB -> bool.
Variable workspace_default : string -> pyval.
Variable now : Datetime.t.
Variable set_order : list pyval -> list pyval.
Variable determine_badge : pyval -> result pyval.

Local Abbreviation get_or_create :=
  (get_or_create_workspace accepts workspace_default).
Local Abbreviation load := (load_data now set_order determine_badge).

(** X1.  [get_or_create_workspace] returns a row that a lookup by the
    same slug finds afterwards.  When the slug already exists the row is
    the existing one and the database is unchanged; otherwise exactly
    one row is appended, named [name or username], with an empty
    description, plan ['pro'] and an id above every existing id. *)
Theorem get_or_create_workspace_lookup
    (username : string) (name : pyval) (db : DB) (fs : FS)
    (w : Workspace.t) (s1 : St) :
  get_or_create username name (mkSt db db fs) = (Ok w, s1) ->
  get_workspace_by_username (committed s1) username = Ok (Some w)
  /\ (forall w0, get_workspace_by_username db username = Ok (Some w0) ->
        w = w0 /\ committed s1 = db)
  /\ (get_workspace_by_username db username = Ok None ->
        committed s1 = set_workspaces (fun rows => rows ++ [w]) db
        /\ Workspace.name w = py_or name (PStr username)
        /\ Workspace.description w = PStr ""
        /\ Workspace.plan w = PStr "pro"
        /\ Forall (fun r => (Workspace.id r < Workspace.id w)%Z)
                  (workspaces db)).
Proof.
  unfold get_or_create_workspace, bindS, rd, get_workspace_by_username,
    query_all. cbn [working].
  destruct (available db) eqn:Hav; cbn [bind]; [|discriminate].
  fold (by_slug username).
  destruct (find (by_slug username) (workspaces db)) as [w0|] eqn:Hf.
  - unfold ret. intros H. injection H as <- <-. cbn [committed].
    rewrite Hav. cbn [bind]. fold (by_slug username). rewrite Hf.
    split; [reflexivity|]. split.
    + intros w1 H1. injection H1 as <-. split; reflexivity.
    + discriminate.
  - unfold wr, db_commit, ret. cbn.
    rewrite Hav. cbn [andb].
    destruct (accepts _); [|discriminate].
    intros H. injection H as <- <-. cbn.
    rewrite Hav. cbn [bind]. fold (by_slug username).
    rewrite (find_app_new _ _ _ Hf)
      by (unfold by_slug; cbn; apply String.eqb_refl).
    split; [reflexivity|]. split; [discriminate|].
    intros _. repeat split. exact (fresh_id_above db).
Qed.

(** *** The global view *)

Lemma summaries_has_key (ws : list Workspace.t) (acc : pydict) (k : string) :
  has_key (fold_left (fun acc w => dict_set acc (Workspace.slug w)
                                     (workspace_summary w)) ws acc) k
  = has_key acc k || existsb (fun w => String.eqb (Workspace.slug w) k) ws.
Proof.
  revert acc. induction ws as [|w ws IH]; intros acc; cbn [fold_left existsb].
  - rewrite orb_false_r. reflexivity.
  - rewrite IH, has_key_set, orb_assoc. reflexivity.
Qed.

Lemma summaries_value (ws : list Workspace.t) (acc : pydict)
    (k : string) (v : pyval) :
  dict_get (fold_left (fun acc w => dict_set acc (Workspace.slug w)
                                      (workspace_summary w)) ws acc) k
  = Some v ->
  dict_get acc k = Some v
  \/ exists w, In w ws /\ Workspace.slug w = k /\ v = workspace_summary w.
Proof.
  revert acc. induction ws as [|w ws IH]; intros acc; cbn [fold_left].
  - auto.
  - intros H. apply IH in H. destruct H as [H|[w' [Hin [Hs Hv]]]].
    + destruct (String.eqb_spec (Workspace.slug w) k) as [<-|Hne].
      * rewrite dict_get_set_same in H. injection H as <-.
        right. exists w. cbn. auto.
      * rewrite dict_get_set_other in H by congruence. auto.
    + right. exists w'. cbn. auto.
Qed.

(** X2.  Without a username (or with the empty one) and a reachable
    database, [load_data] returns the global view: one entry per user,
    each carrying that user's password hash, and a [portfolios] mapping
    whose keys are exactly the workspace slugs and whose values are
    summaries of a workspace with that slug. *)
Theorem load_data_global_view
    (db : DB) (fs : FS) (username : option string) :
  username_given username = false ->
  available db = true ->
  exists ps,
    load db fs username
    = Ok (PDict [("users", PList (map (fun u => PDict (user_to_dict u))
                                      (users db)));
                 ("portfolios", PDict ps)])
    /\ (forall u, In u (users db) ->
          dict_get (user_to_dict u) "password_hash"
          = Some (User.password_hash u))
    /\ (forall k, has_key ps k
                  = existsb (fun w => String.eqb (Workspace.slug w) k)
                            (workspaces db))
    /\ (forall k v, dict_get ps k = Some v ->
          exists w, In w (workspaces db) /\ Workspace.slug w = k
                    /\ v = workspace_summary w).
Proof.
  intros Hu Hav. eexists. split; [|split; [|split]].
  - unfold load_data, load_data_body, query_all. rewrite Hu, Hav.
    cbn [bind try_except]. reflexivity.
  - intros u _. reflexivity.
  - intros k. rewrite summaries_has_key. reflexivity.
  - intros k v H. apply summaries_value in H.
    destruct H as [H|H]; [discriminate|exact H].
Qed.

End Workspaces.

(* ================================================================== *)
(** * Further properties: the flat-file store *)
(* ================================================================== *)

(** [dict.update] takes a mapping or any iterable of pairs: the string
    ['ab'] is the pair of ['a'] and ['b']; a key [1] is written to the
    file as ["1"], where a reader finds its value in place of the value
    of an entry already written so; a string of one character is no
    pair, a number cannot be iterated, and a list has no [update]. *)
Lemma update_as_the_file_sees_it :
  (all_data <- py_update (PDict [("k", PInt 0)]) (PList [PStr "ab"]) ;;
   Ok (json_object all_data))
  = Ok (PDict [("k", PInt 0); ("a", PStr "b")])
  /\ (all_data <- py_update (PDict [("1", PStr "x")])
                    (PList [PList [PInt 1; PInt 2]]) ;;
      Ok (json_object all_data))
     = Ok (PDict [("1", PInt 2)])
  /\ py_update (PDict []) (PStr "a") = Raise ValueError
  /\ py_update (PDict []) (PInt 5) = Raise TypeError
  /\ py_update (PList []) (PDict []) = Raise AttributeError.
Proof. repeat split; vm_compute; reflexivity. Qed.

Section FlatFile.

Context {platform : Platform}.

Variable determine_badge : pyval -> result pyval.
Variable create_backup : FS -> result FS.

Local Abbreviation backfill := (backfill_project determine_badge).
Local Abbreviation from_json := (load_data_from_json determine_badge).
Local Abbreviation to_json := (save_data_to_json create_backup).

Lemma dict_get_set_absent (d : pydict) (k k' : string) (v x : pyval) :
  has_key d k = false -> dict_get d k' = Some x ->
  dict_get (dict_set d k v) k' = Some x.
Proof.
  intros Hk Hx. destruct (String.eqb_spec k k') as [->|Hne].
  - unfold has_key in Hk. rewrite Hx in Hk. discriminate.
  - rewrite dict_get_set_other by congruence. exact Hx.
Qed.

Lemma dict_set_present (d : pydict) (k : string) (v : pyval) :
  dict_get d k = Some v -> dict_set d k v = d.
Proof.
  induction d as [|[k' v'] d IH]; cbn; [discriminate|].
  destruct (String.eqb_spec k' k) as [->|Hne].
  - intros H. injection H as ->. reflexivity.
  - intros H. rewrite (IH H). reflexivity.
Qed.

(** X3.  The back-fill of a legacy project: the result has both a
    [project_type] and a [badge]; entries the project already had are
    kept, a missing type becomes ['portfolio'], a project that has both
    keys is returned as it is, and back-filling the result again changes
    nothing. *)
Theorem backfill_project_normalizes (d : pydict) (p' : pyval) :
  backfill (PDict d) = Ok p' ->
  exists d',
    p' = PDict d'
    /\ has_key d' "project_type" = true
    /\ has_key d' "badge" = true
    /\ (forall k v, dict_get d k = Some v -> dict_get d' k = Some v)
    /\ (has_key d "project_type" = false ->
        dict_get d' "project_type" = Some (PStr "portfolio"))
    /\ (has_key d "project_type" = true -> has_key d "badge" = true ->
        d' = d)
    /\ backfill p' = Ok p'.
Proof.
  unfold backfill_project. cbn [py_in_str bind py_setitem].
  set (d1 := if has_key d "project_type" then d
             else dict_set d "project_type" (PStr "portfolio")).
  assert (Hd1 : (if has_key d "project_type" then Ok (PDict d)
                 else Ok (PDict (dict_set d "project_type" (PStr "portfolio"))))
                = Ok (PDict d1))
    by (unfold d1; destruct (has_key d "project_type"); reflexivity).
  rewrite Hd1. cbn [bind py_in_str py_get].
  assert (Ht1 : has_key d1 "project_type" = true).
  { unfold d1. destruct (has_key d "project_type") eqn:E; [exact E|].
    rewrite has_key_set, String.eqb_refl. apply orb_true_r. }
  assert (Hkeep1 : forall k v, dict_get d k = Some v -> dict_get d1 k = Some v).
  { intros k v Hv. unfold d1.
    destruct (has_key d "project_type") eqn:E; [exact Hv|].
    apply dict_get_set_absent; assumption. }
  assert (Hnew1 : has_key d "project_type" = false ->
                  dict_get d1 "project_type" = Some (PStr "portfolio")).
  { intros E. unfold d1. rewrite E. apply dict_get_set_same. }
  assert (Hsame1 : has_key d "project_type" = true -> d1 = d)
    by (intros E; unfold d1; rewrite E; reflexivity).
  clearbody d1. clear Hd1.
  destruct (has_key d1 "badge") eqn:Hb.
  - intros H. injection H as <-. exists d1.
    repeat split; try assumption.
    + intros Ht _. auto.
    + cbn [py_in_str bind py_setitem]. rewrite Ht1. cbn [bind py_in_str].
      rewrite Hb. reflexivity.
  - destruct (determine_badge _) as [badge|e]; cbn [bind]; [|discriminate].
    intros H. injection H as <-. eexists. split; [reflexivity|].
    assert (Ht2 : has_key (dict_set d1 "badge" badge) "project_type" = true)
      by (rewrite has_key_set, Ht1; reflexivity).
    assert (Hb2 : has_key (dict_set d1 "badge" badge) "badge" = true)
      by (rewrite has_key_set, String.eqb_refl; apply orb_true_r).
    repeat split; try assumption.
    + intros k v Hv. apply dict_get_set_absent; auto.
    + intros E. rewrite dict_get_set_other by discriminate. auto.
    + intros Ht Hbd. rewrite (Hsame1 Ht) in Hb. congruence.
    + cbn [py_in_str bind py_setitem]. rewrite Ht2. cbn [bind py_in_str].
      rewrite Hb2. reflexivity.
Qed.


(** X4.  Reading a user that the flat file holds: without a [projects]
    key the record is returned as it is; with a list of projects the
    record is returned with that list back-filled and nothing else
    changed; and if the back-fill of one project raises, the answer is
    the empty dict. *)
Theorem load_data_from_json_present
    (fs : FS) (username : string) (doc p ud : pydict) :
  username <> "" ->
  data_json fs = Content (PDict doc) ->
  dict_get doc "portfolios" = Some (PDict p) ->
  dict_get p username = Some (PDict ud) ->
  (dict_get ud "projects" = None ->
     from_json fs (Some username) = Ok (PDict ud))
  /\ (forall ps ps',
        dict_get ud "projects" = Some (PList ps) ->
        mapM backfill ps = Ok ps' ->
        from_json fs (Some username)
        = Ok (PDict (dict_set ud "projects" (PList ps'))))
  /\ (forall ps e,
        dict_get ud "projects" = Some (PList ps) ->
        mapM backfill ps = Raise e ->
        from_json fs (Some username) = Ok (PDict [])).
Proof.
  intros Hne Hdoc Hp Hud.
  assert (Hstart :
             from_json fs (Some username)
             = try_except
                 (has_projects <- py_in_str "projects" (PDict ud) ;;
                  if has_projects
                  then backfill_projects determine_badge (PDict ud)
                  else Ok (PDict ud))
                 (fun _ => Ok (PDict []))).
  { unfold load_data_from_json, load_data_from_json_body.
    rewrite (username_given_nonempty _ Hne), Hdoc.
    cbn [path_exists read_json bind py_get username_str].
    unfold dict_get_default. rewrite Hp. cbn [py_in_str bind].
    unfold has_key. rewrite Hud. cbn [bind py_getitem]. rewrite Hud.
    reflexivity. }
  rewrite Hstart.
  cbn [py_in_str bind]. unfold has_key, backfill_projects.
  cbn [py_getitem].
  split; [|split].
  - intros H. rewrite H. reflexivity.
  - intros ps ps' H Hm. rewrite H. cbn [bind py_iter]. rewrite Hm. reflexivity.
  - intros ps e H Hm. rewrite H. cbn [bind py_iter]. rewrite Hm. reflexivity.
Qed.

(** What [save_data_to_json] writes for a username. *)
Lemma to_json_document
    (user_data : pyval) (username : string) (auto_backup : bool) (fs : FS)
    (doc p : pydict) :
  username <> "" ->
  writable fs = true ->
  backup_keeps_document create_backup fs ->
  flat_document (data_json fs) = Some doc ->
  flat_portfolios (data_json fs) = Some p ->
  exists doc',
    data_json (to_json user_data (Some username) auto_backup fs)
    = Content (PDict doc')
    /\ dict_get doc' "portfolios" = Some (PDict (dict_set p username user_data))
    /\ (forall k, k <> "portfolios" -> dict_get doc' k = dict_get doc k).
Proof.
  intros Hne Hw Hbk Hdoc Hp. unfold save_data_to_json.
  set (fs1 := if auto_backup && path_exists (data_json fs)
              then match create_backup fs with Ok fs' => fs' | Raise _ => fs end
              else fs).
  assert (H1 : data_json fs1 = data_json fs /\ writable fs1 = writable fs).
  { unfold fs1. destruct (auto_backup && path_exists (data_json fs)); [|auto].
    destruct (create_backup fs) as [fs'|e] eqn:E; [|auto]. apply Hbk. exact E. }
  destruct H1 as [Hd1 Hw1]. clearbody fs1.
  rewrite (username_given_nonempty _ Hne). cbn [username_str]. rewrite Hd1.
  unfold flat_portfolios in Hp. rewrite Hdoc in Hp.
  assert (Hread : (if path_exists (data_json fs) then read_json (data_json fs)
                   else Ok (PDict [])) = Ok (PDict doc)).
  { destruct (data_json fs) as [| |[| | | | |d0]]; cbn in Hdoc |- *;
      try discriminate; injection Hdoc as <-; reflexivity. }
  rewrite Hread. cbn [bind py_in_str]. unfold has_key, write_json.
  rewrite Hw in Hw1. unfold writable in Hw1.
  destruct (on_write fs1); try discriminate Hw1.
  destruct (dict_get doc "portfolios") as [[| | | | |p0]|] eqn:Hport;
    try discriminate; injection Hp as <-; cbn [negb bind py_setitem py_getitem].
  - rewrite Hport. cbn [bind py_setitem data_json].
    eexists. split; [reflexivity|]. split.
    + apply dict_get_set_same.
    + intros k Hk. apply dict_get_set_other. exact Hk.
  - rewrite dict_get_set_same. cbn [bind py_setitem data_json].
    eexists. split; [reflexivity|]. split.
    + apply dict_get_set_same.
    + intros k Hk. rewrite !dict_get_set_other by exact Hk. reflexivity.
Qed.

(** X5.  A flat-file save for a username writes that user's entry and
    nothing else: the entry of the username becomes the saved view, the
    entries of all other usernames and every other top-level key of the
    document keep their values. *)
Theorem save_data_to_json_writes_entry
    (user_data : pyval) (username : string) (auto_backup : bool) (fs : FS)
    (doc p : pydict) :
  username <> "" ->
  writable fs = true ->
  backup_keeps_document create_backup fs ->
  flat_document (data_json fs) = Some doc ->
  flat_portfolios (data_json fs) = Some p ->
  let fs' := to_json user_data (Some username) auto_backup fs in
  exists doc' p',
    flat_document (data_json fs') = Some doc'
    /\ flat_portfolios (data_json fs') = Some p'
    /\ dict_get p' username = Some user_data
    /\ (forall u, u <> username -> dict_get p' u = dict_get p u)
    /\ (forall k, k <> "portfolios" -> dict_get doc' k = dict_get doc k).
Proof.
  intros Hne Hw Hbk Hdoc Hp. cbn zeta.
  destruct (to_json_document user_data username auto_backup fs doc p
              Hne Hw Hbk Hdoc Hp) as [doc' [Hd [Hport Hother]]].
  exists doc', (dict_set p username user_data).
  unfold flat_portfolios. rewrite Hd. cbn [flat_document]. rewrite Hport.
  repeat split.
  - apply dict_get_set_same.
  - intros u Hu. apply dict_get_set_other. exact Hu.
  - exact Hother.
Qed.

Lemma from_json_after_to_json
    (d : pydict) (username : string) (auto_backup : bool) (fs : FS)
    (doc p : pydict) :
  username <> "" ->
  writable fs = true ->
  backup_keeps_document create_backup fs ->
  flat_document (data_json fs) = Some doc ->
  flat_portfolios (data_json fs) = Some p ->
  has_key d "projects" = false ->
  from_json (to_json (PDict d) (Some username) auto_backup fs) (Some username)
  = Ok (PDict d).
Proof.
  intros Hne Hw Hbk Hdoc Hp Hproj.
  destruct (to_json_document (PDict d) username auto_backup fs doc p
              Hne Hw Hbk Hdoc Hp) as [doc' [Hd [Hport _]]].
  unfold load_data_from_json, load_data_from_json_body.
  rewrite (username_given_nonempty _ Hne), Hd.
  cbn [path_exists read_json bind py_get username_str].
  unfold dict_get_default. rewrite Hport. cbn [py_in_str bind].
  unfold has_key at 1. rewrite dict_get_set_same. cbn [bind py_getitem].
  rewrite dict_get_set_same. cbn [bind py_in_str]. rewrite Hproj. reflexivity.
Qed.

(** X6.  Round trip through the flat file: a view without projects that
    [save_data_to_json] stores for a username is what
    [load_data_from_json] returns for that username. *)
Theorem flat_file_round_trip
    (d : pydict) (username : string) (auto_backup : bool) (fs : FS)
    (doc p : pydict) :
  username <> "" ->
  writable fs = true ->
  backup_keeps_document create_backup fs ->
  flat_document (data_json fs) = Some doc ->
  flat_portfolios (data_json fs) = Some p ->
  has_key d "projects" = false ->
  from_json (to_json (PDict d) (Some username) auto_backup fs) (Some username)
  = Ok (PDict d).
Proof. apply from_json_after_to_json. Qed.

(** X7.  A flat-file save that cannot go through is silent, and it
    spares the file only when it fails early.  When [data.json] cannot
    be read, is not a JSON object, or is refused by [open], the file is
    left as it was.  When the dump stops part-way the file is left as
    it was or unreadable; and for a username and a document of the
    documented shape it is left unreadable: the previous document is
    lost, and [load_data_from_json] answers [{}] from then on. *)
Theorem save_data_to_json_failure_modes
    (user_data : pyval) (username : option string) (auto_backup : bool)
    (fs : FS) :
  backup_keeps_document create_backup fs ->
  backup_keeps_outcome create_backup fs ->
  let fs' := to_json user_data username auto_backup fs in
  (flat_document (data_json fs) = None \/ on_write fs = OpenRefused ->
   data_json fs' = data_json fs)
  /\ (on_write fs = DumpInterrupted ->
      data_json fs' = data_json fs \/ data_json fs' = Unreadable)
  /\ (forall (u : string) (doc p : pydict),
       on_write fs = DumpInterrupted ->
       username = Some u -> u <> "" ->
       flat_document (data_json fs) = Some doc ->
       flat_portfolios (data_json fs) = Some p ->
       data_json fs' = Unreadable
       /\ forall reader, from_json fs' reader = Ok (PDict [])).
Proof.
  intros Hbk Hout. cbn zeta. unfold save_data_to_json.
  set (fs1 := if auto_backup && path_exists (data_json fs)
              then match create_backup fs with Ok fs' => fs' | Raise _ => fs end
              else fs).
  assert (H1 : data_json fs1 = data_json fs /\ on_write fs1 = on_write fs).
  { unfold fs1. destruct (auto_backup && path_exists (data_json fs)); [|auto].
    destruct (create_backup fs) as [fs'|e] eqn:E; [|auto].
    split; [apply Hbk; exact E|apply Hout; exact E]. }
  destruct H1 as [Hd1 Hw1]. clearbody fs1. rewrite Hd1.
  split; [|split].
  - intros Hbad.
    match goal with
    | |- data_json (match ?body with _ => _ end) = _ =>
        destruct body as [all_data|e] eqn:Hbody; [|exact Hd1]
    end.
    destruct Hbad as [Hdoc|Hw].
    + exfalso. revert Hbody.
      destruct (data_json fs) as [| |doc]; cbn in Hdoc; try discriminate.
      destruct doc as [| | |t|l|d0]; try discriminate;
        cbn [path_exists read_json bind];
        destruct (username_given username); cbn; try discriminate.
      * destruct (is_substring "portfolios" t); cbn; discriminate.
      * destruct (existsb _ l); cbn; discriminate.
    + unfold write_json. rewrite Hw1, Hw. exact Hd1.
  - intros Hw.
    match goal with
    | |- data_json (match ?body with _ => _ end) = _ \/ _ =>
        destruct body as [all_data|e]; [|left; exact Hd1]
    end.
    right. unfold write_json. rewrite Hw1, Hw. reflexivity.
  - intros u doc p Hw -> Hne Hdoc Hp.
    rewrite (username_given_nonempty _ Hne). cbn [username_str].
    unfold flat_portfolios in Hp. rewrite Hdoc in Hp.
    assert (Hread : (if path_exists (data_json fs) then read_json (data_json fs)
                     else Ok (PDict [])) = Ok (PDict doc)).
    { destruct (data_json fs) as [| |[| | | | |d0]]; cbn in Hdoc |- *;
        try discriminate; injection Hdoc as <-; reflexivity. }
    rewrite Hread. cbn [bind py_in_str]. unfold has_key.
    assert (Hlost : forall all_data,
              data_json (snd (write_json fs1 all_data)) = Unreadable).
    { intros all_data. unfold write_json. rewrite Hw1, Hw. reflexivity. }
    destruct (dict_get doc "portfolios") as [[| | | | |p0]|] eqn:Hport;
      try discriminate; cbn [negb bind py_setitem py_getitem].
    + rewrite Hport. cbn [bind py_setitem].
      split; [apply Hlost|].
      intros reader. apply load_data_from_json_unreadable. apply Hlost.
    + rewrite dict_get_set_same. cbn [bind py_setitem].
      split; [apply Hlost|].
      intros reader. apply load_data_from_json_unreadable. apply Hlost.
Qed.

End FlatFile.

(* ================================================================== *)
(** * Further properties: the save path *)
(* ================================================================== *)

Section SavePaths.

Context {platform : Platform}.

Variable accepts : DB -> bool.
Variable create_backup : FS -> result FS.
Variable workspace_default : string -> pyval.
Variable now : Datetime.t.
Variable set_order : list pyval -> list pyval.
Variable determine_badge : pyval -> result pyval.

Local Abbreviation save := (save_data accepts create_backup workspace_default).
Local Abbreviation save_body := (save_data_body accepts workspace_default).
Local Abbreviation to_json := (save_data_to_json create_backup).
Local Abbreviation load := (load_data now set_order determine_badge).
Local Abbreviation from_json := (load_data_from_json determine_badge).
Local Abbreviation materialize := (workspace_to_dict now set_order).
Local Abbreviation get_or_create :=
  (get_or_create_workspace accepts workspace_default).

Local Notation "x <~ c ;; k" := (bindS c (fun x => k))
  (at level 61, c at next level, right associativity).

(** *** Without a username, and with the database out of reach *)

(** [save_data] without a username (or with the empty one) is the
    flat-file save. *)
Lemma save_data_without_username
    (user_data : pyval) (username : option string) (auto_backup : bool)
    (db : DB) (fs : FS) :
  username_given username = false ->
  run (save user_data username auto_backup) db fs
  = (db, to_json user_data username auto_backup fs).
Proof.
  intros Hu. unfold run, save_data, try_exceptS. rewrite Hu. reflexivity.
Qed.

Lemma save_data_offline
    (user_data : pyval) (username : string) (auto_backup : bool)
    (db : DB) (fs : FS) :
  available db = false ->
  username <> "" ->
  run (save user_data (Some username) auto_backup) db fs
  = (db, to_json user_data (Some username) auto_backup fs).
Proof.
  intros Hav Hne.
  assert (Hb : exists e, save_body user_data username (mkSt db db fs)
                         = (Raise e, mkSt db db fs)).
  { unfold save_data_body, bindS, pure.
    destruct (py_get user_data "name" PNone) as [name|e]; [|eauto].
    unfold get_or_create_workspace, bindS, rd, get_workspace_by_username,
      query_all.
    cbn [working]. rewrite Hav. cbn [bind]. eauto. }
  destruct Hb as [e Hb].
  unfold run, save_data, try_exceptS.
  rewrite (username_given_nonempty _ Hne). cbn [negb username_str].
  rewrite Hb. reflexivity.
Qed.

(** X8.  With the database out of reach, a save followed by a load of
    the same username goes through the flat file both ways: the
    database is left as it was and the load returns the saved view
    itself (for a view without projects). *)
Theorem save_then_load_offline
    (d : pydict) (username : string) (auto_backup : bool)
    (db : DB) (fs : FS) (doc p : pydict) :
  available db = false ->
  username <> "" ->
  writable fs = true ->
  backup_keeps_document create_backup fs ->
  flat_document (data_json fs) = Some doc ->
  flat_portfolios (data_json fs) = Some p ->
  has_key d "projects" = false ->
  let after := run (save (PDict d) (Some username) auto_backup) db fs in
  fst after = db
  /\ load (fst after) (snd after) (Some username) = Ok (PDict d).
Proof.
  intros Hav Hne Hw Hbk Hdoc Hp Hproj. cbn zeta.
  rewrite (save_data_offline _ _ _ _ _ Hav Hne). cbn [fst snd].
  split; [reflexivity|].
  unfold load_data, load_data_body.
  rewrite (username_given_nonempty _ Hne). cbn [username_str].
  unfold get_workspace_by_username, query_all. rewrite Hav.
  cbn [bind try_except].
  eapply from_json_after_to_json; eassumption.
Qed.

(** *** Rollback *)

Lemma keeps_committed_bindS {A B : Type} (c : io A) (k : A -> io B) :
  keeps_committed c -> (forall a, keeps_committed (k a)) ->
  keeps_committed (bindS c k).
Proof.
  intros Hc Hk s. unfold bindS. specialize (Hc s).
  destruct (c s) as [[a|e] s1]; cbn in *; [|exact Hc].
  rewrite Hk. exact Hc.
Qed.

Lemma keeps_committed_pure {A : Type} (c : result A) : keeps_committed (pure c).
Proof. intros s. reflexivity. Qed.

Lemma keeps_committed_ret {A : Type} (a : A) : keeps_committed (ret a).
Proof. intros s. reflexivity. Qed.

Lemma keeps_committed_rd {A : Type} (q : DB -> result A) : keeps_committed (rd q).
Proof. intros s. reflexivity. Qed.

Lemma keeps_committed_wr (f : DB -> DB) : keeps_committed (wr f).
Proof. intros s. reflexivity. Qed.

Lemma keeps_committed_add_skills (wid : Z) (items : list pyval) :
  keeps_committed (add_skills wid items).
Proof.
  induction items as [|x items IH]; cbn [add_skills].
  - apply keeps_committed_ret.
  - apply keeps_committed_bindS; [apply keeps_committed_pure|intros sk].
    apply keeps_committed_bindS; [apply keeps_committed_wr|intros _; exact IH].
Qed.

Lemma keeps_committed_replace_skills (w : Workspace.t) (user_data : pyval) :
  keeps_committed (replace_skills w user_data).
Proof.
  unfold replace_skills.
  repeat (apply keeps_committed_bindS;
          [first [apply keeps_committed_rd | apply keeps_committed_wr
                 | apply keeps_committed_pure]|intros ?]).
  apply keeps_committed_add_skills.
Qed.

(** What [get_or_create_workspace] leaves committed, whether it returns
    or raises. *)
Lemma get_or_create_committed (username : string) (name : pyval)
    (db : DB) (fs : FS) (r : result Workspace.t) (s1 : St) :
  get_or_create username name (mkSt db db fs) = (r, s1) ->
  (committed s1 = db
   /\ forall w, r = Ok w ->
         working s1 = db
         /\ get_workspace_by_username db username = Ok (Some w))
  \/ (get_workspace_by_username db username = Ok None
      /\ exists w, r = Ok w /\ Workspace.slug w = username
                   /\ Workspace.id w = fresh_workspace_id db
                   /\ committed s1 = set_workspaces (fun rows => rows ++ [w]) db
                   /\ working s1 = committed s1).
Proof.
  unfold get_or_create_workspace, bindS, rd, get_workspace_by_username,
    query_all. cbn [working].
  destruct (available db) eqn:Hav; cbn [bind].
  2:{ intros H. injection H as <- <-. left. split; [reflexivity|discriminate]. }
  destruct (find _ (workspaces db)) as [w0|] eqn:Hf.
  - unfold ret. intros H. injection H as <- <-. left.
    split; [reflexivity|]. intros w Hw. injection Hw as <-.
    split; reflexivity.
  - unfold wr, db_commit, ret. cbn. rewrite Hav. cbn [andb].
    destruct (accepts _).
    + intros H. injection H as <- <-. right. split; [reflexivity|].
      eexists. repeat split.
    + intros H. injection H as <- <-. left.
      split; [reflexivity|discriminate].
Qed.

(** After the workspace is there, the rest of the [try] block commits
    only at its end. *)
Lemma save_body_tail (user_data : pyval) (w0 : Workspace.t) (s1 s' : St)
    (r : result unit) :
  (workspace <~ pure (update_fields w0 user_data) ;;
   _ <~ wr (store_workspace workspace) ;;
   has_skills <~ pure (py_in_str "skills" user_data) ;;
   _ <~ (if has_skills then replace_skills workspace user_data else ret tt) ;;
   db_commit accepts) s1 = (r, s') ->
  (exists e, r = Raise e) -> committed s' = committed s1.
Proof.
  intros H [e ->].
  set (prefix :=
         workspace <~ pure (update_fields w0 user_data) ;;
         _ <~ wr (store_workspace workspace) ;;
         has_skills <~ pure (py_in_str "skills" user_data) ;;
         (if has_skills then replace_skills workspace user_data else ret tt)).
  assert (Hk : keeps_committed prefix).
  { unfold prefix.
    apply keeps_committed_bindS; [apply keeps_committed_pure|intros w].
    apply keeps_committed_bindS; [apply keeps_committed_wr|intros _].
    apply keeps_committed_bindS; [apply keeps_committed_pure|intros b].
    destruct b; [apply keeps_committed_replace_skills|apply keeps_committed_ret]. }
  assert (Heq : (prefix_result <~ prefix ;; db_commit accepts) s1 = (Raise e, s')).
  { rewrite <- H. unfold prefix, bindS.
    destruct (pure (update_fields w0 user_data) s1) as [[w|e1] s2]; [|reflexivity].
    destruct (wr (store_workspace w) s2) as [[u|e2] s3]; [|reflexivity].
    destruct (pure (py_in_str "skills" user_data) s3) as [[b|e3] s4];
      [|reflexivity].
    destruct ((if b then replace_skills w user_data else ret tt) s4)
      as [[u2|e4] s5]; reflexivity. }
  unfold bindS in Heq. specialize (Hk s1).
  destruct (prefix s1) as [[u|e1] s2]; cbn [snd] in Hk.
  - unfold db_commit in Heq.
    destruct (available (working s2) && accepts (working s2));
      [discriminate|].
    injection Heq as _ <-. exact Hk.
  - injection Heq as _ <-. exact Hk.
Qed.

(** X9.  A save whose relational path raises is rolled back: the
    database is left exactly as it was, except that a workspace row
    created for a new username stays (its creation is committed on its
    own); in particular no skill row is deleted or added. *)
Theorem failed_save_is_rolled_back
    (user_data : pyval) (username : string) (auto_backup : bool)
    (db : DB) (fs : FS) (e : exn) :
  username <> "" ->
  fst (save_body user_data username (mkSt db db fs)) = Raise e ->
  let db' := fst (run (save user_data (Some username) auto_backup) db fs) in
  skills db' = skills db
  /\ (db' = db
      \/ (get_workspace_by_username db username = Ok None
          /\ exists w, Workspace.slug w = username
                       /\ db' = set_workspaces (fun rows => rows ++ [w]) db)).
Proof.
  intros Hne Hraise. cbn zeta.
  destruct (save_body user_data username (mkSt db db fs)) as [r0 s0] eqn:Hsb.
  cbn [fst] in Hraise. subst r0.
  assert (Hc : committed s0 = db
               \/ (get_workspace_by_username db username = Ok None
                   /\ exists w, Workspace.slug w = username
                        /\ committed s0
                           = set_workspaces (fun rows => rows ++ [w]) db)).
  { revert Hsb. unfold save_data_body. unfold bindS at 1, pure.
    destruct (py_get user_data "name" PNone) as [name|e0];
      [|intros H; injection H as _ <-; left; reflexivity].
    unfold bindS at 1.
    destruct (get_or_create username name (mkSt db db fs)) as [r s1] eqn:Hg.
    pose proof (get_or_create_committed _ _ _ _ _ _ Hg) as Hs1.
    destruct r as [w0|e0].
    - intros Ht.
      rewrite (save_body_tail user_data w0 s1 s0 _ Ht) by eauto.
      destruct Hs1 as [[-> _]|[Hn [w [_ [Hs [_ [Hcm _]]]]]]];
        [left; reflexivity|].
      right. split; [exact Hn|]. exists w. split; assumption.
    - intros H. injection H as _ <-.
      destruct Hs1 as [[-> _]|[_ [w [Hw _]]]]; [left; reflexivity|discriminate]. }
  unfold run, save_data, try_exceptS.
  rewrite (username_given_nonempty _ Hne). cbn [negb username_str].
  rewrite Hsb.
  unfold bindS, db_rollback, with_files. cbn [fst snd committed].
  destruct Hc as [->|[Hn [w [Hs ->]]]].
  - split; [reflexivity|left; reflexivity].
  - split; [reflexivity|]. right. split; [exact Hn|]. exists w. auto.
Qed.

(** *** Isolation of workspaces *)

(** The view of a workspace depends on the database through the
    workspace's own rows only. *)
Lemma materialize_ext (db1 db2 : DB) (w : Workspace.t) :
  available db1 = available db2 ->
  filter (fun r => Z.eqb (Skill.workspace_id r) (Workspace.id w)) (skills db1)
  = filter (fun r => Z.eqb (Skill.workspace_id r) (Workspace.id w)) (skills db2) ->
  projects db1 = projects db2 ->
  clients db1 = clients db2 ->
  messages db1 = messages db2 ->
  services db1 = services db2 ->
  visitor_logs db1 = visitor_logs db2 ->
  notification_settings db1 = notification_settings db2 ->
  materialize db1 (Some w) = materialize db2 (Some w).
Proof.
  intros Hav Hs Hp Hc Hm Hsv Hv Hn.
  unfold workspace_to_dict, filter_by_workspace, query_all.
  rewrite Hav, Hp, Hc, Hm, Hsv, Hv, Hn.
  destruct (available db2); cbn [bind]; [|reflexivity].
  rewrite Hs. reflexivity.
Qed.

Lemma filter_other_workspace (i i1 : Z) (old rows : list Skill.t) :
  i <> i1 ->
  Forall (fun r => Skill.workspace_id r = i1) rows ->
  filter (fun r => Z.eqb (Skill.workspace_id r) i)
    (filter (fun r => negb (Z.eqb (Skill.workspace_id r) i1)) old ++ rows)
  = filter (fun r => Z.eqb (Skill.workspace_id r) i) old.
Proof.
  intros Hne Hall. rewrite filter_app.
  replace (filter _ rows) with (@nil Skill.t).
  - rewrite app_nil_r. induction old as [|r old IH]; cbn; [reflexivity|].
    destruct (Z.eqb_spec (Skill.workspace_id r) i1) as [E|E]; cbn.
    + destruct (Z.eqb_spec (Skill.workspace_id r) i); [congruence|exact IH].
    + rewrite IH. reflexivity.
  - induction Hall as [|r rows Hr _ IH]; cbn; [reflexivity|].
    destruct (Z.eqb_spec (Skill.workspace_id r) i); [congruence|exact IH].
Qed.

(** X10.  A completed save for one username leaves every other
    workspace as it was: the row is still there and its materialized
    view is the same as before the save. *)
Theorem save_data_isolates_workspaces
    (view : pydict) (username : string) (db : DB) (fs : FS) (s' : St)
    (w' : Workspace.t) :
  save_body (PDict view) username (mkSt db db fs) = (Ok tt, s') ->
  In w' (workspaces db) ->
  (forall w0, get_workspace_by_username db username = Ok (Some w0) ->
     Workspace.id w0 <> Workspace.id w') ->
  In w' (workspaces (committed s'))
  /\ materialize (committed s') (Some w') = materialize db (Some w').
Proof.
  intros Hb Hin Hother.
  destruct (save_body_ok accepts workspace_default _ _ _ _ Hb)
    as (w0 & s1 & w1 & sk & Hgoc & Hup & Hc & _ & Hsk).
  assert (Hid1 : Workspace.id w1 = Workspace.id w0).
  { unfold update_fields in Hup. cbn in Hup. injection Hup as <-. reflexivity. }
  assert (Hs1 : (working s1 = db
                 \/ working s1 = set_workspaces (fun rows => rows ++ [w0]) db)
                /\ Workspace.id w0 <> Workspace.id w').
  { destruct (get_or_create_committed _ _ _ _ _ _ Hgoc)
      as [[_ Hex]|[_ [w [Hw [_ [Hfresh [Hcm Hwk]]]]]]].
    - destruct (Hex w0 eq_refl) as [Hwk Hlook]. split; [left; exact Hwk|].
      apply Hother. exact Hlook.
    - injection Hw as <-. split; [right; congruence|].
      pose proof (fresh_id_above db) as Hall.
      rewrite Forall_forall in Hall. specialize (Hall _ Hin). lia. }
  destruct Hs1 as [Hwk Hne].
  assert (Hne1 : Workspace.id w' <> Workspace.id w1) by congruence.
  assert (Htab : available (working s1) = available db
                 /\ skills (working s1) = skills db
                 /\ In w' (workspaces (working s1))
                 /\ projects (working s1) = projects db
                 /\ clients (working s1) = clients db
                 /\ messages (working s1) = messages db
                 /\ services (working s1) = services db
                 /\ visitor_logs (working s1) = visitor_logs db
                 /\ notification_settings (working s1)
                    = notification_settings db).
  { destruct Hwk as [->| ->]; cbn; repeat split; try assumption.
    apply in_or_app. left. exact Hin. }
  destruct Htab as (Ha & Hsk0 & Hin1 & Hp & Hcl & Hm & Hsv & Hv & Hn).
  rewrite Hc. split.
  - cbn. apply in_map_iff. exists w'. split; [|exact Hin1].
    destruct (Z.eqb_spec (Workspace.id w') (Workspace.id w1));
      [contradiction|reflexivity].
  - apply materialize_ext; cbn; try assumption.
    destruct (has_key view "skills").
    + destruct Hsk as (items & rows & _ & Hrows & ->).
      destruct (new_skill_rows _ _ _ Hrows) as [Hall _].
      rewrite filter_other_workspace by assumption.
      rewrite Hsk0. reflexivity.
    + rewrite Hsk, Hsk0. reflexivity.
Qed.

End SavePaths.

(* ================================================================== *)
(** * Further properties: the materialized view *)
(* ================================================================== *)

Lemma py_hash_eq_sym (a b : pyval) : py_hash_eq a b = py_hash_eq b a.
Proof.
  destruct a, b; cbn; try reflexivity.
  - destruct b, b0; reflexivity.
  - apply Z.eqb_sym.
  - apply Z.eqb_sym.
  - apply Z.eqb_sym.
  - apply String.eqb_sym.
Qed.

Lemma py_hash_eq_refl (a : pyval) : hashable a = true -> py_hash_eq a a = true.
Proof.
  destruct a; cbn; try discriminate; intros _.
  - reflexivity.
  - destruct b; reflexivity.
  - apply Z.eqb_refl.
  - apply String.eqb_refl.
Qed.

Lemma no_duplicate_ips_snoc (l : list pyval) (v : pyval) :
  no_duplicate_ips l = true ->
  existsb (py_hash_eq v) l = false ->
  no_duplicate_ips (l ++ [v]) = true.
Proof.
  induction l as [|x l IH]; cbn; [reflexivity|].
  intros Hl Hv. apply andb_prop in Hl as [Hx Hl].
  apply orb_false_elim in Hv as [Hvx Hv].
  rewrite IH by assumption. rewrite existsb_app. cbn.
  rewrite py_hash_eq_sym, Hvx. apply negb_true_iff in Hx. rewrite Hx.
  reflexivity.
Qed.

Section Views.

Context {platform : Platform}.

Variable now : Datetime.t.
Variable set_order : list pyval -> list pyval.
Variable determine_badge : pyval -> result pyval.

Local Abbreviation load := (load_data now set_order determine_badge).
Local Abbreviation from_json := (load_data_from_json determine_badge).
Local Abbreviation materialize := (workspace_to_dict now set_order).
Local Abbreviation step := (visit_step now).
Local Abbreviation theme := (get_current_theme now set_order determine_badge).

(** The facade for a username whose workspace exists. *)
Lemma load_data_found (db : DB) (fs : FS) (username : string) (w : Workspace.t) :
  username <> "" ->
  get_workspace_by_username db username = Ok (Some w) ->
  load db fs (Some username)
  = try_except (materialize db (Some w))
               (fun _ => from_json fs (Some username)).
Proof.
  intros Hne Hlook. unfold load_data, load_data_body.
  rewrite (username_given_nonempty _ Hne). cbn [username_str].
  rewrite Hlook. reflexivity.
Qed.

(** The fields of a materialized view. *)
Lemma materialize_fields (db : DB) (w : Workspace.t) (view : pyval) :
  materialize db (Some w) = Ok view ->
  exists l today ips,
    view = PDict l
    /\ foldM step (rows_of VisitorLog.workspace_id w (visitor_logs db)) ([], [])
       = Ok (today, ips)
    /\ dict_get l "username" = Some (PStr (Workspace.slug w))
    /\ dict_get l "name" = Some (Workspace.name w)
    /\ dict_get l "settings"
       = Some (py_or (Workspace.settings w) default_settings)
    /\ dict_get l "projects"
       = Some (PList (map (fun p => PDict (project_to_dict p))
                          (rows_of Project.workspace_id w (projects db))))
    /\ dict_get l "messages"
       = Some (PList (map (fun m => PDict (message_to_dict m))
                          (rows_of Message.workspace_id w (messages db))))
    /\ dict_get l "services"
       = Some (PList (map (fun x => PDict (service_to_dict x))
                          (rows_of Service.workspace_id w (services db))))
    /\ dict_get l "visitors"
       = Some (PDict [
           ("total", PInt (Z.of_nat (length
              (rows_of VisitorLog.workspace_id w (visitor_logs db)))));
           ("today", PList today);
           ("unique_ips", PList (set_order ips))]).
Proof.
  unfold workspace_to_dict, filter_by_workspace, query_all, rows_of.
  destruct (available db); cbn [bind]; [|discriminate].
  intros H. bind_inv H. injection H as <-.
  eexists. eexists. eexists. split; [reflexivity|].
  split; [reflexivity|]. repeat split.
Qed.

(** *** Visitor aggregation *)

Lemma visit_fold (logs : list VisitorLog.t) (t0 u0 t u : list pyval) :
  foldM step logs (t0, u0) = Ok (t, u) ->
  length t = length t0 + length (filter (visited_today now) logs)
  /\ (no_duplicate_ips u0 = true -> no_duplicate_ips u = true)
  /\ (forall x, existsb (py_hash_eq x) u0 = true ->
                 existsb (py_hash_eq x) u = true)
  /\ (forall log, In log logs ->
        existsb (py_hash_eq (VisitorLog.ip_address log)) u = true)
  /\ (forall x, In x u ->
        In x u0 \/ exists log, In log logs /\ VisitorLog.ip_address log = x).
Proof.
  revert t0 u0. induction logs as [|log logs IH]; intros t0 u0; cbn [foldM].
  - intros H. injection H as <- <-. cbn. rewrite Nat.add_0_r.
    repeat split; auto; try contradiction.
  - unfold visit_step at 1. cbn [filter].
    unfold visited_today at 1.
    destruct (VisitorLog.created_at log) as [created|]; [|discriminate].
    unfold set_add. cbn [fst snd].
    destruct (hashable (VisitorLog.ip_address log)) eqn:Hh; [|discriminate].
    cbn [bind]. intros H. apply IH in H.
    destruct H as (Hlen & Hnd & Hmono & Hcov & Horigin).
    set (u1 := if existsb (py_hash_eq (VisitorLog.ip_address log)) u0
               then u0 else u0 ++ [VisitorLog.ip_address log]) in *.
    assert (Hin1 : existsb (py_hash_eq (VisitorLog.ip_address log)) u1 = true).
    { unfold u1.
      destruct (existsb (py_hash_eq (VisitorLog.ip_address log)) u0) eqn:E;
        [exact E|].
      rewrite existsb_app. cbn. rewrite py_hash_eq_refl by exact Hh.
      rewrite orb_true_r. reflexivity. }
    assert (Hmono1 : forall x, existsb (py_hash_eq x) u0 = true ->
                               existsb (py_hash_eq x) u1 = true).
    { intros x Hx. unfold u1.
      destruct (existsb (py_hash_eq (VisitorLog.ip_address log)) u0);
        [exact Hx|].
      rewrite existsb_app, Hx. reflexivity. }
    split; [|split; [|split; [|split]]].
    + rewrite Hlen.
      destruct (Date.eqb (Datetime.date created) (Datetime.date now));
        cbn [length]; [rewrite length_app; cbn; lia|lia].
    + intros H0. apply Hnd. unfold u1.
      destruct (existsb (py_hash_eq (VisitorLog.ip_address log)) u0) eqn:E;
        [exact H0|].
      apply no_duplicate_ips_snoc; assumption.
    + intros x Hx. auto.
    + intros l' [<-|Hl']; auto.
    + intros x Hx. destruct (Horigin x Hx) as [H1|[l' [Hl' Hip]]].
      * unfold u1 in H1.
        destruct (existsb (py_hash_eq (VisitorLog.ip_address log)) u0);
          [left; exact H1|].
        apply in_app_or in H1. destruct H1 as [H1|[<-|[]]]; [left; exact H1|].
        right. exists log. split; [left; reflexivity|reflexivity].
      * right. exists l'. split; [right; exact Hl'|exact Hip].
Qed.

(** X11.  The visitor part of a materialized view: [total] counts every
    log row of the workspace, [today] has one entry per row written on
    today's UTC date, and the set behind [unique_ips] holds each
    address of those rows once and nothing else, whatever the order in
    which it is listed. *)
Theorem visitor_aggregation (db : DB) (w : Workspace.t) (l : pydict) :
  materialize db (Some w) = Ok (PDict l) ->
  let logs := rows_of VisitorLog.workspace_id w (visitor_logs db) in
  exists today ips,
    dict_get l "visitors"
    = Some (PDict [("total", PInt (Z.of_nat (length logs)));
                   ("today", PList today);
                   ("unique_ips", PList (set_order ips))])
    /\ length today = length (filter (visited_today now) logs)
    /\ no_duplicate_ips ips = true
    /\ (forall log, In log logs ->
          existsb (py_hash_eq (VisitorLog.ip_address log)) ips = true)
    /\ (forall x, In x ips ->
          exists log, In log logs /\ VisitorLog.ip_address log = x).
Proof.
  intros H. cbn zeta.
  destruct (materialize_fields _ _ _ H)
    as (l' & today & ips & Hl & Hfold & _ & _ & _ & _ & _ & _ & Hvis).
  injection Hl as <-.
  destruct (visit_fold _ _ _ _ _ Hfold) as (Hlen & Hnd & _ & Hcov & Horigin).
  exists today, ips. split; [exact Hvis|].
  split; [exact Hlen|]. split; [apply Hnd; reflexivity|].
  split; [exact Hcov|].
  intros x Hx. destruct (Horigin x Hx) as [[]|Hlog]. exact Hlog.
Qed.

Lemma visit_fold_null (logs : list VisitorLog.t) (log : VisitorLog.t)
    (st : list pyval * list pyval) :
  In log logs -> VisitorLog.created_at log = None ->
  exists e, foldM step logs st = Raise e.
Proof.
  revert st. induction logs as [|x logs IH]; intros st; [contradiction|].
  intros [->|Hin] Hnull; cbn [foldM].
  - unfold visit_step at 1. rewrite Hnull. cbn [bind]. eauto.
  - destruct (step st x) as [st'|e]; cbn [bind]; [|eauto].
    apply IH; assumption.
Qed.

(** X12.  One visitor log row of a workspace without a timestamp makes
    the materializer raise, so that [load_data] no longer answers from
    the database for that username: the answer is the flat-file one. *)
Theorem null_visit_time_forces_fallback
    (db : DB) (fs : FS) (username : string) (w : Workspace.t)
    (log : VisitorLog.t) :
  username <> "" ->
  get_workspace_by_username db username = Ok (Some w) ->
  In log (visitor_logs db) ->
  VisitorLog.workspace_id log = Workspace.id w ->
  VisitorLog.created_at log = None ->
  (exists e, materialize db (Some w) = Raise e)
  /\ load db fs (Some username) = from_json fs (Some username).
Proof.
  intros Hne Hlook Hin Hwid Hnull.
  assert (Hraise : exists e, materialize db (Some w) = Raise e).
  { unfold workspace_to_dict, filter_by_workspace, query_all.
    rewrite (lookup_available _ _ _ Hlook). cbn [bind].
    assert (Hin' : In log (filter (fun r => Z.eqb (VisitorLog.workspace_id r)
                                                 (Workspace.id w))
                                  (visitor_logs db))).
    { apply filter_In. split; [exact Hin|]. rewrite Hwid. apply Z.eqb_refl. }
    destruct (visit_fold_null _ _ ([], []) Hin' Hnull) as [e He].
    rewrite He. cbn [bind]. eauto. }
  split; [exact Hraise|].
  destruct Hraise as [e He].
  rewrite (load_data_found db fs username w Hne Hlook), He. reflexivity.
Qed.

(** *** The theme *)

(** X13.  [get_current_theme]: without a session username the theme is
    ['luxury-gold']; for a user whose workspace is materialized it is
    the [theme] entry of the workspace settings, and ['luxury-gold']
    when the settings are empty, null or lack the entry; settings that
    are neither empty nor a mapping make the call raise. *)
Theorem get_current_theme_defaults
    (db : DB) (fs : FS) (session_username : option string) :
  (username_given session_username = false ->
     theme db fs session_username = Ok (PStr "luxury-gold"))
  /\ (forall username w view,
        session_username = Some username -> username <> "" ->
        get_workspace_by_username db username = Ok (Some w) ->
        materialize db (Some w) = Ok view ->
        (forall st, Workspace.settings w = PDict st ->
           theme db fs session_username
           = Ok (dict_get_default st "theme" (PStr "luxury-gold")))
        /\ (truthy (Workspace.settings w) = false ->
            theme db fs session_username = Ok (PStr "luxury-gold"))
        /\ (truthy (Workspace.settings w) = true ->
            is_dict (Workspace.settings w) = false ->
            theme db fs session_username = Raise AttributeError)).
Proof.
  split.
  - intros Hu. unfold get_current_theme. rewrite Hu. reflexivity.
  - intros username w view -> Hne Hlook Hview.
    unfold get_current_theme.
    rewrite (username_given_nonempty _ Hne). cbn [negb].
    rewrite (load_data_found db fs username w Hne Hlook), Hview.
    cbn [try_except bind].
    destruct (materialize_fields _ _ _ Hview)
      as (l & today & ips & -> & _ & _ & _ & Hset & _).
    cbn [py_get bind]. unfold dict_get_default. rewrite Hset.
    unfold py_or, default_settings.
    split; [|split].
    + intros st Hst. rewrite Hst. destruct st; reflexivity.
    + intros Hf. rewrite Hf. reflexivity.
    + intros Ht Hd. rewrite Ht.
      destruct (Workspace.settings w); try discriminate; reflexivity.
Qed.

End Views.

(* ================================================================== *)
(** * Further properties: contact intake *)
(* ================================================================== *)

(** White space is what [str.isspace] says: a name that is a single
    no-break space (U+00A0) is blank after trimming, and the submission
    does not pass validation. *)
Lemma no_break_space_is_blank :
  strip (string_of_bytes [194; 160]%N) = ""
  /\ passes_validation
       [ ("name", string_of_bytes [194; 160]%N); ("email", "bob@example.org");
         ("message", "Hello"); ("portfolio_owner", "ann") ] = false.
Proof. split; vm_compute; reflexivity. Qed.




Section Intake.

Context {platform : Platform}.

Variable now : Datetime.t.
Variable set_order : list pyval -> list pyval.
Variable determine_badge : pyval -> result pyval.
Variable accepts : DB -> bool.
Variable check_rate_limit : string -> result bool.
Variable send_telegram_notification : string -> string -> result pyval.
Variable message_default : string -> pyval.
Variable message_created_at : option Datetime.t.

Local Abbreviation load := (load_data now set_order determine_badge).
Local Abbreviation materialize := (workspace_to_dict now set_order).
Local Abbreviation intake :=
  (contact accepts check_rate_limit send_telegram_notification
     message_default message_created_at).
Local Abbreviation row_of := (intake_message message_default message_created_at).

Lemma passes_validation_fields (form : list (string * string)) :
  passes_validation form = true ->
  form_get form "website" = ""
  /\ field form "name" <> "" /\ field form "email" <> ""
  /\ field form "message" <> "" /\ field form "portfolio_owner" <> "".
Proof.
  unfold passes_validation. intros H.
  repeat (apply andb_prop in H; destruct H as [H ?]).
  repeat match goal with
         | H : negb _ = true |- _ => apply negb_true_iff in H
         end.
  repeat split;
    match goal with
    | |- _ = _ => apply String.eqb_eq; assumption
    | |- _ <> _ => apply String.eqb_neq; assumption
    end.
Qed.

(** X14.  The validation stages of [contact] short-circuit before any
    database access: a filled honeypot is answered with the JSON
    success object, without a flash and without consulting the rate
    limiter; a denied rate limit and a required field that is blank
    after trimming are answered with their own rejection message; in
    all three cases the session is left as it was. *)
Theorem contact_validation_short_circuits
    (form : list (string * string)) (referrer : option string) (s : St) :
  (form_get form "website" <> "" ->
     intake form referrer s
     = (Ok (mkReply (Jsonify (PDict [("success", PBool true)])) []), s))
  /\ (form_get form "website" = "" ->
      check_rate_limit "portfolio_contact" = Ok false ->
      intake form referrer s
      = (Ok (mkReply (back referrer) [("Too many requests.", "danger")]), s))
  /\ (form_get form "website" = "" ->
      check_rate_limit "portfolio_contact" = Ok true ->
      (field form "name" = "" \/ field form "email" = ""
       \/ field form "message" = "" \/ field form "portfolio_owner" = "") ->
      intake form referrer s
      = (Ok (mkReply (back referrer) [("Required fields missing.", "danger")]),
         s)).
Proof.
  unfold contact, try_exceptS, contact_body. split; [|split].
  - intros H. apply String.eqb_neq in H. rewrite H. reflexivity.
  - intros H Hr. rewrite H. cbn [String.eqb negb].
    unfold bindS, pure. rewrite Hr. reflexivity.
  - intros H Hr Hblank. rewrite H. cbn [String.eqb negb].
    unfold bindS at 1, pure. rewrite Hr. cbn [negb].
    unfold field in Hblank.
    match goal with
    | |- context [if ?c then ret ?r else _] =>
        assert (Hc : c = true); [|rewrite Hc; reflexivity]
    end.
    destruct Hblank as [ -> | [ -> | [ -> | -> ] ] ]; cbn [String.eqb orb];
      rewrite ?orb_true_r; reflexivity.
Qed.

(** What [contact] leaves behind, whatever the form, the rate limiter,
    the schema and the notifier do. *)
Lemma contact_outcome
    (form : list (string * string)) (referrer : option string)
    (db : DB) (fs : FS) :
  exists r s',
    intake form referrer (mkSt db db fs) = (Ok r, s')
    /\ files s' = fs
    /\ working s' = committed s'
    /\ (committed s' = db
        \/ (passes_validation form = true
            /\ check_rate_limit "portfolio_contact" = Ok true
            /\ exists w,
                get_workspace_by_username db (field form "portfolio_owner")
                = Ok (Some w)
                /\ committed s'
                   = set_messages (fun rows => rows ++ [row_of db w form]) db)).
Proof.
  unfold contact, try_exceptS, contact_body, passes_validation, field.
  destruct (String.eqb (form_get form "website") "") eqn:Hweb; cbn [negb andb].
  2:{ eexists; eexists. split; [reflexivity|]. cbn. auto. }
  unfold bindS at 1, pure.
  destruct (check_rate_limit "portfolio_contact") as [[|]|e] eqn:Hrate;
    cbn [negb].
  2,3: eexists; eexists; (split; [reflexivity|]); cbn; auto.
  destruct (String.eqb (strip (form_get form "name")) "") eqn:H1; cbn [orb negb andb].
  1: eexists; eexists; (split; [reflexivity|]); cbn; auto.
  destruct (String.eqb (strip (form_get form "email")) "") eqn:H2; cbn [orb negb andb].
  1: eexists; eexists; (split; [reflexivity|]); cbn; auto.
  destruct (String.eqb (strip (form_get form "message")) "") eqn:H3; cbn [orb negb andb].
  1: eexists; eexists; (split; [reflexivity|]); cbn; auto.
  destruct (String.eqb (strip (form_get form "portfolio_owner")) "") eqn:H4;
    cbn [orb negb andb].
  1: eexists; eexists; (split; [reflexivity|]); cbn; auto.
  unfold bindS at 1, rd. cbn [working].
  destruct (get_workspace_by_username db
              (strip (form_get form "portfolio_owner"))) as [[w|]|e] eqn:Hlook.
  2,3: eexists; eexists; (split; [reflexivity|]); cbn; auto.
  unfold bindS at 1, wr. cbn [working committed files].
  unfold bindS at 1, db_commit. cbn [working committed files].
  match goal with
  | |- context [if ?c then _ else _] => destruct c
  end.
  - unfold bindS, pure.
    destruct (send_telegram_notification _ _);
      (eexists; eexists; split; [reflexivity|]);
      cbn; (split; [reflexivity|]); (split; [reflexivity|]);
      right; (split; [reflexivity|]); (split; [reflexivity|]);
      exists w; split; reflexivity.
  - eexists; eexists. split; [reflexivity|]. cbn. auto.
Qed.

(** X15.  [contact] never raises and changes nothing but the messages:
    whatever the form, the rate limiter, the schema checks and the
    notifier do, the call returns a reply, leaves the files alone, and
    leaves the database either exactly as it was or with one row
    appended to the messages, built from a form that passed validation
    for the workspace the owner field resolves to. *)
Theorem contact_appends_at_most_one_message
    (form : list (string * string)) (referrer : option string)
    (db : DB) (fs : FS) :
  let out := intake form referrer (mkSt db db fs) in
  let db' := committed (snd out) in
  (exists r, fst out = Ok r)
  /\ files (snd out) = fs
  /\ (db' = db
      \/ (passes_validation form = true
          /\ exists w,
              get_workspace_by_username db (field form "portfolio_owner")
              = Ok (Some w)
              /\ db' = set_messages (fun rows => rows ++ [row_of db w form]) db
              /\ Message.workspace_id (row_of db w form) = Workspace.id w)).
Proof.
  cbn zeta.
  destruct (contact_outcome form referrer db fs)
    as (r & s' & -> & Hf & _ & Hc).
  cbn [fst snd]. split; [eauto|]. split; [exact Hf|].
  destruct Hc as [Hc|(Hv & _ & w & Hlook & Hc)]; [left; exact Hc|].
  right. split; [exact Hv|]. exists w. repeat split; assumption.
Qed.

(** X16.  A submission that passes validation is still dropped, with
    the generic failure message and an unchanged database, when the
    owner field resolves to no workspace or when the commit of the new
    row is refused. *)
Theorem contact_failure_keeps_database
    (form : list (string * string)) (referrer : option string)
    (db : DB) (fs : FS) :
  passes_validation form = true ->
  check_rate_limit "portfolio_contact" = Ok true ->
  (get_workspace_by_username db (field form "portfolio_owner") = Ok None
   \/ exists w,
       get_workspace_by_username db (field form "portfolio_owner") = Ok (Some w)
       /\ accepts (set_messages (fun rows => rows ++ [row_of db w form]) db)
          = false) ->
  intake form referrer (mkSt db db fs)
  = (Ok (mkReply (back referrer) [failure_flash]), mkSt db db fs).
Proof.
  intros Hv Hrate Hfail.
  destruct (passes_validation_fields _ Hv) as (Hweb & H1 & H2 & H3 & H4).
  apply String.eqb_neq in H1, H2, H3, H4. unfold field in *.
  unfold contact, try_exceptS, contact_body.
  rewrite Hweb. cbn [String.eqb negb].
  unfold bindS at 1, pure. rewrite Hrate. cbn [negb].
  rewrite H1, H2, H3, H4. cbn [orb].
  unfold bindS at 1, rd. cbn [working].
  destruct Hfail as [Hlook|[w [Hlook Hacc]]]; rewrite Hlook.
  - reflexivity.
  - unfold bindS at 1, wr. cbn [working committed files].
    unfold bindS at 1, db_commit. cbn [working committed files].
    unfold intake_message, field in Hacc. rewrite Hacc, andb_false_r.
    reflexivity.
Qed.



(** X18.  A committed submission shows up in the owner's view: after
    [contact], [load_data] for the owner lists the messages the
    workspace had before, followed by the new one, unread, of category
    ['portfolio'] and with the capped body. *)
Theorem contact_then_load
    (form : list (string * string)) (referrer : option string)
    (db : DB) (fs : FS) (w : Workspace.t) (view : pyval) :
  passes_validation form = true ->
  check_rate_limit "portfolio_contact" = Ok true ->
  get_workspace_by_username db (field form "portfolio_owner") = Ok (Some w) ->
  accepts (set_messages (fun rows => rows ++ [row_of db w form]) db) = true ->
  let db' := committed (snd (intake form referrer (mkSt db db fs))) in
  materialize db' (Some w) = Ok view ->
  load db' fs (Some (field form "portfolio_owner")) = Ok view
  /\ exists l,
      view = PDict l
      /\ dict_get l "messages"
         = Some (PList
                   (map (fun m => PDict (message_to_dict m))
                        (rows_of Message.workspace_id w (messages db))
                    ++ [PDict (message_to_dict (row_of db w form))]))
      /\ dict_get (message_to_dict (row_of db w form)) "read"
         = Some (PBool false)
      /\ dict_get (message_to_dict (row_of db w form)) "category"
         = Some (PStr "portfolio")
      /\ dict_get (message_to_dict (row_of db w form)) "message"
         = Some (PStr (slice_to 5000 (field form "message"))).
Proof.
  intros Hv Hrate Hlook Hacc. cbn zeta.
  rewrite (contact_committed accepts check_rate_limit
             send_telegram_notification message_default message_created_at
             form referrer db fs w Hv Hrate Hlook Hacc).
  cbn [snd committed]. intros Hview.
  destruct (passes_validation_fields _ Hv) as (_ & _ & _ & _ & Hne).
  split.
  - rewrite (load_data_found now set_order determine_badge _ fs _ w Hne).
    + rewrite Hview. reflexivity.
    + exact Hlook.
  - destruct (materialize_fields now set_order _ _ _ Hview)
      as (l & today & ips & -> & _ & _ & _ & _ & _ & Hmsg & _).
    exists l. split; [reflexivity|]. split; [|repeat split].
    rewrite Hmsg. unfold rows_of. cbn [messages set_messages].
    rewrite filter_app, map_app. cbn [filter].
    replace (Z.eqb (Message.workspace_id (row_of db w form)) (Workspace.id w))
      with true by (symmetry; apply Z.eqb_refl).
    reflexivity.
Qed.

End Intake.

(* ================================================================== *)
(** * Further properties: the pages *)
(* ================================================================== *)

Lemma replace_spaces_no_space (s : string) :
  is_substring " " (replace_spaces s) = false.
Proof.
  induction s as [|c s IH]; [reflexivity|].
  cbn [replace_spaces is_substring String.prefix]. rewrite IH, orb_false_r.
  destruct (Ascii.eqb_spec c " ") as [->|Hc].
  - destruct (ascii_dec " " "_"); [discriminate|reflexivity].
  - destruct (ascii_dec " " c); [congruence|reflexivity].
Qed.

Section Pages.

Context {platform : Platform}.

Variable now : Datetime.t.
Variable set_order : list pyval -> list pyval.
Variable determine_badge : pyval -> result pyval.
Variable track_visitor : string -> result unit.
Variable render_template : string -> pydict -> result string.
Variable weasyprint_write_pdf : string -> result string.
Variable import_pdfkit : result unit.
Variable which : string -> option string.
Variable pdfkit_configuration : string -> result string.
Variable pdfkit_from_string : string -> option string -> result string.
Variable import_weasyprint : result unit.

Local Abbreviation load := (load_data now set_order determine_badge).
Local Abbreviation materialize := (workspace_to_dict now set_order).
Local Abbreviation portfolio_page :=
  (user_portfolio now set_order determine_badge track_visitor).
Local Abbreviation users_of := (listed_users now set_order determine_badge).
Local Abbreviation download :=
  (download_cv now set_order determine_badge render_template
     weasyprint_write_pdf import_pdfkit which pdfkit_configuration
     pdfkit_from_string).
Local Abbreviation fallback :=
  (pdfkit_fallback import_pdfkit which pdfkit_configuration pdfkit_from_string).
Local Abbreviation preview :=
  (cv_preview now set_order determine_badge import_pdfkit which
     import_weasyprint).

Lemma load_data_total (db : DB) (fs : FS) (username : option string) :
  exists v, load db fs username = Ok v.
Proof.
  unfold load_data, try_except.
  destruct (load_data_body now set_order determine_badge db fs username);
    [eauto|].
  apply load_data_from_json_total.
Qed.

(** *** The public portfolio page *)

(** X19.  A username that no listed user carries, other than ['admin'],
    is answered with the 404 page, whatever the stores hold for it and
    without a visit being tracked. *)
Theorem unknown_user_gets_404
    (db : DB) (fs : FS) (username : string) (users : pyval) :
  users_of db fs = Ok users ->
  find_user users username = Ok None ->
  username <> "admin" ->
  portfolio_page db fs username
  = Ok (mkReply (RenderTemplate "404.html" [] 404) []).
Proof.
  intros Husers Hfind Hne. unfold user_portfolio.
  destruct (load_data_total db fs (Some username)) as [v ->]. cbn [bind].
  rewrite Husers. cbn [bind]. rewrite Hfind. cbn [bind entry_truthy negb andb].
  apply String.eqb_neq in Hne. rewrite Hne. reflexivity.
Qed.

(** X20.  A listed user who is not an admin gets the portfolio
    template: the view handed to it is the loaded one with
    [is_verified] taken from the user record and [username] set to the
    requested name, the theme is the one of the view's settings, and an
    exception of the visitor tracking is not caught. *)
Theorem user_portfolio_renders
    (db : DB) (fs : FS) (username : string) (users : pyval) (ud d : pydict) :
  load db fs (Some username) = Ok (PDict ud) ->
  users_of db fs = Ok users ->
  find_user users username = Ok (Some (PDict d)) ->
  username <> "admin" ->
  py_eq_str (dict_get_default d "role" PNone) "admin" = false ->
  let data :=
    dict_set (dict_set ud "is_verified"
                (dict_get_default d "is_verified" (PBool false)))
             "username" (PStr username) in
  dict_get data "username" = Some (PStr username)
  /\ (forall st,
        track_visitor username = Ok tt ->
        dict_get_default data "settings" (PDict []) = PDict st ->
        portfolio_page db fs username
        = Ok (mkReply
                (RenderTemplate "index.html"
                   [("data", PDict data); ("is_public", PBool true);
                    ("current_theme",
                     dict_get_default st "theme" (PStr "luxury-gold"))] 200)
                []))
  /\ (forall e, track_visitor username = Raise e ->
        portfolio_page db fs username = Raise e).
Proof.
  intros Hload Husers Hfind Hne Hrole. cbn zeta.
  split; [apply dict_get_set_same|].
  destruct (find_user_some _ _ _ Hfind) as [d' [Hd Ht]].
  apply String.eqb_neq in Hne.
  assert (Hstart :
    portfolio_page db fs username
    = (_ <- track_visitor username ;;
       settings <- py_get (PDict (dict_set (dict_set ud "is_verified"
                      (dict_get_default d "is_verified" (PBool false)))
                      "username" (PStr username))) "settings" (PDict []) ;;
       current_theme <- py_get settings "theme" (PStr "luxury-gold") ;;
       Ok (mkReply
             (RenderTemplate "index.html"
                [("data", PDict (dict_set (dict_set ud "is_verified"
                      (dict_get_default d "is_verified" (PBool false)))
                      "username" (PStr username)));
                 ("is_public", PBool true);
                 ("current_theme", current_theme)] 200)
             []))).
  { unfold user_portfolio. rewrite Hload. cbn [bind].
    rewrite Husers. cbn [bind]. rewrite Hfind. cbn [bind entry_truthy].
    rewrite Ht. cbn [negb andb py_get py_setitem bind].
    rewrite Hrole, Hne. reflexivity. }
  rewrite Hstart. split.
  - intros st Htrack Hst. rewrite Htrack. cbn [bind py_get].
    rewrite Hst. reflexivity.
  - intros e He. rewrite He. reflexivity.
Qed.

(** *** PDF export *)

Lemma send_pdf_shape (data : pyval) (pdf : string) (r : reply) :
  send_pdf data pdf = Ok r ->
  exists name,
    r = mkReply (SendFile pdf "application/pdf"
                   (replace_spaces name ++ "_CV.pdf")) [].
Proof.
  unfold send_pdf. intros H. bind_inv H.
  destruct a; try discriminate. injection H as <-. eauto.
Qed.

(** X21.  A successful export streams the bytes of the renderer that
    produced them, as [application/pdf], under the display name with
    its spaces replaced by underscores followed by [_CV.pdf]: from the
    first renderer when it works, and from the second one, configured
    with the binary found on the path, when the first fails without the
    known defect. *)
Theorem download_cv_streams_pdf
    (db : DB) (fs : FS) (session_username : option string)
    (data : pyval) (html_content name : string) :
  load db fs (Some (match session_username with
                    | Some u => u | None => "admin" end)) = Ok data ->
  render_template "cv_preview.html" [("data", data); ("pdf_mode", PBool true)]
    = Ok html_content ->
  py_get data "name" (PStr "CV") = Ok (PStr name) ->
  let file pdf :=
    mkReply (SendFile pdf "application/pdf" (replace_spaces name ++ "_CV.pdf"))
            [] in
  is_substring " " (replace_spaces name) = false
  /\ (forall pdf, weasyprint_write_pdf html_content = Ok pdf ->
        download db fs session_username = Ok (file pdf))
  /\ (forall e path config pdf,
        weasyprint_write_pdf html_content = Raise e ->
        known_gtk_defect e = false ->
        import_pdfkit = Ok tt ->
        which "wkhtmltopdf" = Some path -> path <> "" ->
        pdfkit_configuration path = Ok config ->
        pdfkit_from_string html_content (Some config) = Ok pdf ->
        download db fs session_username = Ok (file pdf)).
Proof.
  intros Hdata Hhtml Hname. cbn zeta.
  split; [apply replace_spaces_no_space|]. split.
  - intros pdf Ha. unfold download_cv. rewrite Hdata. cbn [bind].
    rewrite Hhtml. cbn [bind]. rewrite Ha. cbn [bind].
    unfold send_pdf. rewrite Hname. reflexivity.
  - intros e path config pdf Ha Hdef Himp Hwhich Hpath Hconf Hb.
    unfold download_cv. rewrite Hdata. cbn [bind].
    rewrite Hhtml. cbn [bind]. rewrite Ha. cbn [bind]. rewrite Hdef.
    unfold pdfkit_fallback. rewrite Himp. cbn [bind]. rewrite Hwhich.
    apply String.eqb_neq in Hpath. rewrite Hpath, Hconf. cbn [bind].
    rewrite Hb. cbn [bind]. unfold send_pdf. rewrite Hname. reflexivity.
Qed.

(** X22.  Once the CV is rendered as HTML, [download_cv] catches every
    exception of both renderers: it answers either with a PDF file and
    no flash, or with a redirect to the preview page and exactly one
    flashed error; and the known defect of the first renderer ends the
    export with its own message, whatever the second renderer could
    do. *)
Theorem download_cv_outcomes
    (db : DB) (fs : FS) (session_username : option string)
    (data : pyval) (html_content : string) :
  load db fs (Some (match session_username with
                    | Some u => u | None => "admin" end)) = Ok data ->
  render_template "cv_preview.html" [("data", data); ("pdf_mode", PBool true)]
    = Ok html_content ->
  exists r,
    download db fs session_username = Ok r
    /\ ((exists pdf name,
           r = mkReply (SendFile pdf "application/pdf"
                          (replace_spaces name ++ "_CV.pdf")) [])
        \/ (exists message, r = back_to_preview message))
    /\ (forall e, weasyprint_write_pdf html_content = Raise e ->
          known_gtk_defect e = true ->
          r = back_to_preview gtk_runtime_message).
Proof.
  intros Hdata Hhtml. unfold download_cv. rewrite Hdata. cbn [bind].
  rewrite Hhtml. cbn [bind].
  assert (Hfb : (exists pdf name,
                   fallback data html_content
                   = mkReply (SendFile pdf "application/pdf"
                                (replace_spaces name ++ "_CV.pdf")) [])
                \/ (exists message,
                      fallback data html_content = back_to_preview message)).
  { unfold pdfkit_fallback.
    match goal with
    | |- context [match ?a with Ok _ => _ | Raise _ => _ end] =>
        destruct a as [r|e] eqn:Ha
    end.
    - left. bind_inv Ha.
      destruct (send_pdf_shape _ _ _ Ha) as [name ->]. eauto.
    - right. destruct e; eauto. }
  destruct (weasyprint_write_pdf html_content) as [pdf|e] eqn:Ha; cbn [bind].
  - destruct (send_pdf data pdf) as [r|e] eqn:Hs.
    + exists r. split; [reflexivity|]. split; [|discriminate].
      left. destruct (send_pdf_shape _ _ _ Hs) as [name ->]. eauto.
    + assert (Hk : known_gtk_defect e = false).
      { unfold send_pdf in Hs.
        destruct (py_get data "name" (PStr "CV")) as [v|e'] eqn:Hg.
        - cbn [bind] in Hs. destruct v; try discriminate;
            injection Hs as <-; reflexivity.
        - cbn [bind] in Hs. injection Hs as <-.
          destruct data; cbn in Hg; try discriminate;
            injection Hg as <-; reflexivity. }
      rewrite Hk. eexists. split; [reflexivity|]. split; [exact Hfb|].
      discriminate.
  - destruct (known_gtk_defect e) eqn:Hk.
    + eexists. split; [reflexivity|]. split; [right; eauto|].
      intros e' He' _. reflexivity.
    + eexists. split; [reflexivity|]. split; [exact Hfb|].
      intros e' He' Hk'. injection He' as <-. congruence.
Qed.

(** *** The preview page *)

Lemma active_services_rows (rows : list Service.t) :
  active_services (map (fun x => PDict (service_to_dict x)) rows)
  = Ok (map (fun x => PDict (service_to_dict x))
            (filter (fun x => truthy (Service.is_active x)) rows)).
Proof.
  induction rows as [|x rows IH]; [reflexivity|].
  cbn [map active_services filter].
  change (py_get (PDict (service_to_dict x)) "is_active" (PBool true))
    with (Ok (Service.is_active x) : result pyval).
  cbn [bind]. rewrite IH. cbn [bind].
  destruct (truthy (Service.is_active x)); reflexivity.
Qed.

(** X23.  For a user whose workspace is materialized, the preview page
    is handed the view, the two probe results, the theme of the
    workspace settings, and as services exactly the service rows of the
    workspace whose [is_active] is true, so that a row with a null
    [is_active] is left out. *)
Theorem cv_preview_lists_active_services
    (db : DB) (fs : FS) (username : string) (w : Workspace.t) (view : pyval)
    (weasy_available weasy_error : pyval) (st : pydict) :
  username <> "" ->
  get_workspace_by_username db username = Ok (Some w) ->
  materialize db (Some w) = Ok view ->
  probe_weasyprint import_weasyprint = Ok (weasy_available, weasy_error) ->
  py_or (Workspace.settings w) default_settings = PDict st ->
  preview db fs (Some username)
  = Ok (mkReply
          (RenderTemplate "cv_preview.html"
             [("data", view);
              ("pdf_methods", PDict [
                 ("weasy_available", weasy_available);
                 ("weasy_error", weasy_error);
                 ("wkhtml_available", fst (probe_wkhtmltopdf import_pdfkit which));
                 ("wkhtml_path", snd (probe_wkhtmltopdf import_pdfkit which))]);
              ("current_theme",
               dict_get_default st "theme" (PStr "luxury-gold"));
              ("services",
               PList (map (fun x => PDict (service_to_dict x))
                          (filter (fun x => truthy (Service.is_active x))
                             (rows_of Service.workspace_id w (services db)))))]
             200)
          []).
Proof.
  intros Hne Hlook Hview Hprobe Hset. unfold cv_preview.
  rewrite (load_data_found now set_order determine_badge db fs username w
             Hne Hlook), Hview.
  cbn [try_except bind]. rewrite Hprobe. cbn [bind].
  destruct (probe_wkhtmltopdf import_pdfkit which) as [wa wp]. cbn [fst snd].
  destruct (materialize_fields now set_order _ _ _ Hview)
    as (l & today & ips & -> & _ & _ & _ & Hs & _ & _ & Hsv & _).
  cbn [py_get bind]. unfold dict_get_default. rewrite Hs, Hset.
  cbn [bind py_get]. rewrite Hsv.
  cbn [py_iter bind]. rewrite active_services_rows. reflexivity.
Qed.

(** X24.  The two probes of the preview page treat errors differently:
    an exception of [import weasyprint] other than [ImportError] and
    [OSError] makes the page raise, whereas the probe of the second
    renderer never raises and reports the renderer as available exactly
    when its library imports and the binary is found on the path. *)
Theorem cv_preview_probes
    (db : DB) (fs : FS) (session_username : option string) :
  (forall e, import_weasyprint = Raise e ->
     match e with ImportError _ | OSError _ => False | _ => True end ->
     preview db fs session_username = Raise e)
  /\ (fst (probe_wkhtmltopdf import_pdfkit which) = PBool true
      <-> import_pdfkit = Ok tt
          /\ exists path, which "wkhtmltopdf" = Some path /\ path <> "").
Proof.
  split.
  - intros e He Hkind. unfold cv_preview.
    destruct (load_data_total db fs
                (Some (match session_username with
                       | Some u => u | None => "admin" end))) as [v ->].
    cbn [bind]. unfold probe_weasyprint. rewrite He.
    destruct e; try contradiction; reflexivity.
  - unfold probe_wkhtmltopdf. split.
    + destruct import_pdfkit as [[]|e]; [|discriminate].
      destruct (which "wkhtmltopdf") as [path|]; [|discriminate].
      destruct (String.eqb_spec path ""); [discriminate|].
      intros _. split; [reflexivity|]. eauto.
    + intros [-> [path [-> Hp]]]. apply String.eqb_neq in Hp. rewrite Hp.
      reflexivity.
Qed.

End Pages.

(* ================================================================== *)
(** * The further properties on the sample data *)
(* ================================================================== *)

Lemma sample_backup_keeps (fs : FS) : backup_keeps_document sample_backup fs.
Proof. intros fs' H. injection H as <-. split; reflexivity. Defined.

Lemma get_or_create_workspace_lookup_witness :
  exists w s1,
    get_or_create_workspace sample_accepts sample_default "zed" PNone
      (mkSt sample_db sample_db sample_fs) = (Ok w, s1)
    /\ get_workspace_by_username (committed s1) "zed" = Ok (Some w).
Proof.
  eassert (H : get_or_create_workspace sample_accepts sample_default "zed"
                 PNone (mkSt sample_db sample_db sample_fs) = (Ok _, _))
    by (vm_compute; reflexivity).
  match type of H with
  | _ = (Ok ?w, ?s) => exists w, s
  end.
  split; [exact H|].
  exact (proj1 (get_or_create_workspace_lookup sample_accepts sample_default
                  "zed" PNone sample_db sample_fs _ _ H)).
Defined.

Lemma load_data_global_view_witness :
  exists ps,
    load_data sample_now sample_set_order sample_badge sample_db sample_fs None
    = Ok (PDict [("users", PList (map (fun u => PDict (user_to_dict u))
                                      (users sample_db)));
                 ("portfolios", PDict ps)])
    /\ has_key ps "ann" = true.
Proof.
  destruct (load_data_global_view sample_now sample_set_order sample_badge
              sample_db sample_fs None eq_refl eq_refl)
    as [ps [H [_ [Hk _]]]].
  exists ps. split; [exact H|]. rewrite Hk. reflexivity.
Defined.

Lemma backfill_project_normalizes_witness :
  exists d',
    backfill_project sample_badge (PDict legacy_project) = Ok (PDict d')
    /\ has_key d' "badge" = true
    /\ dict_get d' "project_type" = Some (PStr "portfolio").
Proof.
  eassert (H : backfill_project sample_badge (PDict legacy_project) = Ok _)
    by (vm_compute; reflexivity).
  destruct (backfill_project_normalizes sample_badge legacy_project _ H)
    as [d' [Hp [_ [Hb [_ [Ht _]]]]]].
  exists d'. split; [rewrite <- Hp; exact H|]. split; [exact Hb|].
  apply Ht. reflexivity.
Defined.

Lemma load_data_from_json_present_witness :
  exists ps',
    load_data_from_json sample_badge legacy_fs (Some "bob")
    = Ok (PDict (dict_set legacy_record "projects" (PList ps'))).
Proof.
  eassert (Hm : mapM (backfill_project sample_badge) [PDict legacy_project]
                = Ok _) by (vm_compute; reflexivity).
  eexists.
  refine (proj1 (proj2
            (load_data_from_json_present sample_badge legacy_fs "bob"
               _ _ legacy_record _ eq_refl eq_refl eq_refl)) _ _ eq_refl Hm).
  discriminate.
Defined.

Lemma save_data_to_json_writes_entry_witness :
  exists p',
    flat_portfolios
      (data_json (save_data_to_json sample_backup (PDict sample_view)
                    (Some "ann") true sample_fs)) = Some p'
    /\ dict_get p' "ann" = Some (PDict sample_view).
Proof.
  assert (Hne : "ann" <> "") by discriminate.
  pose proof (save_data_to_json_writes_entry sample_backup (PDict sample_view)
                "ann" true sample_fs [] [] Hne eq_refl
                (sample_backup_keeps sample_fs) eq_refl eq_refl) as H.
  cbn zeta in H. destruct H as [doc' [p' [_ [Hp [Hu _]]]]].
  exists p'. split; assumption.
Defined.

Lemma flat_file_round_trip_witness :
  load_data_from_json sample_badge
    (save_data_to_json sample_backup (PDict sample_view) (Some "ann") true
       sample_fs)
    (Some "ann")
  = Ok (PDict sample_view).
Proof.
  apply (flat_file_round_trip sample_badge sample_backup sample_view "ann"
           true sample_fs [] []).
  - discriminate.
  - reflexivity.
  - apply sample_backup_keeps.
  - reflexivity.
  - reflexivity.
  - reflexivity.
Defined.

Lemma sample_backup_keeps_outcome (fs : FS) :
  backup_keeps_outcome sample_backup fs.
Proof. intros fs' H. injection H as <-. reflexivity. Defined.

Lemma save_data_to_json_failure_modes_witness :
  data_json (save_data_to_json sample_backup (PDict sample_view) (Some "ann")
               true unreadable_fs)
  = data_json unreadable_fs
  /\ let fs' := save_data_to_json sample_backup (PDict sample_view)
                  (Some "bob") true full_disk_fs in
     data_json fs' = Unreadable
     /\ forall reader,
          load_data_from_json sample_badge fs' reader = Ok (PDict []).
Proof.
  split.
  - apply (proj1
             (save_data_to_json_failure_modes sample_badge sample_backup
                (PDict sample_view) (Some "ann") true unreadable_fs
                (sample_backup_keeps unreadable_fs)
                (sample_backup_keeps_outcome unreadable_fs))).
    left. reflexivity.
  - eassert (Hdoc : flat_document (data_json full_disk_fs) = Some _)
      by (vm_compute; reflexivity).
    eassert (Hp : flat_portfolios (data_json full_disk_fs) = Some _)
      by (vm_compute; reflexivity).
    apply (proj2 (proj2
             (save_data_to_json_failure_modes sample_badge sample_backup
                (PDict sample_view) (Some "bob") true full_disk_fs
                (sample_backup_keeps full_disk_fs)
                (sample_backup_keeps_outcome full_disk_fs)))
             "bob" _ _ eq_refl eq_refl ltac:(discriminate) Hdoc Hp).
Defined.

Lemma save_then_load_offline_witness :
  let after := run (save_data sample_accepts sample_backup sample_default
                      (PDict sample_view) (Some "ann") true)
                   offline_db sample_fs in
  fst after = offline_db
  /\ load_data sample_now sample_set_order sample_badge
       (fst after) (snd after) (Some "ann") = Ok (PDict sample_view).
Proof.
  apply (save_then_load_offline sample_accepts sample_backup sample_default
           sample_now sample_set_order sample_badge sample_view "ann" true
           offline_db sample_fs [] []).
  - reflexivity.
  - discriminate.
  - reflexivity.
  - apply sample_backup_keeps.
  - reflexivity.
  - reflexivity.
  - reflexivity.
Defined.

Lemma failed_save_is_rolled_back_witness :
  skills (fst (run (save_data sample_accepts sample_backup sample_default
                      (PDict failing_view) (Some "zed") true)
                   sample_db sample_fs))
  = skills sample_db.
Proof.
  eassert (H : fst (save_data_body sample_accepts sample_default
                      (PDict failing_view) "zed"
                      (mkSt sample_db sample_db sample_fs)) = Raise _)
    by (vm_compute; reflexivity).
  assert (Hne : "zed" <> "") by discriminate.
  exact (proj1 (failed_save_is_rolled_back sample_accepts sample_backup
                  sample_default (PDict failing_view) "zed" true
                  sample_db sample_fs _ Hne H)).
Defined.

Lemma save_data_isolates_workspaces_witness :
  exists s',
    save_data_body sample_accepts sample_default (PDict sample_view) "bob"
      (mkSt sample_db sample_db sample_fs) = (Ok tt, s')
    /\ workspace_to_dict sample_now sample_set_order (committed s')
         (Some sample_workspace)
       = workspace_to_dict sample_now sample_set_order sample_db
           (Some sample_workspace).
Proof.
  eassert (H : save_data_body sample_accepts sample_default
                 (PDict sample_view) "bob"
                 (mkSt sample_db sample_db sample_fs) = (Ok tt, _))
    by (vm_compute; reflexivity).
  match type of H with
  | _ = (_, ?s) => exists s
  end.
  split; [exact H|].
  refine (proj2 (save_data_isolates_workspaces sample_accepts sample_default
                   sample_now sample_set_order sample_view "bob" sample_db
                   sample_fs _ sample_workspace H _ _)).
  - left. reflexivity.
  - intros w0 H0. vm_compute in H0. discriminate H0.
Defined.

Lemma visitor_aggregation_witness :
  exists l today ips,
    workspace_to_dict sample_now sample_set_order sample_db
      (Some sample_workspace) = Ok (PDict l)
    /\ dict_get l "visitors"
       = Some (PDict [("total", PInt 1); ("today", PList today);
                      ("unique_ips", PList (sample_set_order ips))])
    /\ length today = 1.
Proof.
  eassert (H : workspace_to_dict sample_now sample_set_order sample_db
                 (Some sample_workspace) = Ok (PDict _))
    by (vm_compute; reflexivity).
  match type of H with
  | _ = Ok (PDict ?l) =>
      exists l;
      destruct (visitor_aggregation sample_now sample_set_order sample_db
                  sample_workspace l H) as [today [ips [Hv [Hlen _]]]]
  end.
  exists today, ips. split; [exact H|]. split; [exact Hv|exact Hlen].
Defined.

Lemma null_visit_time_forces_fallback_witness :
  load_data sample_now sample_set_order sample_badge broken_db sample_fs
    (Some "ann")
  = load_data_from_json sample_badge sample_fs (Some "ann").
Proof.
  refine (proj2 (null_visit_time_forces_fallback sample_now sample_set_order
                   sample_badge broken_db sample_fs "ann" sample_workspace
                   (VisitorLog.mk 1 (PStr "10.0.0.2") None) _ eq_refl _
                   eq_refl eq_refl)).
  - discriminate.
  - left. reflexivity.
Defined.

Lemma get_current_theme_defaults_witness :
  get_current_theme sample_now sample_set_order sample_badge sample_db
    sample_fs None = Ok (PStr "luxury-gold")
  /\ get_current_theme sample_now sample_set_order sample_badge sample_db
       sample_fs (Some "ann") = Ok (PStr "luxury-gold").
Proof.
  pose proof (get_current_theme_defaults sample_now sample_set_order
                sample_badge sample_db sample_fs None) as [H0 _].
  pose proof (get_current_theme_defaults sample_now sample_set_order
                sample_badge sample_db sample_fs (Some "ann")) as [_ H1].
  split; [apply H0; reflexivity|].
  eassert (Hv : workspace_to_dict sample_now sample_set_order sample_db
                  (Some sample_workspace) = Ok _)
    by (vm_compute; reflexivity).
  assert (Hne : "ann" <> "") by discriminate.
  destruct (H1 "ann" sample_workspace _ eq_refl Hne eq_refl Hv) as [_ [H2 _]].
  apply H2. reflexivity.
Defined.

Lemma contact_validation_short_circuits_witness :
  contact sample_accepts sample_rate_limit notifier_raising sample_default
    None spam_form None (mkSt sample_db sample_db sample_fs)
  = (Ok (mkReply (Jsonify (PDict [("success", PBool true)])) []),
     mkSt sample_db sample_db sample_fs).
Proof.
  apply (proj1 (contact_validation_short_circuits sample_accepts
                  sample_rate_limit notifier_raising sample_default None
                  spam_form None (mkSt sample_db sample_db sample_fs))).
  discriminate.
Defined.

Lemma contact_failure_keeps_database_witness :
  contact sample_accepts sample_rate_limit notifier_reporting_failure
    sample_default None stranger_form None
    (mkSt sample_db sample_db sample_fs)
  = (Ok (mkReply (RedirectTo (UrlFor "pages.index")) [failure_flash]),
     mkSt sample_db sample_db sample_fs).
Proof.
  apply (contact_failure_keeps_database sample_accepts sample_rate_limit
           notifier_reporting_failure sample_default None stranger_form None
           sample_db sample_fs).
  - vm_compute. reflexivity.
  - reflexivity.
  - left. vm_compute. reflexivity.
Defined.


Lemma contact_then_load_witness :
  exists view,
    load_data sample_now sample_set_order sample_badge
      (committed (snd (contact sample_accepts sample_rate_limit
                         notifier_reporting_failure sample_default None
                         sample_form None
                         (mkSt sample_db sample_db sample_fs))))
      sample_fs (Some (field sample_form "portfolio_owner"))
    = Ok view.
Proof.
  eassert (Hv : workspace_to_dict sample_now sample_set_order
                  (committed (snd (contact sample_accepts sample_rate_limit
                                     notifier_reporting_failure sample_default
                                     None sample_form None
                                     (mkSt sample_db sample_db sample_fs))))
                  (Some sample_workspace) = Ok _)
    by (vm_compute; reflexivity).
  eexists.
  refine (proj1 (contact_then_load sample_now sample_set_order sample_badge
                   sample_accepts sample_rate_limit notifier_reporting_failure
                   sample_default None sample_form None sample_db sample_fs
                   sample_workspace _ _ eq_refl _ eq_refl Hv)).
  - vm_compute. reflexivity.
  - vm_compute. reflexivity.
Defined.

Lemma unknown_user_gets_404_witness :
  user_portfolio sample_now sample_set_order sample_badge sample_track
    sample_db sample_fs "nobody"
  = Ok (mkReply (RenderTemplate "404.html" [] 404) []).
Proof.
  eapply (unknown_user_gets_404 sample_now sample_set_order sample_badge
            sample_track sample_db sample_fs "nobody").
  - vm_compute. reflexivity.
  - vm_compute. reflexivity.
  - discriminate.
Defined.

Lemma user_portfolio_renders_witness :
  exists r,
    user_portfolio sample_now sample_set_order sample_badge sample_track
      sample_db sample_fs "ann" = Ok r.
Proof.
  eassert (Hl : load_data sample_now sample_set_order sample_badge sample_db
                  sample_fs (Some "ann") = Ok (PDict _))
    by (vm_compute; reflexivity).
  eassert (Hu : listed_users sample_now sample_set_order sample_badge
                  sample_db sample_fs = Ok _)
    by (vm_compute; reflexivity).
  match type of Hu with
  | _ = Ok ?users =>
      eassert (Hf : find_user users "ann" = Ok (Some (PDict _)))
        by (vm_compute; reflexivity)
  end.
  assert (Hne : "ann" <> "admin") by discriminate.
  pose proof (user_portfolio_renders sample_now sample_set_order sample_badge
                sample_track sample_db sample_fs "ann" _ _ _ Hl Hu Hf Hne
                eq_refl) as H.
  cbn zeta in H. destruct H as [_ [H _]].
  eexists. eapply H; [reflexivity|vm_compute; reflexivity].
Defined.

Lemma download_cv_streams_pdf_witness :
  download_cv sample_now sample_set_order sample_badge sample_render
    weasyprint_ok pdfkit_missing no_binary sample_configuration
    sample_from_string sample_db sample_fs (Some "ann")
  = Ok (mkReply (SendFile "%PDF-A" "application/pdf" "Ann_CV.pdf") []).
Proof.
  eassert (Hl : load_data sample_now sample_set_order sample_badge sample_db
                  sample_fs (Some "ann") = Ok _)
    by (vm_compute; reflexivity).
  pose proof (download_cv_streams_pdf sample_now sample_set_order sample_badge
                sample_render weasyprint_ok pdfkit_missing no_binary
                sample_configuration sample_from_string sample_db sample_fs
                (Some "ann") _ "<html></html>" "Ann" Hl eq_refl eq_refl) as H.
  cbn zeta in H. destruct H as [_ [H _]].
  apply (H "%PDF-A"). reflexivity.
Defined.

Lemma download_cv_outcomes_witness :
  exists r,
    download_cv sample_now sample_set_order sample_badge sample_render
      weasyprint_missing pdfkit_missing no_binary sample_configuration
      sample_from_string sample_db sample_fs None = Ok r
    /\ ((exists pdf name,
           r = mkReply (SendFile pdf "application/pdf"
                          (replace_spaces name ++ "_CV.pdf")) [])
        \/ (exists message, r = back_to_preview message)).
Proof.
  eassert (Hl : load_data sample_now sample_set_order sample_badge sample_db
                  sample_fs (Some "admin") = Ok _)
    by (vm_compute; reflexivity).
  destruct (download_cv_outcomes sample_now sample_set_order sample_badge
              sample_render weasyprint_missing pdfkit_missing no_binary
              sample_configuration sample_from_string sample_db sample_fs
              None _ "<html></html>" Hl eq_refl) as [r [Hr [Hshape _]]].
  exists r. split; assumption.
Defined.

Lemma cv_preview_lists_active_services_witness :
  exists r,
    cv_preview sample_now sample_set_order sample_badge pdfkit_missing
      no_binary weasyprint_import_ok sample_db sample_fs (Some "ann") = Ok r.
Proof.
  eassert (Hv : workspace_to_dict sample_now sample_set_order sample_db
                  (Some sample_workspace) = Ok _)
    by (vm_compute; reflexivity).
  assert (Hne : "ann" <> "") by discriminate.
  eexists.
  apply (cv_preview_lists_active_services sample_now sample_set_order
           sample_badge pdfkit_missing no_binary weasyprint_import_ok
           sample_db sample_fs "ann" sample_workspace _ (PBool true) PNone
           [("theme", PStr "luxury-gold")] Hne eq_refl Hv eq_refl eq_refl).
Defined.

Lemma cv_preview_probes_witness :
  cv_preview sample_now sample_set_order sample_badge pdfkit_missing
    no_binary weasyprint_import_broken sample_db sample_fs (Some "ann")
  = Raise (OtherException "broken install").
Proof.
  apply (proj1 (cv_preview_probes sample_now sample_set_order sample_badge
                  pdfkit_missing no_binary weasyprint_import_broken
                  sample_db sample_fs (Some "ann"))).
  - reflexivity.
  - exact I.
Defined.

(* ================================================================== *)
(** * Further properties: the project page *)
(* ================================================================== *)

Section ProjectPage.

Context {platform : Platform}.

Variable now : Datetime.t.
Variable set_order : list pyval -> list pyval.
Variable determine_badge : pyval -> result pyval.
Variable py_int : string -> option Z.
Variable py_repr : pyval -> string.

Local Abbreviation load := (load_data now set_order determine_badge).
Local Abbreviation page :=
  (project_detail now set_order determine_badge py_int py_repr).
Local Abbreviation matches := (id_matches py_int py_repr).
Local Abbreviation first_of := (first_project py_int py_repr).

Lemma first_project_skip (pre post : list pyval) (p : pyval)
    (project_id : string) :
  Forall (fun q => matches project_id q = Ok false) pre ->
  matches project_id p = Ok true ->
  first_of (pre ++ p :: post) project_id = Ok (Some p).
Proof.
  intros Hpre Hp. induction Hpre as [|q pre Hq _ IH]; cbn [app first_project].
  - rewrite Hp. reflexivity.
  - rewrite Hq. cbn [bind]. exact IH.
Qed.

Lemma first_project_none (ps : list pyval) (project_id : string) :
  Forall (fun q => matches project_id q = Ok false) ps ->
  first_of ps project_id = Ok None.
Proof.
  intros H. induction H as [|q ps Hq _ IH]; cbn [first_project]; [reflexivity|].
  rewrite Hq. cbn [bind]. exact IH.
Qed.

Lemma project_detail_shows
    (db : DB) (fs : FS) (username project_id : string)
    (ud p st : pydict) (pre post : list pyval) :
  load db fs (Some username) = Ok (PDict ud) ->
  dict_get ud "projects" = Some (PList (pre ++ PDict p :: post)) ->
  Forall (fun q => matches project_id q = Ok false) pre ->
  matches project_id (PDict p) = Ok true ->
  p <> [] ->
  dict_get_default ud "settings" (PDict []) = PDict st ->
  page db fs username project_id
  = Ok (mkReply
          (RenderTemplate "project_detail.html"
             [("project", PDict p); ("data", PDict ud);
              ("current_theme",
               dict_get_default st "theme" (PStr "luxury-gold"))] 200)
          []).
Proof.
  intros Hload Hproj Hpre Hp Hne Hst. unfold project_detail.
  rewrite Hload. cbn [bind].
  assert (Hud : truthy (PDict ud) = true)
    by (destruct ud; [discriminate|reflexivity]).
  rewrite Hud. cbn [negb py_get bind].
  unfold dict_get_default at 1. rewrite Hproj. cbn [py_iter bind].
  rewrite (first_project_skip _ _ _ _ Hpre Hp). cbn [bind].
  assert (Htp : truthy (PDict p) = true)
    by (destruct p; [contradiction|reflexivity]).
  rewrite Htp, Hst. reflexivity.
Qed.

(** X25.  The project page shows the first project of the view whose
    id is the URL segment, be it an integer id written in decimal or a
    string id equal to the segment, however [int] reads the segment. *)
Theorem project_detail_finds_id
    (db : DB) (fs : FS) (username project_id : string)
    (ud p st : pydict) (pre post : list pyval) :
  load db fs (Some username) = Ok (PDict ud) ->
  dict_get ud "projects" = Some (PList (pre ++ PDict p :: post)) ->
  Forall (fun q => matches project_id q = Ok false) pre ->
  (exists n, dict_get p "id" = Some (PInt n) /\ project_id = str_of_int n)
  \/ dict_get p "id" = Some (PStr project_id) ->
  dict_get_default ud "settings" (PDict []) = PDict st ->
  page db fs username project_id
  = Ok (mkReply
          (RenderTemplate "project_detail.html"
             [("project", PDict p); ("data", PDict ud);
              ("current_theme",
               dict_get_default st "theme" (PStr "luxury-gold"))] 200)
          []).
Proof.
  intros Hload Hproj Hpre Hid Hst.
  apply (project_detail_shows db fs username project_id ud p st pre post);
    try assumption.
  - unfold id_matches. cbn [py_get bind]. unfold dict_get_default.
    destruct Hid as [[n [Hn ->]]|Hs].
    + rewrite Hn. cbn [py_str]. rewrite String.eqb_refl, orb_true_r.
      reflexivity.
    + rewrite Hs. cbn [py_str]. rewrite String.eqb_refl, orb_true_r.
      reflexivity.
  - intros ->. destruct Hid as [[n [Hn _]]|Hs]; discriminate.
Qed.

(** X26.  The project page answers 404 when the loaded view is empty
    (as after a failed flat-file read) and when no project of the view
    matches the URL segment, in particular when the view has no
    projects. *)
Theorem project_detail_not_found
    (db : DB) (fs : FS) (username project_id : string) :
  (forall v, load db fs (Some username) = Ok v -> truthy v = false ->
     page db fs username project_id = Ok not_found)
  /\ (forall ud ps,
        load db fs (Some username) = Ok (PDict ud) ->
        dict_get_default ud "projects" (PList []) = PList ps ->
        Forall (fun q => matches project_id q = Ok false) ps ->
        page db fs username project_id = Ok not_found).
Proof.
  split.
  - intros v Hload Hv. unfold project_detail. rewrite Hload. cbn [bind].
    rewrite Hv. reflexivity.
  - intros ud ps Hload Hproj Hnone. unfold project_detail.
    rewrite Hload. cbn [bind].
    destruct (truthy (PDict ud)); [|reflexivity].
    cbn [negb py_get bind]. rewrite Hproj. cbn [py_iter bind].
    rewrite (first_project_none _ _ Hnone). reflexivity.
Qed.

(** X27.  A URL segment that [int] does not read matches a project
    that has no id: the comparison of the missing id with the failed
    conversion holds, so the first such project is shown. *)
Theorem project_detail_matches_missing_id
    (db : DB) (fs : FS) (username project_id : string)
    (ud p st : pydict) (pre post : list pyval) :
  py_int project_id = None ->
  load db fs (Some username) = Ok (PDict ud) ->
  dict_get ud "projects" = Some (PList (pre ++ PDict p :: post)) ->
  Forall (fun q => matches project_id q = Ok false) pre ->
  dict_get p "id" = None ->
  p <> [] ->
  dict_get_default ud "settings" (PDict []) = PDict st ->
  page db fs username project_id
  = Ok (mkReply
          (RenderTemplate "project_detail.html"
             [("project", PDict p); ("data", PDict ud);
              ("current_theme",
               dict_get_default st "theme" (PStr "luxury-gold"))] 200)
          []).
Proof.
  intros Hint Hload Hproj Hpre Hid Hne Hst.
  apply (project_detail_shows db fs username project_id ud p st pre post);
    try assumption.
  unfold id_matches. cbn [py_get bind]. unfold dict_get_default.
  rewrite Hid, Hint. reflexivity.
Qed.

End ProjectPage.

Lemma project_detail_finds_id_witness :
  exists r,
    project_detail sample_now sample_set_order sample_badge sample_int
      sample_repr sample_db sample_fs "ann" "7" = Ok r.
Proof.
  eassert (Hl : load_data sample_now sample_set_order sample_badge sample_db
                  sample_fs (Some "ann") = Ok (PDict _))
    by (vm_compute; reflexivity).
  eexists.
  refine (project_detail_finds_id sample_now sample_set_order sample_badge
            sample_int sample_repr sample_db sample_fs "ann" "7"
            _ (project_to_dict sample_project) [("theme", PStr "luxury-gold")]
            [] [] Hl eq_refl _ _ eq_refl).
  - constructor.
  - left. exists 7%Z. split; reflexivity.
Defined.

Lemma project_detail_not_found_witness :
  project_detail sample_now sample_set_order sample_badge sample_int
    sample_repr sample_db sample_fs "nobody" "7" = Ok not_found.
Proof.
  eassert (Hl : load_data sample_now sample_set_order sample_badge sample_db
                  sample_fs (Some "nobody") = Ok (PDict _))
    by (vm_compute; reflexivity).
  refine (proj2 (project_detail_not_found sample_now sample_set_order
                   sample_badge sample_int sample_repr sample_db sample_fs
                   "nobody" "7") _ [] Hl eq_refl _).
  constructor.
Defined.

Lemma project_detail_matches_missing_id_witness :
  exists r,
    project_detail sample_now sample_set_order sample_badge sample_int
      sample_repr sample_db no_id_fs "carl" "abc" = Ok r.
Proof.
  eassert (Hl : load_data sample_now sample_set_order sample_badge sample_db
                  no_id_fs (Some "carl") = Ok (PDict _))
    by (vm_compute; reflexivity).
  eexists.
  refine (project_detail_matches_missing_id sample_now sample_set_order
            sample_badge sample_int sample_repr sample_db no_id_fs
            "carl" "abc" _
            [("title", PStr "Untitled"); ("project_type", PStr "portfolio");
             ("badge", PStr "")]
            [] [] [] eq_refl Hl eq_refl _ eq_refl _ eq_refl).
  - constructor.
  - discriminate.
Defined.

(* ================================================================== *)
(** * Further properties: isolation on read *)
(* ================================================================== *)

Section ReadIsolation.

Context {platform : Platform}.

Variable now : Datetime.t.
Variable set_order : list pyval -> list pyval.

Local Abbreviation materialize := (workspace_to_dict now set_order).

(** X28.  The view of a workspace is determined by the workspace row
    and the rows that carry its id: two databases that agree on those
    rows give the same view, whatever rows of other workspaces they
    hold. *)
Theorem view_depends_on_own_rows (db1 db2 : DB) (w : Workspace.t) :
  available db1 = available db2 ->
  rows_of Skill.workspace_id w (skills db1)
  = rows_of Skill.workspace_id w (skills db2) ->
  rows_of Project.workspace_id w (projects db1)
  = rows_of Project.workspace_id w (projects db2) ->
  rows_of Client.workspace_id w (clients db1)
  = rows_of Client.workspace_id w (clients db2) ->
  rows_of Message.workspace_id w (messages db1)
  = rows_of Message.workspace_id w (messages db2) ->
  rows_of Service.workspace_id w (services db1)
  = rows_of Service.workspace_id w (services db2) ->
  rows_of VisitorLog.workspace_id w (visitor_logs db1)
  = rows_of VisitorLog.workspace_id w (visitor_logs db2) ->
  rows_of NotificationSettings.workspace_id w (notification_settings db1)
  = rows_of NotificationSettings.workspace_id w (notification_settings db2) ->
  materialize db1 (Some w) = materialize db2 (Some w).
Proof.
  unfold rows_of. intros Hav Hs Hp Hc Hm Hsv Hv Hn.
  unfold workspace_to_dict, filter_by_workspace, query_all.
  rewrite Hav. destruct (available db2); cbn [bind]; [|reflexivity].
  rewrite Hs, Hp, Hc, Hm, Hsv, Hv, Hn. reflexivity.
Qed.

End ReadIsolation.

Lemma view_depends_on_own_rows_witness :
  workspace_to_dict sample_now sample_set_order crowded_db
    (Some sample_workspace)
  = workspace_to_dict sample_now sample_set_order sample_db
      (Some sample_workspace).
Proof.
  apply (view_depends_on_own_rows sample_now sample_set_order crowded_db
           sample_db sample_workspace); reflexivity.
Defined.
